(** * Europe Development Visualizer (app.py)

    The data pipeline ([fetch_worldbank_page], [get_worldbank_data]), the
    registries and the year slider of the layout, and the callbacks that
    compute from the loaded table ([download_csv], [update_kpis],
    [update_line_chart], [update_bar_chart], [update_map_chart]), embedded as
    functions over the values the Python code handles.

    Conventions of the embedding.
    - A parsed JSON response is a [json] tree; a Python object that several
      names share lives in the [store] of the [fetcher], and the names hold its
      location.
    - Text is a [string] of characters below 256.
    - float64 is Rocq's primitive binary64 [float]; a missing number is NaN, as
      in pandas.  Where every value is an integer pandas keeps the column as
      int64; the tables here hold the float64 of each value, which behaves the
      same for integers of magnitude up to 2^53.
    - A table is its column names and its rows; a cell of the code, name or
      year column may be missing.  In [df_clean] a cell of the Country column
      is the Python object that [fillna] left there: the name from the
      registry or, for a code that is not in it, what the record has under
      "country", an object as the World Bank sends it.  In the loaded table a
      Country cell is a name or is missing.
    - The World Bank sends the code as text, the date as a year in digits and
      the value as a number or null; [pd.to_numeric] and the code column are
      written for these, and a cell of another form is read as missing.
    - The API is a function from the request to the parsed response, or to
      a failure.
    - pandas' single-column [sort_values] (quicksort) leaves the order of equal
      keys open; the embedding keeps them in their former order, and the
      theorems on the rank and on the year-over-year change are stated for
      whatever order the sort leaves equal keys in. *)

From Stdlib Require Import ZArith List String Ascii Bool Lia Floats.
From Stdlib Require Import Permutation Sorted DecimalString.
Import ListNotations.
Local Open Scope string_scope.
Local Open Scope list_scope.
Local Open Scope Z_scope.

(** ** Python values *)

Inductive exn : Type :=
| HTTPError | TypeError | ValueError | OverflowError
| AttributeError | KeyError | IndexError.

Inductive result (A : Type) : Type :=
| Ok (a : A)
| Raise (e : exn).
Arguments Ok {A} a.
Arguments Raise {A} e.

Definition rbind {A B : Type} (r : result A) (k : A -> result B) : result B :=
  match r with
  | Ok a => k a
  | Raise e => Raise e
  end.

(** What [r.json()] returns. *)
#[local] Set Warnings "-register-all".
Inductive json : Type :=
| JNull
| JBool (b : bool)
| JInt (n : Z)
| JFloat (x : float)
| JStr (s : string)
| JList (xs : list json)
| JDict (items : list (string * json)).

(** [bool(j)], as [not first_page[1]] and [and json_data[1]] take it. *)
Definition truthy (j : json) : bool :=
  match j with
  | JNull => false
  | JBool b => b
  | JInt n => negb (n =? 0)
  | JFloat x => negb (PrimFloat.eqb x 0%float)
  | JStr s => negb (String.eqb s "")
  | JList xs => match xs with [] => false | _ => true end
  | JDict items => match items with [] => false | _ => true end
  end.

(** [len(j)]. *)
Definition py_len (j : json) : result Z :=
  match j with
  | JList xs => Ok (Z.of_nat (List.length xs))
  | JStr s => Ok (Z.of_nat (String.length s))
  | JDict items => Ok (Z.of_nat (List.length items))
  | _ => Raise TypeError
  end.

(** [j[1]].  The keys of a JSON object are strings, so the key [1] is in none. *)
Definition py_item1 (j : json) : result json :=
  match j with
  | JList xs => match nth_error xs 1 with Some x => Ok x | None => Raise IndexError end
  | JStr s => match String.get 1 s with Some c => Ok (JStr (String c "")) | None => Raise IndexError end
  | JDict _ => Raise KeyError
  | _ => Raise TypeError
  end.

(** Iterating over [j], as [list.extend] does. *)
Fixpoint chars (s : string) : list json :=
  match s with
  | EmptyString => []
  | String c s' => JStr (String c "") :: chars s'
  end.

Definition py_iter (j : json) : result (list json) :=
  match j with
  | JList xs => Ok xs
  | JStr s => Ok (chars s)
  | JDict items => Ok (map (fun kv => JStr (fst kv)) items)
  | _ => Raise TypeError
  end.

(** A dict keeps one entry per key, in insertion order. *)
Fixpoint lookup {V : Type} (k : string) (items : list (string * V)) : option V :=
  match items with
  | [] => None
  | (k', v) :: rest => if String.eqb k k' then Some v else lookup k rest
  end.

(** [j.get(k, default)]: only a dict has [get]. *)
Definition dict_get (j : json) (k : string) (default : json) : result json :=
  match j with
  | JDict items => Ok (match lookup k items with Some v => v | None => default end)
  | _ => Raise AttributeError
  end.

(** Digit text as [pd.to_numeric] reads an integer from it here: an optional
    sign and one digit or more. *)
Definition digit_of (c : ascii) : option Z :=
  let n := Z.of_N (N_of_ascii c) in
  if (48 <=? n) && (n <=? 57) then Some (n - 48) else None.

Fixpoint digits_value (acc : Z) (s : string) : option Z :=
  match s with
  | EmptyString => Some acc
  | String c s' =>
      match digit_of c with
      | Some d => digits_value (10 * acc + d) s'
      | None => None
      end
  end.

Definition parse_int (s : string) : option Z :=
  match s with
  | EmptyString => None
  | String c rest =>
      if Ascii.eqb c "-"%char then
        match rest with
        | EmptyString => None
        | _ => option_map Z.opp (digits_value 0 rest)
        end
      else if Ascii.eqb c "+"%char then
        match rest with
        | EmptyString => None
        | _ => digits_value 0 rest
        end
      else digits_value 0 s
  end.

(** [int(s)] of text, in base 10: blanks around, an optional sign, then digits
    with single underscores allowed between them; no more than 4300 digits
    ([sys.int_info.default_max_str_digits]).  The blanks are tab, line feed,
    vertical tab, form feed, carriage return and space and, beyond ASCII,
    U+0085 and U+00A0. *)
Definition is_space (c : ascii) : bool :=
  let n := Z.of_N (N_of_ascii c) in
  ((9 <=? n) && (n <=? 13)) || (n =? 32) || (n =? 133) || (n =? 160).

Fixpoint lstrip (s : string) : string :=
  match s with
  | EmptyString => EmptyString
  | String c s' => if is_space c then lstrip s' else s
  end.

Fixpoint all_space (s : string) : bool :=
  match s with
  | EmptyString => true
  | String c s' => is_space c && all_space s'
  end.

(** After a digit: the value and the number of the digits read, and the text
    that follows them; nothing where an underscore is not between digits. *)
Fixpoint more_digits (acc : Z) (count : nat) (s : string) : option (Z * nat * string) :=
  match s with
  | EmptyString => Some (acc, count, EmptyString)
  | String c s' =>
      match digit_of c with
      | Some d => more_digits (10 * acc + d) (S count) s'
      | None =>
          if Ascii.eqb c "_"%char then
            match s' with
            | String c' s'' =>
                match digit_of c' with
                | Some d => more_digits (10 * acc + d) (S count) s''
                | None => None
                end
            | EmptyString => None
            end
          else Some (acc, count, s)
      end
  end.

Definition max_str_digits : nat := 4300.

Definition unsigned_of_text (s : string) : option Z :=
  match s with
  | EmptyString => None
  | String c s' =>
      match digit_of c with
      | Some d =>
          match more_digits d 1 s' with
          | Some (n, count, rest) =>
              if all_space rest && (count <=? max_str_digits)%nat then Some n else None
          | None => None
          end
      | None => None
      end
  end.

Definition int_of_text (s : string) : option Z :=
  match lstrip s with
  | EmptyString => None
  | String c rest as s' =>
      if Ascii.eqb c "-"%char then option_map Z.opp (unsigned_of_text rest)
      else if Ascii.eqb c "+"%char then unsigned_of_text rest
      else unsigned_of_text s'
  end.

(** [int(x)] of a float: towards zero; NaN and the infinities raise. *)
Definition trunc_float (x : float) : result Z :=
  match Prim2SF x with
  | S754_nan => Raise ValueError
  | S754_infinity _ => Raise OverflowError
  | S754_zero _ => Ok 0
  | S754_finite s m e =>
      let a := Z.shiftl (Zpos m) e in
      Ok (if s then - a else a)
  end.

(** [float(n)] of an integer, rounded to nearest even. *)
Definition float_of_Z (n : Z) : float :=
  SF2Prim (binary_normalize prec emax n 0 false).

(** [int(j)]. *)
Definition py_int (j : json) : result Z :=
  match j with
  | JInt n => Ok n
  | JBool b => Ok (if b then 1 else 0)
  | JFloat x => trunc_float x
  | JStr s => match int_of_text s with Some n => Ok n | None => Raise ValueError end
  | JNull | JList _ | JDict _ => Raise TypeError
  end.

(** [f"{n}"] of an integer. *)
Definition str_of_Z (n : Z) : string := NilZero.string_of_int (Z.to_int n).

(** ** Tables *)

(** A row of a table with the five columns, [C] being what a cell of the
    Country column holds.  [None] in a text or year cell and NaN in [Value]
    are pandas' missing value. *)
Record row_of (C : Type) : Type := mkRow {
  ISO3Code : option string;
  Country : C;
  Year : option Z;
  Value : float;
  Indicator : string
}.
Arguments mkRow {C} _ _ _ _ _.
Arguments ISO3Code {C} _.
Arguments Country {C} _.
Arguments Year {C} _.
Arguments Value {C} _.
Arguments Indicator {C} _.

Record table (C : Type) : Type := mkFrame {
  columns : list string;
  rows : list (row_of C)
}.
Arguments mkFrame {C} _ _.
Arguments columns {C} _.
Arguments rows {C} _.

(** The loaded table, [DF_ALL]: a Country cell is a name or is missing. *)
Abbreviation row := (row_of (option string)).

Abbreviation DataFrame := (table (option string)).

Definition canonical_columns : list string :=
  ["ISO3Code"; "Country"; "Year"; "Value"; "Indicator"].

(** [df.empty]: no row or no column. *)
Definition empty (df : DataFrame) : bool :=
  match columns df, rows df with
  | _ :: _, _ :: _ => false
  | _, _ => true
  end.

Definition notna (x : float) : bool := negb (PrimFloat.is_nan x).

(** [df.dropna(subset=['Value', 'Year'])] and [df.dropna(subset=['Value'])]. *)
Definition dropna_value_year {C : Type} (rs : list (row_of C)) : list (row_of C) :=
  filter (fun r => notna (Value r) && match Year r with Some _ => true | None => false end) rs.

Definition dropna_value (rs : list row) : list row :=
  filter (fun r => notna (Value r)) rs.

(** Sorting: insertion from the right, an element going before its equals,
    so that equal keys keep their order. *)
Fixpoint insert_by {A : Type} (le : A -> A -> bool) (x : A) (l : list A) : list A :=
  match l with
  | [] => [x]
  | y :: l' => if le x y then x :: l else y :: insert_by le x l'
  end.

Fixpoint sort_by {A : Type} (le : A -> A -> bool) (l : list A) : list A :=
  match l with
  | [] => []
  | x :: l' => insert_by le x (sort_by le l')
  end.

(** Orders on cells, the missing value last. *)
Definition opt_compare {A : Type} (cmp : A -> A -> comparison) (a b : option A) : comparison :=
  match a, b with
  | Some x, Some y => cmp x y
  | Some _, None => Lt
  | None, Some _ => Gt
  | None, None => Eq
  end.

Definition lex (c1 c2 : comparison) : comparison :=
  match c1 with
  | Eq => c2
  | _ => c1
  end.

Definition not_gt (c : comparison) : bool :=
  match c with
  | Gt => false
  | _ => true
  end.

(** The key of [sort_values(['Indicator', 'Country', 'Year'])]. *)
Definition key_compare (r1 r2 : row) : comparison :=
  lex (String.compare (Indicator r1) (Indicator r2))
      (lex (opt_compare String.compare (Country r1) (Country r2))
           (opt_compare Z.compare (Year r1) (Year r2))).

Definition key_le (r1 r2 : row) : bool := not_gt (key_compare r1 r2).

Definition sort_values_key (rs : list row) : list row := sort_by key_le rs.

(** [sort_values('Year')]. *)
Definition year_le (r1 r2 : row) : bool :=
  not_gt (opt_compare Z.compare (Year r1) (Year r2)).

Definition sort_values_year (rs : list row) : list row := sort_by year_le rs.

(** [sort_values('Value', ascending=False)]: the numbers from the largest
    down, then the missing values. *)
Definition value_ge (r1 r2 : row) : bool := negb (PrimFloat.ltb (Value r1) (Value r2)).

Definition sort_values_value_desc (rs : list row) : list row :=
  sort_by value_ge (filter (fun r => notna (Value r)) rs)
  ++ filter (fun r => PrimFloat.is_nan (Value r)) rs.

(** [pd.concat(dfs, ignore_index=True)]: the columns in order of first
    appearance, the rows one frame after the other. *)
Fixpoint union_columns (acc cs : list string) : list string :=
  match cs with
  | [] => acc
  | c :: cs' =>
      if existsb (String.eqb c) acc then union_columns acc cs'
      else union_columns (acc ++ [c]) cs'
  end.

Definition concat {C : Type} (dfs : list (table C)) : table C :=
  {| columns := fold_left (fun acc df => union_columns acc (columns df)) dfs [];
     rows := flat_map rows dfs |}.

(** A cell of the Country column of [df_clean] is a Python object: the name
    from the registry or, by [fillna], what the record has under "country".
    [sort_values] with several keys factorizes each key column, which hashes
    the cells: a dict or a list is not hashable. *)
Definition hashable (j : json) : bool :=
  match j with
  | JList _ | JDict _ => false
  | _ => true
  end.

(** The cell in the loaded table: text is a name, null is missing.  (A number
    or a boolean, which is hashable, is written as missing.) *)
Definition name_of (j : json) : option string :=
  match j with
  | JStr s => Some s
  | _ => None
  end.

Definition loaded_row (r : row_of json) : row :=
  {| ISO3Code := ISO3Code r; Country := name_of (Country r); Year := Year r;
     Value := Value r; Indicator := Indicator r |}.

(** [df.sort_values(['Indicator', 'Country', 'Year'])] on the concatenated
    frames. *)
Definition sort_values (rs : list (row_of json)) : result (list row) :=
  if forallb (fun r => hashable (Country r)) rs
  then Ok (sort_values_key (map loaded_row rs))
  else Raise TypeError.

(** ** The page fetcher *)

(** The arguments of a call of [fetch_worldbank_page]: the joined country
    codes, the indicator code, the date range and the page.  [per_page] keeps
    its default, 2000, in every call. *)
Definition key : Type := (string * string * string * Z)%type.

Definition key_eqb (a b : key) : bool :=
  let '(c1, i1, d1, p1) := a in
  let '(c2, i2, d2, p2) := b in
  String.eqb c1 c2 && String.eqb i1 i2 && String.eqb d1 d2 && (p1 =? p2).

(** [store]: the objects that [r.json()] has built, by location.
    [cache]: the entries of the [lru_cache], the most recently used first;
    an entry holds the location of the object the call returned. *)
Record fetcher : Type := mkFetcher {
  store : list json;
  cache : list (key * nat)
}.

Definition maxsize : nat := 64.

Definition no_fetches : fetcher := {| store := []; cache := [] |}.

Fixpoint cache_find (k : key) (c : list (key * nat)) : option nat :=
  match c with
  | [] => None
  | (k', loc) :: c' => if key_eqb k k' then Some loc else cache_find k c'
  end.

Definition cache_remove (k : key) (c : list (key * nat)) : list (key * nat) :=
  filter (fun e => negb (key_eqb k (fst e))) c.

Definition deref (st : fetcher) (loc : nat) : json := nth loc (store st) JNull.

Fixpoint set_nth {A : Type} (n : nat) (x : A) (l : list A) : list A :=
  match l, n with
  | [], _ => []
  | _ :: l', O => x :: l'
  | y :: l', S n' => y :: set_nth n' x l'
  end.

(** Code that reads and changes the fetcher and may raise. *)
Definition M (A : Type) : Type := fetcher -> fetcher * result A.

Definition ret {A : Type} (a : A) : M A := fun st => (st, Ok a).

Definition bind {A B : Type} (m : M A) (k : A -> M B) : M B :=
  fun st =>
    match m st with
    | (st', Ok a) => k a st'
    | (st', Raise e) => (st', Raise e)
    end.

Definition lift {A : Type} (r : result A) : M A := fun st => (st, r).

Definition read (loc : nat) : M json := fun st => (st, Ok (deref st loc)).

Notation "x <- m ;; k" := (bind m (fun x => k))
  (at level 61, m at next level, right associativity).

(** [for x in xs: body(x)], left at the first exception. *)
Fixpoint for_each {A : Type} (xs : list A) (body : A -> M unit) : M unit :=
  match xs with
  | [] => ret tt
  | x :: xs' => _ <- body x ;; for_each xs' body
  end.

(** [range(a, b)]. *)
Definition py_range (a b : Z) : list Z :=
  map (fun i => a + Z.of_nat i) (seq 0 (Z.to_nat (b - a))).

(** [all_rows.extend(more)], where [all_rows] is the object [first_page[1]]
    and [first_page] the object at [loc]: the list is changed in place, for
    every holder of [first_page]. *)
Definition extend_rows (loc : nat) (more : json) : M unit :=
  fun st =>
    match deref st loc with
    | JList (meta :: JList all_rows :: rest) =>
        match py_iter more with
        | Ok items =>
            ({| store := set_nth loc (JList (meta :: JList (all_rows ++ items) :: rest)) (store st);
                cache := cache st |}, Ok tt)
        | Raise e => (st, Raise e)
        end
    | _ => (st, Raise AttributeError)
    end.

(** [not isinstance(first_page, list) or len(first_page) < 2 or not first_page[1]] *)
Definition no_data (first_page : json) : bool :=
  match first_page with
  | JList xs => (Z.of_nat (List.length xs) <? 2) || negb (truthy (nth 1 xs JNull))
  | _ => true
  end.

(** [int(first_page[0].get('pages', 1))] *)
Definition total_pages_of (first_page : json) : result Z :=
  match first_page with
  | JList (meta :: _) => rbind (dict_get meta "pages" (JInt 1)) py_int
  | _ => Raise IndexError
  end.

(** [first_page[1]], read when the table is built. *)
Definition all_rows_of (first_page : json) : json :=
  match first_page with
  | JList xs => nth 1 xs JNull
  | _ => JNull
  end.

(** ** From records to rows *)

(** [{v: k for k, v in countries_dict.items()}], then looked up: of two names
    with one code the later one stays. *)
Fixpoint reverse_country_map (countries_dict : list (string * string)) (code : string)
  : option string :=
  match countries_dict with
  | [] => None
  | (k, v) :: rest =>
      match reverse_country_map rest code with
      | Some name => Some name
      | None => if String.eqb v code then Some k else None
      end
  end.

Definition text_cell (c : option json) : option string :=
  match c with
  | Some (JStr s) => Some s
  | _ => None
  end.

(** The country cell of a record: the object under "country", as it is; a
    record without the key has the missing value. *)
Definition country_cell (c : option json) : json :=
  match c with
  | Some j => j
  | None => JNull
  end.

(** [pd.to_numeric(..., errors='coerce')] on a date cell and on a value cell:
    a number stays, text is read where it is an integer in digits, and what
    is left becomes the missing value.  Years are integers. *)
Definition to_numeric_year (c : option json) : option Z :=
  match c with
  | Some (JStr s) => parse_int s
  | Some (JInt n) => Some n
  | _ => None
  end.

Definition to_numeric_value (c : option json) : float :=
  match c with
  | Some (JFloat x) => x
  | Some (JInt n) => float_of_Z n
  | Some (JStr s) => match parse_int s with Some n => float_of_Z n | None => nan end
  | _ => nan
  end.

Definition record : Type := list (string * json).

(** The row that the renaming, the country mapping with its [fillna] and the
    two coercions make of one record. *)
Definition clean_row (countries_dict : list (string * string)) (indicator_name : string)
  (d : record) : row_of json :=
  let iso := text_cell (lookup "countryiso3code" d) in
  {| ISO3Code := iso;
     Country :=
       match match iso with Some code => reverse_country_map countries_dict code | None => None end with
       | Some name => JStr name
       | None => country_cell (lookup "country" d)
       end;
     Year := to_numeric_year (lookup "date" d);
     Value := to_numeric_value (lookup "value" d);
     Indicator := indicator_name |}.

(** [pd.DataFrame(all_rows)] makes named columns of a list of dicts only. *)
Fixpoint as_records (xs : list json) : result (list record) :=
  match xs with
  | [] => Ok []
  | JDict d :: xs' => rbind (as_records xs') (fun ds => Ok (d :: ds))
  | _ :: _ => Raise AttributeError
  end.

Definition has_column (k : string) (ds : list record) : bool :=
  existsb (fun d => match lookup k d with Some _ => true | None => false end) ds.

(** From [df = pd.DataFrame(all_rows)] to [dfs.append(df_clean)]; [None] is
    the [continue] on an empty frame. *)
Definition clean_frame (countries_dict : list (string * string)) (indicator_name : string)
  (all_rows : json) : result (option (table json)) :=
  match all_rows with
  | JList xs =>
      rbind (as_records xs) (fun ds =>
        if forallb (fun d => match d with [] => true | _ => false end) ds then Ok None
        else if has_column "countryiso3code" ds && has_column "country" ds
                && has_column "date" ds && has_column "value" ds
        then Ok (Some {| columns := canonical_columns;
                         rows := dropna_value_year (map (clean_row countries_dict indicator_name) ds) |})
        else Raise KeyError)
  | _ => Raise ValueError
  end.

(** ** The pipeline *)

(** [";".join(countries_dict.values())] and [f"{start_year}:{end_year}"] *)
Definition countries_iso_of (countries_dict : list (string * string)) : string :=
  String.concat ";" (map snd countries_dict).

Definition date_range_of (start_year end_year : Z) : string :=
  (str_of_Z start_year ++ ":" ++ str_of_Z end_year)%string.

Section Pipeline.

(** The World Bank API: the parsed body of the response to a request, [None]
    where [requests.get], [raise_for_status] or [r.json()] raises. *)
Variable net : key -> option json.

(** [@lru_cache(maxsize=64) def fetch_worldbank_page]: the location of the
    page.  A hit returns the object of the first call; a call that raises
    leaves no entry. *)
Definition fetch_worldbank_page (k : key) : M nat :=
  fun st =>
    match cache_find k (cache st) with
    | Some loc =>
        ({| store := store st; cache := (k, loc) :: cache_remove k (cache st) |}, Ok loc)
    | None =>
        match net k with
        | None => (st, Raise HTTPError)
        | Some page =>
            let loc := List.length (store st) in
            ({| store := store st ++ [page];
                cache := firstn maxsize ((k, loc) :: cache st) |}, Ok loc)
        end
    end.

(** The body of [for p in range(2, total_pages + 1)]. *)
Definition add_page (countries_iso indicator_code date_range : string) (loc : nat) (p : Z)
  : M unit :=
  l <- fetch_worldbank_page (countries_iso, indicator_code, date_range, p) ;;
  json_data <- read l ;;
  n <- lift (py_len json_data) ;;
  if 1 <? n then
    x <- lift (py_item1 json_data) ;;
    if truthy x then extend_rows loc x else ret tt
  else ret tt.

(** The body of the [try] in [get_worldbank_data], for one indicator. *)
Definition try_indicator (countries_dict : list (string * string))
  (countries_iso date_range indicator_name indicator_code : string)
  : M (option (table json)) :=
  loc <- fetch_worldbank_page (countries_iso, indicator_code, date_range, 1) ;;
  first_page <- read loc ;;
  if no_data first_page then ret None
  else
    total_pages <- lift (total_pages_of first_page) ;;
    _ <- for_each (py_range 2 (total_pages + 1))
           (add_page countries_iso indicator_code date_range loc) ;;
    first_page' <- read loc ;;
    lift (clean_frame countries_dict indicator_name (all_rows_of first_page')).

(** [for indicator_name, indicator_code in indicators_dict.items()], with the
    [except Exception] that prints and goes on. *)
Fixpoint for_indicators (countries_dict : list (string * string))
  (countries_iso date_range : string) (indicators : list (string * string))
  (dfs : list (table json)) (st : fetcher) : fetcher * list (table json) :=
  match indicators with
  | [] => (st, dfs)
  | (indicator_name, indicator_code) :: rest =>
      match try_indicator countries_dict countries_iso date_range
              indicator_name indicator_code st with
      | (st', Ok (Some df_clean)) =>
          for_indicators countries_dict countries_iso date_range rest (dfs ++ [df_clean]) st'
      | (st', Ok None) =>
          for_indicators countries_dict countries_iso date_range rest dfs st'
      | (st', Raise _) =>
          for_indicators countries_dict countries_iso date_range rest dfs st'
      end
  end.

(** The sort is after the loop, outside its [try]. *)
Definition get_worldbank_data (countries_dict indicators_dict : list (string * string))
  (start_year end_year : Z) (st : fetcher) : fetcher * result DataFrame :=
  let countries_iso := countries_iso_of countries_dict in
  let date_range := date_range_of start_year end_year in
  let '(st', dfs) :=
    for_indicators countries_dict countries_iso date_range indicators_dict [] st in
  (st',
   match dfs with
   | [] => Ok {| columns := canonical_columns; rows := [] |}
   | _ => let df := concat dfs in
          rbind (sort_values (rows df)) (fun sorted =>
          Ok {| columns := columns df; rows := sorted |})
   end).

(** The frames that the loop appends, one per indicator that has data. *)
Definition indicator_frames (countries_dict indicators_dict : list (string * string))
  (start_year end_year : Z) (st : fetcher) : list (table json) :=
  snd (for_indicators countries_dict (countries_iso_of countries_dict)
         (date_range_of start_year end_year) indicators_dict [] st).

End Pipeline.

(** ** What the callbacks show *)

(** The strings of the KPI cards, by their format. *)
Inductive text : Type :=
| NA                    (* 'N/A' *)
| Blank                 (* '' *)
| Plain (v : float)     (* f"{v:,.2f}" *)
| Percent (v : float)   (* f"{v:,.2f}%" *)
| Dollars (v : float)   (* f"US$ {v:,.2f}" *)
| Delta (t : text)      (* 'Δ ' before t *)
| YearOf (y : Z)        (* f"Year {y}" *)
| Range (y0 y1 : Z)     (* f"{y0}–{y1}" *)
| RankOf (k n : Z).     (* f"#{k} of {n}" *)

(** The eight outputs of [update_kpis], under the ids of their components. *)
Record kpis : Type := mkKpis {
  kpi_value : text;
  kpi_year : text;
  kpi_var : text;
  kpi_var_abs : text;
  kpi_cagr : text;
  kpi_range : text;
  kpi_rank : text;
  kpi_top : text
}.

Inductive figure : Type :=
| NoData                       (* the empty figure titled 'No data available ...' *)
| Bar (df_last : list row).    (* px.bar over df_last *)

(** [sub in s] *)
Definition contains (sub s : string) : bool :=
  match String.index 0 sub s with
  | Some _ => true
  | None => false
  end.

Definition format_value (indicator_name : string) (v : float) : text :=
  if PrimFloat.is_nan v then NA
  else if contains "%" indicator_name then Percent v
  else if contains "US$" indicator_name then Dollars v
  else Plain v.

(** [Series == s], [Series == y] and [Series.between(y0, y1)] on a cell: a
    missing cell compares false. *)
Definition name_is (s : string) (c : option string) : bool :=
  match c with
  | Some x => String.eqb x s
  | None => false
  end.

Definition year_is (y : Z) (c : option Z) : bool :=
  match c with
  | Some n => n =? y
  | None => false
  end.

Definition between (y0 y1 : Z) (c : option Z) : bool :=
  match c with
  | Some n => (y0 <=? n) && (n <=? y1)
  | None => false
  end.

(** [int(row['Year'])]: NaN raises. *)
Definition int_year (c : option Z) : result Z :=
  match c with
  | Some n => Ok n
  | None => Raise ValueError
  end.

(** [DF_ALL[(Indicator == indicator) & (Country == kpi_country) & Year.between(y0, y1)]] *)
Definition kpi_rows (DF_ALL : DataFrame) (indicator kpi_country : string) (y0 y1 : Z)
  : list row :=
  filter (fun r => String.eqb (Indicator r) indicator
                   && name_is kpi_country (Country r)
                   && between y0 y1 (Year r)) (rows DF_ALL).

(** [DF_ALL[(Indicator == indicator) & (Year == last_year)].dropna(subset=['Value'])] *)
Definition year_rows (DF_ALL : DataFrame) (indicator : string) (last_year : Z) : list row :=
  dropna_value
    (filter (fun r => String.eqb (Indicator r) indicator && year_is last_year (Year r))
            (rows DF_ALL)).

(** [reset_index()] and [df['rank'] = df.index + 1]. *)
Definition with_rank (rs : list row) : list (Z * row) :=
  combine (map (fun i => Z.of_nat i + 1) (seq 0 (List.length rs))) rs.

(** [rank_text, top_text] of [update_kpis]. *)
Definition rank_texts (DF_ALL : DataFrame) (indicator kpi_country : string) (last_year : Z)
  : text * text :=
  match year_rows DF_ALL indicator last_year with
  | [] => (NA, Blank)
  | df_last_year =>
      let df_last_year := sort_values_value_desc df_last_year in
      let row := filter (fun kr => name_is kpi_country (Country (snd kr)))
                        (with_rank df_last_year) in
      (match row with
       | (k, _) :: _ => RankOf k (Z.of_nat (List.length df_last_year))
       | [] => NA
       end,
       YearOf last_year)
  end.

Definition all_na : kpis :=
  {| kpi_value := NA; kpi_year := NA; kpi_var := NA; kpi_var_abs := NA;
     kpi_cagr := NA; kpi_range := NA; kpi_rank := NA; kpi_top := NA |}.

Section Metrics.

(** [**] on float64 is the platform's [pow].  With the exponent 1 it returns
    its base; its other values are those of the library, [libm_pow]. *)
Variable libm_pow : float -> float -> float.

Definition float_power (x y : float) : float :=
  if PrimFloat.eqb y 1%float then x else libm_pow x y.

(** [1 / num_years] divides two integers and gives the float nearest to the
    quotient; for a span of years below 2^53 that is [1 / float_of_Z num_years]. *)
Definition update_kpis (DF_ALL : DataFrame) (indicator kpi_country : string) (y0 y1 : Z)
  : result kpis :=
  match kpi_rows DF_ALL indicator kpi_country y0 y1 with
  | [] => Ok all_na
  | df_indicator =>
      let df_indicator := sort_values_year df_indicator in
      match rev df_indicator, df_indicator with
      | last_row :: before, first_row :: _ =>
          let last_val := Value last_row in
          rbind (int_year (Year last_row)) (fun last_year =>
          let '(var_pct, var_abs) :=
            match before with
            | prev_row :: _ =>
                let prev_val := Value prev_row in
                ((if negb (PrimFloat.eqb prev_val 0) && notna prev_val
                  then (last_val - prev_val) / prev_val * 100
                  else nan),
                 last_val - prev_val)%float
            | [] => (nan, nan)
            end in
          let first_val := Value first_row in
          rbind (int_year (Year first_row)) (fun first_year =>
          let num_years := Z.max 1 (last_year - first_year) in
          let cagr :=
            (if negb (PrimFloat.eqb first_val 0) && notna first_val
             then (float_power (last_val / first_val) (1 / float_of_Z num_years) - 1) * 100
             else nan)%float in
          let '(rank_text, top_text) := rank_texts DF_ALL indicator kpi_country last_year in
          Ok {| kpi_value := format_value indicator last_val;
                kpi_year := YearOf last_year;
                kpi_var := if notna var_pct then Percent var_pct else NA;
                kpi_var_abs := if notna var_abs then Delta (format_value indicator var_abs)
                               else Delta NA;
                kpi_cagr := if notna cagr then Percent cagr else NA;
                kpi_range := Range y0 y1;
                kpi_rank := rank_text;
                kpi_top := top_text |}))
      | _, _ => Raise IndexError
      end
  end.

End Metrics.

(** ** The bar chart *)

(** The keys of [groupby('Country')]: the names present, each once, in
    ascending order; rows without a name are in no group. *)
Fixpoint group_keys (rs : list row) : list string :=
  match rs with
  | [] => []
  | r :: rs' =>
      let ks := group_keys rs' in
      match Country r with
      | Some c => if existsb (String.eqb c) ks then ks else insert_by String.leb c ks
      | None => ks
      end
  end.

(** [idxmax()] of one group: the label of the first largest value, the
    missing values skipped; no label when every value is missing. *)
Fixpoint idxmax (g : list (nat * row)) (best : option (nat * float)) : option nat :=
  match g with
  | [] => option_map fst best
  | (i, r) :: g' =>
      if PrimFloat.is_nan (Value r) then idxmax g' best
      else match best with
           | None => idxmax g' (Some (i, Value r))
           | Some (_, b) =>
               if PrimFloat.ltb b (Value r) then idxmax g' (Some (i, Value r))
               else idxmax g' best
           end
  end.

(** Sorting labelled rows by year. *)
Definition sort_labelled_year (rs : list (nat * row)) : list (nat * row) :=
  sort_by (fun a b => year_le (snd a) (snd b)) rs.

(** [df.sort_values('Year').groupby('Country')['Value'].idxmax()]: one label
    per group; a group without a value makes the selection raise. *)
Fixpoint all_ok {A : Type} (l : list (option A)) : result (list A) :=
  match l with
  | [] => Ok []
  | Some a :: l' => rbind (all_ok l') (fun r => Ok (a :: r))
  | None :: _ => Raise KeyError
  end.

Definition idxmax_by_country (df : list (nat * row)) : result (list nat) :=
  let sorted := sort_labelled_year df in
  all_ok (map (fun c => idxmax (filter (fun ir => name_is c (Country (snd ir))) sorted) None)
              (group_keys (map snd df))).

(** [df.loc[idx]]; the labels of [df] are distinct, and a row is labelled
    here by its position in [df]. *)
Definition loc_rows (df : list row) (idx : list nat) : list row :=
  flat_map (fun i => match nth_error df i with Some r => [r] | None => [] end) idx.

Definition update_bar_chart (DF_ALL : DataFrame) (indicator : string) (y0 y1 : Z)
  : result figure :=
  match filter (fun r => String.eqb (Indicator r) indicator && between y0 y1 (Year r))
               (rows DF_ALL) with
  | [] => Ok NoData
  | df =>
      rbind (idxmax_by_country (combine (seq 0 (List.length df)) df)) (fun idx =>
        match sort_values_value_desc (dropna_value (loc_rows df idx)) with
        | [] => Ok NoData
        | df_last => Ok (Bar df_last)
        end)
  end.

(** ** The specification's wording, for comparison *)

(** The 1-based position of the first row of country [c]. *)
Fixpoint position (c : string) (rs : list row) : option Z :=
  match rs with
  | [] => None
  | r :: rs' =>
      if name_is c (Country r) then Some 1
      else option_map Z.succ (position c rs')
  end.

(** The rank text: among all rows of the indicator at [last_year], the
    missing values dropped, sorted by value from the largest down, the
    position of the country, written "#k of n". *)
Definition rank_spec (DF_ALL : DataFrame) (indicator kpi_country : string) (last_year : Z)
  : text :=
  let cross := year_rows DF_ALL indicator last_year in
  match position kpi_country (sort_values_value_desc cross) with
  | Some k => RankOf k (Z.of_nat (List.length cross))
  | None => NA
  end.

(** The latest row per country as the specification words it: for each
    country, of its rows of the indicator within the range that have a value,
    the one of the largest year. *)
Definition latest_per_country (DF_ALL : DataFrame) (indicator : string) (y0 y1 : Z)
  : list row :=
  let df := dropna_value
              (filter (fun r => String.eqb (Indicator r) indicator && between y0 y1 (Year r))
                      (rows DF_ALL)) in
  flat_map (fun c => match rev (sort_values_year
                                  (filter (fun r => name_is c (Country r)) df)) with
                     | latest :: _ => [latest]
                     | [] => []
                     end)
           (group_keys df).

(** The selection of [update_kpis], by year. *)
Definition kpi_sorted (DF_ALL : DataFrame) (indicator kpi_country : string) (y0 y1 : Z)
  : list row :=
  sort_values_year (kpi_rows DF_ALL indicator kpi_country y0 y1).

(** The year-over-year change, absolute and in percent, and the compound
    annual growth rate over [n] years, as formulas. *)
Definition yoy_abs (latest second_last : float) : float :=
  (latest - second_last)%float.

Definition yoy_pct (latest second_last : float) : float :=
  ((latest - second_last) / second_last * 100)%float.

Definition cagr_pct (pow : float -> float -> float) (latest first : float) (n : Z) : float :=
  ((float_power pow (latest / first) (1 / float_of_Z n) - 1) * 100)%float.

Definition percent_or_na (v : float) : text :=
  if notna v then Percent v else NA.

(** A number that is finite, or the marker 'N/A'. *)
Fixpoint finite_or_na (t : text) : bool :=
  match t with
  | NA => true
  | Blank => false
  | Plain v | Percent v | Dollars v => PrimFloat.is_finite v
  | Delta t' => finite_or_na t'
  | YearOf _ | Range _ _ | RankOf _ _ => true
  end.

(** A number that is not NaN, or the marker 'N/A'. *)
Fixpoint number_or_na (t : text) : bool :=
  match t with
  | NA => true
  | Blank => false
  | Plain v | Percent v | Dollars v => notna v
  | Delta t' => number_or_na t'
  | YearOf _ | Range _ _ | RankOf _ _ => true
  end.

(** ** Sample data *)

(** A record as the API sends it. *)
Definition wb_record (iso3 name date : string) (value : json) : json :=
  JDict [("countryiso3code", JStr iso3);
         ("country", JDict [("id", JStr iso3); ("value", JStr name)]);
         ("date", JStr date);
         ("value", value)].

Definition wb_page (pages : json) (records : list json) : json :=
  JList [JDict [("page", JInt 1); ("pages", pages)]; JList records].

Definition sample_countries : list (string * string) :=
  [("Germany", "DEU"); ("France", "FRA"); ("Spain", "ESP")].

(** An indicator whose data comes on two pages. *)
Definition two_pages (k : key) : option json :=
  let '(_, _, _, page) := k in
  if page =? 1 then Some (wb_page (JInt 2) [wb_record "DEU" "Germany" "2021" (JFloat 110)])
  else if page =? 2 then Some (wb_page (JInt 2) [wb_record "DEU" "Germany" "2020" (JFloat 100)])
  else None.

(** A first page whose metadata has null for the page count. *)
Definition null_pages (k : key) : option json :=
  let '(_, _, _, page) := k in
  if page =? 1 then Some (wb_page JNull [wb_record "DEU" "Germany" "2021" (JFloat 110)])
  else None.

(** Four indicators of one page each, except that "B" announces a second
    page and the request for it fails. *)
Definition one_fails (k : key) : option json :=
  let '(_, code, _, page) := k in
  if page =? 1 then
    Some (wb_page (if String.eqb code "B" then JInt 2 else JInt 1)
                  [wb_record "DEU" "Germany" "2021" (JFloat 110);
                   wb_record "FRA" "France" "2021" JNull;
                   wb_record "ESP" "Spain" "2021" (JFloat 80)])
  else None.

(** A first page whose page count is text that is not an integer. *)
Definition worded_pages (k : key) : option json :=
  let '(_, _, _, page) := k in
  if page =? 1 then Some (wb_page (JStr "2.0") [wb_record "DEU" "Germany" "2021" (JFloat 110)])
  else None.

(** Indicators of one page each, with a record of Germany and a record of a
    country whose code is not in the registry, except that "B" announces a
    second page and the request for it fails. *)
Definition stray_code (k : key) : option json :=
  let '(_, code, _, page) := k in
  if page =? 1 then
    Some (wb_page (if String.eqb code "B" then JInt 2 else JInt 1)
                  [wb_record "DEU" "Germany" "2021" (JFloat 110);
                   wb_record "XKX" "Kosovo" "2021" (JFloat 70)])
  else None.

Definition four_indicators : list (string * string) :=
  [("Ind A", "A"); ("Ind B", "B"); ("Ind C", "C"); ("Ind D", "D")].

(** The fetcher and the frames after "Ind A", and the outcome of "Ind B". *)
Definition after_ind_a : fetcher * list (table json) :=
  for_indicators one_fails sample_countries (countries_iso_of sample_countries)
    (date_range_of 2000 2024) [("Ind A", "A")] [] no_fetches.

Definition after_ind_b : fetcher * result (option (table json)) :=
  try_indicator one_fails sample_countries (countries_iso_of sample_countries)
    (date_range_of 2000 2024) "Ind B" "B" (fst after_ind_a).

(** One aggregation of the two-page indicator, and the rows it reads. *)
Definition run_two_pages (st : fetcher) : fetcher * result (option (table json)) :=
  try_indicator two_pages sample_countries (countries_iso_of sample_countries)
    (date_range_of 2000 2024) "X" "X.CODE" st.

Definition germany_row (year : Z) (v : float) : row_of json :=
  {| ISO3Code := Some "DEU"; Country := JStr "Germany"; Year := Some year;
     Value := v; Indicator := "X" |}.

Definition sample_row (name : string) (year : Z) (v : float) : row :=
  {| ISO3Code := None; Country := Some name; Year := Some year; Value := v;
     Indicator := "X" |}.

Definition frame_of {C : Type} (rs : list (row_of C)) : table C :=
  {| columns := canonical_columns; rows := rs |}.

(** Germany 110, France 90, Spain 80 in 2021, Germany 100 in 2020. *)
Definition three_countries : DataFrame :=
  frame_of [sample_row "France" 2021 90; sample_row "Germany" 2020 100;
            sample_row "Germany" 2021 110; sample_row "Spain" 2021 80].

(** The larger value in the earlier year. *)
Definition falling : DataFrame :=
  frame_of [sample_row "Germany" 2020 110; sample_row "Germany" 2021 100].

(** Two finite values whose quotient is beyond the range of float64. *)
Definition far_apart : DataFrame :=
  frame_of [sample_row "Germany" 2020 0x1p-1000; sample_row "Germany" 2021 0x1p1000].

(** A negative first value. *)
Definition below_zero : DataFrame :=
  frame_of [sample_row "Germany" 2020 (-100); sample_row "Germany" 2021 (-50)].

(** A zero in the year before the latest. *)
Definition zero_before_latest : DataFrame :=
  frame_of [sample_row "Germany" 2020 0; sample_row "Germany" 2021 110].



(** A [pow] for the samples: they raise to the power 1 only. *)
Definition pow_unused (x y : float) : float := nan.

(** ** The registries and the startup load *)

Definition COUNTRIES : list (string * string) :=
  [("Albania", "ALB"); ("Austria", "AUT"); ("Belarus", "BLR"); ("Belgium", "BEL");
   ("Bosnia and Herzegovina", "BIH"); ("Bulgaria", "BGR"); ("Croatia", "HRV");
   ("Cyprus", "CYP"); ("Czech Republic", "CZE"); ("Denmark", "DNK"); ("Estonia", "EST");
   ("Finland", "FIN"); ("France", "FRA"); ("Germany", "DEU"); ("Greece", "GRC");
   ("Hungary", "HUN"); ("Iceland", "ISL"); ("Ireland", "IRL"); ("Italy", "ITA");
   ("Latvia", "LVA"); ("Lithuania", "LTU"); ("Luxembourg", "LUX"); ("Malta", "MLT");
   ("Moldova", "MDA"); ("Montenegro", "MNE"); ("Netherlands", "NLD");
   ("North Macedonia", "MKD"); ("Norway", "NOR"); ("Poland", "POL"); ("Portugal", "PRT");
   ("Romania", "ROU"); ("Russia", "RUS"); ("Serbia", "SRB"); ("Slovakia", "SVK");
   ("Slovenia", "SVN"); ("Spain", "ESP"); ("Sweden", "SWE"); ("Switzerland", "CHE");
   ("Turkey", "TUR"); ("Ukraine", "UKR"); ("United Kingdom", "GBR")].

Definition INDICATORS : list (string * string) :=
  [("GDP per capita (US$)", "NY.GDP.PCAP.CD");
   ("Annual Inflation Rate (%)", "FP.CPI.TOTL.ZG");
   ("Unemployment Rate (%)", "SL.UEM.TOTL.ZS");
   ("Life Expectancy (years)", "SP.DYN.LE00.IN");
   ("Health Expenditure per capita (US$)", "SH.XPD.CHEX.PC.CD");
   ("Access to Electricity (% of population)", "EG.ELC.ACCS.ZS");
   ("CO2 Emissions (metric tons per capita)", "EN.ATM.CO2E.PC");
   ("Internet Users (% of population)", "IT.NET.USER.ZS")].

Definition START_YEAR : Z := 2000.
Definition END_YEAR : Z := 2024.

(** [DF_ALL = get_worldbank_data(COUNTRIES, INDICATORS)], on the fetcher of a
    process that has fetched nothing yet. *)
Definition load_data (net : key -> option json) : result DataFrame :=
  snd (get_worldbank_data net COUNTRIES INDICATORS START_YEAR END_YEAR no_fetches).

(** ** The year slider of the layout *)

(** [Series.min()] and [Series.max()] of the Year column, the missing years
    skipped; no year at all gives the missing value. *)
Fixpoint year_min (rs : list row) : option Z :=
  match rs with
  | [] => None
  | r :: rs' =>
      match Year r, year_min rs' with
      | Some y, Some m => Some (Z.min y m)
      | Some y, None => Some y
      | None, m => m
      end
  end.

Fixpoint year_max (rs : list row) : option Z :=
  match rs with
  | [] => None
  | r :: rs' =>
      match Year r, year_max rs' with
      | Some y, Some m => Some (Z.max y m)
      | Some y, None => Some y
      | None, m => m
      end
  end.

Record slider : Type := mkSlider {
  slider_min : Z;
  slider_max : Z;
  slider_value : Z * Z
}.

(** [dcc.RangeSlider(id='rs-years', min=..., max=..., value=[...])] *)
Definition rs_years (DF_ALL : DataFrame) : result slider :=
  rbind (if empty DF_ALL then Ok START_YEAR else int_year (year_min (rows DF_ALL))) (fun lo =>
  rbind (if empty DF_ALL then Ok END_YEAR else int_year (year_max (rows DF_ALL))) (fun hi =>
  Ok {| slider_min := lo; slider_max := hi; slider_value := (Z.max START_YEAR lo, hi) |})).

(** ** The download, the line chart and the map *)

(** [s.replace(a, b)] for single characters. *)
Fixpoint replace_char (a b : ascii) (s : string) : string :=
  match s with
  | EmptyString => EmptyString
  | String c s' => String (if Ascii.eqb c a then b else c) (replace_char a b s')
  end.

(** [download_csv]: the file name and the table that [to_csv] writes. *)
Definition download_csv (DF_ALL : DataFrame) (indicator : string) : string * DataFrame :=
  (("europe_" ++ replace_char " " "_" indicator ++ ".csv")%string,
   {| columns := columns DF_ALL;
      rows := filter (fun r => String.eqb (Indicator r) indicator) (rows DF_ALL) |}).

(** [Series.isin(selected_countries)] on a cell. *)
Definition isin (selected : list string) (c : option string) : bool :=
  match c with
  | Some x => existsb (String.eqb x) selected
  | None => false
  end.

Definition filter_and_transform_data (DF_ALL : DataFrame) (indicator : string)
  (selected_countries : list string) (start_year end_year : Z) : list row :=
  filter (fun r => String.eqb (Indicator r) indicator
                   && isin selected_countries (Country r)
                   && between start_year end_year (Year r)) (rows DF_ALL).

Inductive chart : Type :=
| NoChart                                        (* 'No data available ...' *)
| LineChart (df : list row)                      (* px.line over df *)
| MapChart (last_year : Z) (df_last : list row). (* px.choropleth over df_last *)

Definition update_line_chart (DF_ALL : DataFrame) (indicator : string)
  (selected_countries : list string) (y0 y1 : Z) : chart :=
  match filter_and_transform_data DF_ALL indicator selected_countries y0 y1 with
  | [] => NoChart
  | df => LineChart df
  end.

(** [DF_ALL[(Indicator == indicator) & Year.between(y0, y1)]], the frame of the
    bar chart and of the map. *)
Definition indicator_rows (DF_ALL : DataFrame) (indicator : string) (y0 y1 : Z) : list row :=
  filter (fun r => String.eqb (Indicator r) indicator && between y0 y1 (Year r))
         (rows DF_ALL).

Definition update_map_chart (DF_ALL : DataFrame) (indicator : string) (y0 y1 : Z)
  : result chart :=
  match indicator_rows DF_ALL indicator y0 y1 with
  | [] => Ok NoChart
  | df =>
      rbind (int_year (year_max df)) (fun last_year_in_data =>
        Ok (MapChart last_year_in_data
              (filter (fun r => year_is last_year_in_data (Year r)) df)))
  end.

(** A fetcher in order: no key twice in the cache, no more than [maxsize]
    entries, and every entry at an object of the store. *)
Definition sound (st : fetcher) : Prop :=
  NoDup (map fst (cache st))
  /\ (List.length (cache st) <= maxsize)%nat
  /\ forall e, In e (cache st) -> (snd e < List.length (store st))%nat.

Definition keeps (P : fetcher -> Prop) {A : Type} (m : M A) : Prop :=
  forall st, P st -> P (fst (m st)).

(** The cells of a row that do not depend on the country registry. *)
Definition data_of {C : Type} (r : row_of C) : option string * option Z * float * string :=
  (ISO3Code r, Year r, Value r, Indicator r).

(** ** Notions of the statements and proofs *)

(** A row that [dropna(subset=['Value', 'Year'])] keeps. *)
Definition kept {C : Type} (r : row_of C) : Prop :=
  PrimFloat.is_nan (Value r) = false /\ exists y, Year r = Some y.

(** A frame that is appended has the five columns and rows that went through
    [dropna]. *)
Definition clean {C : Type} (df : table C) : Prop :=
  columns df = canonical_columns /\ Forall kept (rows df).

(** A comparison that is a total preorder. *)
Record ordering {A : Type} (cmp : A -> A -> comparison) : Prop := {
  cmp_opp : forall x y, cmp y x = CompOpp (cmp x y);
  cmp_eq : forall x y z, cmp x y = Eq -> cmp x z = cmp y z;
  cmp_lt : forall x y z, cmp x y = Lt -> cmp y z = Lt -> cmp x z = Lt
}.

(** A key whose lexicographic order is the order of the floats: the class
    (the infinities outermost, NaN after all), then exponent and mantissa. *)
Definition sf_key (f : spec_float) : Z * (Z * Z) :=
  match f with
  | S754_nan => (3, (0, 0))
  | S754_infinity true => (-2, (0, 0))
  | S754_infinity false => (2, (0, 0))
  | S754_zero _ => (0, (0, 0))
  | S754_finite true m e => (-1, (- e, Zneg m))
  | S754_finite false m e => (1, (e, Zpos m))
  end.

Definition key3_compare (a b : Z * (Z * Z)) : comparison :=
  lex (fst a ?= fst b)
      (lex (fst (snd a) ?= fst (snd b)) (snd (snd a) ?= snd (snd b))).

Definition float_compare (x y : float) : comparison :=
  key3_compare (sf_key (Prim2SF x)) (sf_key (Prim2SF y)).

(** The indicator code of a cache key; a fetcher without an entry for a code,
    or for a key; a fetcher whose cache has, beyond the entries of another,
    only entries for the keys in [new]. *)
Definition code_of (k : key) : string :=
  let '(_, code, _, _) := k in code.

Definition no_entry_for (code : string) (st : fetcher) : Prop :=
  forall e, In e (cache st) -> code_of (fst e) <> code.

Definition cache_adds (new : key -> Prop) (st st1 : fetcher) : Prop :=
  forall e, In e (cache st1) -> In e (cache st) \/ new (fst e).

Definition absent (k : key) (st : fetcher) : Prop :=
  forall e, In e (cache st) -> fst e <> k.

Definition adds_only (new : key -> Prop) {A : Type} (m : M A) : Prop :=
  forall st, cache_adds new st (fst (m st)).

(** Two fetchers that hold the same object, each at its location. *)
Definition same_at (loc loc' : nat) (st st' : fetcher) : Prop :=
  (loc < List.length (store st))%nat /\ (loc' < List.length (store st'))%nat
  /\ deref st loc = deref st' loc'.


(** A Country cell that is a name or is missing. *)
Definition name_or_missing (j : json) : bool :=
  match j with
  | JNull | JStr _ => true
  | _ => false
  end.

(** The frames that the processing of one indicator appends: one or none. *)
Definition appended {A : Type} (r : result (option A)) : list A :=
  match r with
  | Ok (Some a) => [a]
  | _ => []
  end.

(** A registry whose codes are all different. *)
Fixpoint all_distinct (l : list string) : bool :=
  match l with
  | [] => true
  | x :: l' => negb (existsb (String.eqb x) l') && all_distinct l'
  end.

(** A row made of a record of the API for one of the indicators. *)
Definition from_record (countries_dict indicators : list (string * string)) (r : row_of json)
  : Prop :=
  exists name code d, In (name, code) indicators /\ r = clean_row countries_dict name d.

(** The order of the rows of one indicator: by country, then by year. *)
Definition country_year_le (r1 r2 : row) : bool :=
  not_gt (lex (opt_compare String.compare (Country r1) (Country r2))
              (opt_compare Z.compare (Year r1) (Year r2))).

(** * Properties *)

(** ** Sorting *)

Section SortFacts.

Context {A : Type} (le : A -> A -> bool).

Lemma insert_by_perm (x : A) (l : list A) : Permutation (x :: l) (insert_by le x l).
Proof.
  induction l as [|y l IH]; simpl.
  - apply Permutation_refl.
  - destruct (le x y).
    + apply Permutation_refl.
    + eapply perm_trans; [apply perm_swap|]. now apply perm_skip.
Qed.

Lemma sort_by_perm (l : list A) : Permutation l (sort_by le l).
Proof.
  induction l as [|x l IH]; simpl.
  - apply perm_nil.
  - eapply perm_trans; [apply perm_skip, IH|]. apply insert_by_perm.
Qed.

Lemma sort_by_in (l : list A) (x : A) : In x (sort_by le l) <-> In x l.
Proof.
  split; intro H.
  - eapply Permutation_in; [apply Permutation_sym, sort_by_perm|exact H].
  - eapply Permutation_in; [apply sort_by_perm|exact H].
Qed.

Lemma sort_by_length (l : list A) : List.length (sort_by le l) = List.length l.
Proof. symmetry. apply Permutation_length, sort_by_perm. Qed.

(** On elements where [le] is total and transitive, the result is sorted. *)
Variable P : A -> Prop.
Hypothesis le_total : forall x y, P x -> P y -> le x y = false -> le y x = true.
Hypothesis le_trans :
  forall x y z, P x -> P y -> P z -> le x y = true -> le y z = true -> le x z = true.

Lemma insert_by_sorted (x : A) (l : list A) :
  P x -> Forall P l ->
  StronglySorted (fun a b => le a b = true) l ->
  StronglySorted (fun a b => le a b = true) (insert_by le x l).
Proof.
  intros Px Pl Hs. induction Hs as [|y l Hs IH Hy]; simpl.
  - constructor; constructor.
  - inversion Pl as [|? ? Py Pl']; subst.
    destruct (le x y) eqn:Hxy.
    + constructor; [constructor; assumption|].
      constructor; [exact Hxy|].
      rewrite Forall_forall in Hy, Pl' |- *. intros z Hz.
      apply (le_trans x y z); auto.
    + constructor; [apply IH; assumption|].
      rewrite Forall_forall in Hy |- *. intros z Hz.
      apply (Permutation_in _ (Permutation_sym (insert_by_perm x l))) in Hz.
      destruct Hz as [<-|Hz]; [apply le_total; assumption|auto].
Qed.

Lemma sort_by_sorted (l : list A) :
  Forall P l -> StronglySorted (fun a b => le a b = true) (sort_by le l).
Proof.
  induction l as [|x l IH]; intro Pl; simpl.
  - constructor.
  - inversion Pl as [|? ? Px Pl']; subst. apply insert_by_sorted.
    + exact Px.
    + apply Forall_forall. intros z Hz. apply (proj1 (sort_by_in _ _)) in Hz.
      rewrite Forall_forall in Pl'. auto.
    + apply IH; assumption.
Qed.

End SortFacts.

(** ** Orders given by a comparison *)


Lemma ordering_total {A : Type} (cmp : A -> A -> comparison) :
  ordering cmp -> forall x y, not_gt (cmp x y) = false -> not_gt (cmp y x) = true.
Proof.
  intros O x y H. rewrite (cmp_opp cmp O x y). now destruct (cmp x y).
Qed.

Lemma ordering_trans {A : Type} (cmp : A -> A -> comparison) :
  ordering cmp ->
  forall x y z, not_gt (cmp x y) = true -> not_gt (cmp y z) = true -> not_gt (cmp x z) = true.
Proof.
  intros O x y z Hxy Hyz.
  destruct (cmp x y) eqn:Exy; try discriminate.
  - now rewrite (cmp_eq cmp O x y z Exy).
  - destruct (cmp y z) eqn:Eyz; try discriminate.
    + assert (E : cmp z y = Eq) by (rewrite (cmp_opp cmp O y z), Eyz; reflexivity).
      pose proof (cmp_eq cmp O z y x E) as E'.
      rewrite (cmp_opp cmp O x y), Exy in E'. simpl in E'.
      rewrite (cmp_opp cmp O z x), E'. reflexivity.
    + now rewrite (cmp_lt cmp O x y z Exy Eyz).
Qed.

Lemma ordering_lt_eq {A : Type} (cmp : A -> A -> comparison) :
  ordering cmp -> forall x y z, cmp x y = Lt -> cmp y z = Eq -> cmp x z = Lt.
Proof.
  intros O x y z Hxy Hyz.
  assert (E : cmp z y = Eq) by (rewrite (cmp_opp cmp O y z), Hyz; reflexivity).
  pose proof (cmp_eq cmp O z y x E) as E'.
  rewrite (cmp_opp cmp O x y), Hxy in E'. simpl in E'.
  rewrite (cmp_opp cmp O z x), E'. reflexivity.
Qed.

Lemma string_compare_lt_trans (a b c : string) :
  String.compare a b = Lt -> String.compare b c = Lt -> String.compare a c = Lt.
Proof.
  revert b c. induction a as [|x a IH]; intros [|y b] [|z c]; simpl;
    try discriminate; auto.
  intros H1 H2.
  destruct (Ascii.compare x y) eqn:Exy; try discriminate.
  - apply Ascii.compare_eq_iff in Exy; subst y.
    destruct (Ascii.compare x z) eqn:Exz; try discriminate; auto.
    eapply IH; eauto.
  - destruct (Ascii.compare y z) eqn:Eyz; try discriminate.
    + apply Ascii.compare_eq_iff in Eyz; subst z. now rewrite Exy.
    + assert (E : Ascii.compare x z = Lt).
      { unfold Ascii.compare in *. rewrite N.compare_lt_iff in *. lia. }
      now rewrite E.
Qed.

Lemma ordering_string : ordering String.compare.
Proof.
  constructor.
  - intros x y. apply String.compare_antisym.
  - intros x y z H. apply String.compare_eq_iff in H. now subst.
  - apply string_compare_lt_trans.
Qed.

Lemma ordering_Z : ordering Z.compare.
Proof.
  constructor.
  - intros x y. apply Z.compare_antisym.
  - intros x y z H. apply Z.compare_eq in H. now subst.
  - intros x y z. rewrite !Z.compare_lt_iff. lia.
Qed.

Lemma ordering_opt {A : Type} (cmp : A -> A -> comparison) :
  ordering cmp -> ordering (opt_compare cmp).
Proof.
  intros O. constructor.
  - intros [x|] [y|]; simpl; auto. apply (cmp_opp cmp O).
  - intros [x|] [y|] [z|]; simpl; try discriminate; auto. apply (cmp_eq cmp O).
  - intros [x|] [y|] [z|]; simpl; try discriminate; auto. apply (cmp_lt cmp O).
Qed.

Lemma ordering_lex {A : Type} (c1 c2 : A -> A -> comparison) :
  ordering c1 -> ordering c2 -> ordering (fun x y => lex (c1 x y) (c2 x y)).
Proof.
  intros O1 O2. constructor.
  - intros x y. rewrite (cmp_opp c1 O1 x y), (cmp_opp c2 O2 x y).
    now destruct (c1 x y).
  - intros x y z H. destruct (c1 x y) eqn:E1; try discriminate. simpl in H.
    now rewrite (cmp_eq c1 O1 x y z E1), (cmp_eq c2 O2 x y z H).
  - intros x y z Hxy Hyz.
    destruct (c1 x y) eqn:E1; try discriminate; simpl in Hxy.
    + rewrite (cmp_eq c1 O1 x y z E1).
      destruct (c1 y z) eqn:E2; try discriminate; simpl in *; auto.
      apply (cmp_lt c2 O2 x y z); assumption.
    + destruct (c1 y z) eqn:E2; try discriminate; simpl in Hyz.
      * now rewrite (ordering_lt_eq c1 O1 x y z E1 E2).
      * now rewrite (cmp_lt c1 O1 x y z E1 E2).
Qed.

Lemma ordering_on {A B : Type} (f : A -> B) (cmp : B -> B -> comparison) :
  ordering cmp -> ordering (fun x y => cmp (f x) (f y)).
Proof.
  intros O. constructor.
  - intros x y. apply (cmp_opp cmp O).
  - intros x y z. apply (cmp_eq cmp O).
  - intros x y z. apply (cmp_lt cmp O).
Qed.

Lemma ordering_key : ordering key_compare.
Proof.
  unfold key_compare.
  apply (ordering_lex (fun r1 r2 => String.compare (Indicator r1) (Indicator r2))
           (fun r1 r2 => lex (opt_compare String.compare (Country r1) (Country r2))
                             (opt_compare Z.compare (Year r1) (Year r2)))).
  - apply (ordering_on Indicator), ordering_string.
  - apply (ordering_lex (fun r1 r2 => opt_compare String.compare (Country r1) (Country r2))
             (fun r1 r2 => opt_compare Z.compare (Year r1) (Year r2))).
    + apply (ordering_on Country), ordering_opt, ordering_string.
    + apply (ordering_on Year), ordering_opt, ordering_Z.
Qed.

Lemma sort_values_key_sorted (rs : list row) :
  StronglySorted (fun a b => key_le a b = true) (sort_values_key rs).
Proof.
  apply (sort_by_sorted key_le (fun _ => True)).
  - intros x y _ _. apply (ordering_total key_compare ordering_key).
  - intros x y z _ _ _. apply (ordering_trans key_compare ordering_key).
  - apply Forall_forall. auto.
Qed.

(** ** The pipeline *)

Lemma bind_ok {A B : Type} (m : M A) (k : A -> M B) (st st' : fetcher) (b : B) :
  bind m k st = (st', Ok b) ->
  exists a st1, m st = (st1, Ok a) /\ k a st1 = (st', Ok b).
Proof.
  unfold bind. destruct (m st) as [st1 [a|e]]; intro H.
  - now exists a, st1.
  - discriminate.
Qed.

Lemma lift_ok {A : Type} (r : result A) (st st' : fetcher) (a : A) :
  lift r st = (st', Ok a) -> r = Ok a.
Proof. unfold lift. now intros [= _ ->]. Qed.

Lemma rbind_ok {A B : Type} (r : result A) (k : A -> result B) (b : B) :
  rbind r k = Ok b -> exists a, r = Ok a /\ k a = Ok b.
Proof. destruct r as [a|e]; simpl; intro H; [now exists a|discriminate]. Qed.


Lemma dropna_value_year_kept {C : Type} (rs : list (row_of C)) :
  Forall kept (dropna_value_year rs).
Proof.
  apply Forall_forall. intros r Hr. apply filter_In in Hr as [_ Hr].
  apply andb_prop in Hr as [Hv Hy]. split.
  - unfold notna in Hv. now destruct (PrimFloat.is_nan (Value r)).
  - destruct (Year r) as [y|]; [now exists y|discriminate].
Qed.


Lemma clean_frame_clean (countries_dict : list (string * string)) (name : string)
  (all_rows : json) (df : table json) :
  clean_frame countries_dict name all_rows = Ok (Some df) -> clean df.
Proof.
  unfold clean_frame. destruct all_rows; try discriminate.
  intro H. apply rbind_ok in H as [ds [_ H]].
  match type of H with (if ?c then _ else _) = _ => destruct c end; [discriminate|].
  match type of H with (if ?c then _ else _) = _ => destruct c end; [|discriminate].
  injection H as <-. split; [reflexivity|apply dropna_value_year_kept].
Qed.

Section PipelineFacts.

Variable net : key -> option json.
Variable countries_dict : list (string * string).
Variables countries_iso date_range : string.

Lemma try_indicator_clean (name code : string) (st st' : fetcher) (df : table json) :
  try_indicator net countries_dict countries_iso date_range name code st
  = (st', Ok (Some df)) -> clean df.
Proof.
  unfold try_indicator. intro H.
  apply bind_ok in H as (loc & st1 & _ & H).
  apply bind_ok in H as (first_page & st2 & _ & H).
  destruct (no_data first_page); [discriminate|].
  apply bind_ok in H as (total_pages & st3 & _ & H).
  apply bind_ok in H as (u & st4 & _ & H).
  apply bind_ok in H as (first_page' & st5 & _ & H).
  apply lift_ok in H. eapply clean_frame_clean; eassumption.
Qed.

(** The loop adds to the frames it is given, and to nothing else. *)
Lemma for_indicators_acc (indicators : list (string * string)) :
  forall (dfs : list (table json)) (st : fetcher),
    for_indicators net countries_dict countries_iso date_range indicators dfs st
    = (fst (for_indicators net countries_dict countries_iso date_range indicators [] st),
       dfs ++ snd (for_indicators net countries_dict countries_iso date_range indicators [] st)).
Proof.
  induction indicators as [|[name code] rest IH]; intros dfs st; simpl.
  - now rewrite app_nil_r.
  - destruct (try_indicator _ _ _ _ _ _ st) as [st' [[df|]|e]]; auto.
    rewrite (IH (dfs ++ [df])), (IH ([] ++ [df])). simpl. now rewrite <- app_assoc.
Qed.

Lemma for_indicators_app (before after : list (string * string)) :
  forall (dfs : list (table json)) (st : fetcher),
    for_indicators net countries_dict countries_iso date_range (before ++ after) dfs st
    = let '(st1, dfs1) :=
        for_indicators net countries_dict countries_iso date_range before dfs st in
      for_indicators net countries_dict countries_iso date_range after dfs1 st1.
Proof.
  induction before as [|[name code] rest IH]; intros dfs st; simpl.
  - reflexivity.
  - destruct (try_indicator _ _ _ _ _ _ st) as [st' [[df|]|e]]; apply IH.
Qed.

Lemma for_indicators_clean (indicators : list (string * string)) :
  forall (dfs : list (table json)) (st : fetcher),
    Forall clean dfs ->
    Forall clean
      (snd (for_indicators net countries_dict countries_iso date_range indicators dfs st)).
Proof.
  induction indicators as [|[name code] rest IH]; intros dfs st Hdfs; simpl.
  - exact Hdfs.
  - destruct (try_indicator _ _ _ _ _ _ st) as [st' [[df|]|e]] eqn:E; auto.
    apply IH. apply Forall_app. split; [exact Hdfs|].
    constructor; [|constructor]. eapply try_indicator_clean; eassumption.
Qed.

End PipelineFacts.

Lemma union_columns_same (acc cs : list string) :
  (forall c, In c cs -> existsb (String.eqb c) acc = true) -> union_columns acc cs = acc.
Proof.
  induction cs as [|c cs IH]; intro H; simpl.
  - reflexivity.
  - rewrite (H c (or_introl eq_refl)). apply IH. intros c' Hc'. apply H. now right.
Qed.

Lemma concat_columns {C : Type} (dfs : list (table C)) :
  dfs <> [] -> Forall clean dfs -> columns (concat dfs) = canonical_columns.
Proof.
  destruct dfs as [|df dfs]; [congruence|]. intros _ H.
  inversion H as [|? ? [Hc _] Hrest]; subst. unfold concat. simpl. rewrite Hc.
  change (union_columns [] canonical_columns) with canonical_columns.
  clear H Hc. induction Hrest as [|df' dfs [Hc' _] _ IH]; simpl.
  - reflexivity.
  - rewrite Hc', union_columns_same; [exact IH|].
    intros c Hc. apply existsb_exists. exists c. split; [exact Hc|apply String.eqb_refl].
Qed.

Lemma flat_map_rows_kept {C : Type} (dfs : list (table C)) :
  Forall clean dfs -> Forall kept (flat_map rows dfs).
Proof.
  induction 1 as [|df dfs [_ Hk] _ IH]; simpl.
  - constructor.
  - apply Forall_app. now split.
Qed.

Lemma flat_map_rows_nil {C : Type} (dfs : list (table C)) :
  Forall (fun df => rows df = []) dfs -> flat_map rows dfs = [].
Proof.
  induction 1 as [|df dfs Hdf _ IH]; simpl; [reflexivity|]. now rewrite Hdf, IH.
Qed.

(** What the build returns, from the frames that the loop has appended: the
    sorted table, or the exception of the sort. *)
Lemma get_worldbank_data_outcome (net : key -> option json)
  (countries_dict indicators_dict : list (string * string)) (start_year end_year : Z)
  (st : fetcher) :
  snd (get_worldbank_data net countries_dict indicators_dict start_year end_year st)
  = rbind (sort_values
             (flat_map rows
                (indicator_frames net countries_dict indicators_dict start_year end_year st)))
          (fun sorted => Ok {| columns := canonical_columns; rows := sorted |}).
Proof.
  unfold get_worldbank_data, indicator_frames.
  pose proof (for_indicators_clean net countries_dict
                (countries_iso_of countries_dict) (date_range_of start_year end_year)
                indicators_dict [] st (Forall_nil _)) as H.
  destruct (for_indicators _ _ _ _ _ _ _) as [st' dfs]. cbn [snd] in *.
  destruct dfs as [|df dfs]; [reflexivity|].
  cbv zeta. rewrite (concat_columns (df :: dfs)); [reflexivity|discriminate|exact H].
Qed.

Lemma sort_values_ok (rs : list (row_of json)) (sorted : list row) :
  sort_values rs = Ok sorted ->
  forallb (fun r => hashable (Country r)) rs = true
  /\ sorted = sort_values_key (map loaded_row rs).
Proof.
  unfold sort_values. destruct (forallb _ rs); [|discriminate].
  intros [= <-]. now split.
Qed.

Lemma get_worldbank_data_ok (net : key -> option json)
  (countries_dict indicators_dict : list (string * string)) (start_year end_year : Z)
  (st : fetcher) (df : DataFrame) :
  snd (get_worldbank_data net countries_dict indicators_dict start_year end_year st) = Ok df ->
  columns df = canonical_columns
  /\ rows df
     = sort_values_key
         (map loaded_row
            (flat_map rows
               (indicator_frames net countries_dict indicators_dict start_year end_year st))).
Proof.
  rewrite get_worldbank_data_outcome. intro H.
  apply rbind_ok in H as (sorted & Hs & H). injection H as <-.
  apply sort_values_ok in Hs as [_ ->]. now split.
Qed.

Lemma loaded_row_kept (r : row_of json) : kept r -> kept (loaded_row r).
Proof. intro H. exact H. Qed.

Lemma built_rows_kept (net : key -> option json)
  (countries_dict indicators_dict : list (string * string)) (start_year end_year : Z)
  (st : fetcher) (df : DataFrame) :
  snd (get_worldbank_data net countries_dict indicators_dict start_year end_year st) = Ok df ->
  Forall kept (rows df).
Proof.
  intro H. apply get_worldbank_data_ok in H as [_ ->].
  assert (H : Forall kept
                (flat_map rows
                   (indicator_frames net countries_dict indicators_dict
                      start_year end_year st))).
  { apply flat_map_rows_kept. unfold indicator_frames.
    apply for_indicators_clean. constructor. }
  rewrite Forall_forall in H |- *. intros r Hr.
  apply (proj1 (sort_by_in _ _ _)) in Hr. apply in_map_iff in Hr as (r0 & <- & Hr0).
  apply loaded_row_kept, (H r0 Hr0).
Qed.

(** C10: every row of a table that the build returns has a value that is not
    missing and a year that is not missing. *)
Theorem built_rows_have_value_and_year (net : key -> option json)
  (countries_dict indicators_dict : list (string * string)) (start_year end_year : Z)
  (st : fetcher) :
  match snd (get_worldbank_data net countries_dict indicators_dict start_year end_year st) with
  | Ok df => Forall (fun r => PrimFloat.is_nan (Value r) = false /\ exists y, Year r = Some y)
               (rows df)
  | Raise _ => True
  end.
Proof.
  destruct (snd (get_worldbank_data _ _ _ _ _ _)) as [df|e] eqn:E; [|exact I].
  exact (built_rows_kept _ _ _ _ _ _ _ E).
Qed.

(** ** The cache *)

Lemma key_eqb_eq (a b : key) : key_eqb a b = true <-> a = b.
Proof.
  destruct a as [[[c1 i1] d1] p1], b as [[[c2 i2] d2] p2]. unfold key_eqb.
  rewrite !andb_true_iff, !String.eqb_eq, Z.eqb_eq. split.
  - intros [[[-> ->] ->] ->]. reflexivity.
  - intros [= -> -> -> ->]. auto.
Qed.

Lemma cache_find_absent (k : key) (st : fetcher) :
  absent k st -> cache_find k (cache st) = None.
Proof.
  unfold absent. induction (cache st) as [|[k' loc] c IH]; intro H; simpl.
  - reflexivity.
  - destruct (key_eqb k k') eqn:E.
    + apply key_eqb_eq in E. subst k'. now elim (H (k, loc) (or_introl eq_refl)).
    + apply IH. intros e He. apply H. now right.
Qed.

Lemma no_entry_absent (code : string) (st : fetcher) (k : key) :
  no_entry_for code st -> code_of k = code -> absent k st.
Proof.
  intros H Hk e He E. apply (H e He). now rewrite E.
Qed.

Lemma firstn_in {A : Type} (n : nat) (l : list A) (x : A) :
  In x (firstn n l) -> In x l.
Proof.
  revert l. induction n as [|n IH]; intros [|y l]; simpl; try tauto.
  intros [->|H]; auto.
Qed.

Lemma cache_adds_refl (new : key -> Prop) (st : fetcher) : cache_adds new st st.
Proof. intros e He. now left. Qed.

Lemma cache_adds_trans (new : key -> Prop) (st1 st2 st3 : fetcher) :
  cache_adds new st1 st2 -> cache_adds new st2 st3 -> cache_adds new st1 st3.
Proof.
  intros H12 H23 e He. destruct (H23 e He) as [H|H]; [now apply H12|now right].
Qed.

Lemma cache_adds_weaken (new new' : key -> Prop) (st st1 : fetcher) :
  (forall k, new k -> new' k) -> cache_adds new st st1 -> cache_adds new' st st1.
Proof.
  intros Hn H e He. destruct (H e He) as [H'|H']; [now left|right; now apply Hn].
Qed.

Lemma absent_after (new : key -> Prop) (k : key) (st st1 : fetcher) :
  cache_adds new st st1 -> ~ new k -> absent k st -> absent k st1.
Proof.
  intros Ha Hk Hab e He E. destruct (Ha e He) as [H|H].
  - now apply (Hab e H).
  - apply Hk. now rewrite <- E.
Qed.

Lemma no_entry_after (code code' : string) (st st1 : fetcher) :
  cache_adds (fun k => code_of k = code) st st1 -> code' <> code ->
  no_entry_for code' st -> no_entry_for code' st1.
Proof.
  intros Ha Hc Hn e He E. destruct (Ha e He) as [H|H].
  - now apply (Hn e H).
  - apply Hc. now rewrite <- E, H.
Qed.

Section Fetches.

Variable net : key -> option json.

Lemma fetch_miss (k : key) (st : fetcher) :
  absent k st ->
  fetch_worldbank_page net k st
  = match net k with
    | None => (st, Raise HTTPError)
    | Some page =>
        ({| store := store st ++ [page];
            cache := firstn maxsize ((k, List.length (store st)) :: cache st) |},
         Ok (List.length (store st)))
    end.
Proof.
  intro H. unfold fetch_worldbank_page. now rewrite (cache_find_absent k st H).
Qed.

Lemma fetch_adds (k : key) (st : fetcher) :
  cache_adds (eq k) st (fst (fetch_worldbank_page net k st)).
Proof.
  unfold fetch_worldbank_page.
  destruct (cache_find k (cache st)) as [loc|].
  - intros e [<-|He]; simpl; [now right|].
    left. unfold cache_remove in He. now apply filter_In in He.
  - destruct (net k) as [page|]; [|apply cache_adds_refl].
    intros e He. cbn [fst cache] in He.
    apply firstn_in in He as [<-|He]; [now right|now left].
Qed.

Lemma adds_ret {A : Type} (new : key -> Prop) (a : A) : adds_only new (ret a).
Proof. intro st. apply cache_adds_refl. Qed.

Lemma adds_lift {A : Type} (new : key -> Prop) (r : result A) : adds_only new (lift r).
Proof. intro st. apply cache_adds_refl. Qed.

Lemma adds_read (new : key -> Prop) (loc : nat) : adds_only new (read loc).
Proof. intro st. apply cache_adds_refl. Qed.

Lemma adds_bind {A B : Type} (new : key -> Prop) (m : M A) (k : A -> M B) :
  adds_only new m -> (forall a, adds_only new (k a)) -> adds_only new (bind m k).
Proof.
  intros Hm Hk st. unfold bind. specialize (Hm st).
  destruct (m st) as [st1 [a|e]]; [|exact Hm].
  eapply cache_adds_trans; [exact Hm|apply Hk].
Qed.

Lemma adds_fetch (new : key -> Prop) (k : key) :
  new k -> adds_only new (fetch_worldbank_page net k).
Proof.
  intros Hk st. apply (cache_adds_weaken (eq k)); [now intros ? <-|apply fetch_adds].
Qed.

Lemma adds_extend_rows (new : key -> Prop) (loc : nat) (more : json) :
  adds_only new (extend_rows loc more).
Proof.
  intro st. unfold extend_rows.
  destruct (deref st loc) as [| | | | |[|meta [|[| | | | |all_rows|] rest]]|];
    try apply cache_adds_refl.
  destruct (py_iter more); [|apply cache_adds_refl].
  intros e He. now left.
Qed.

Lemma adds_for_each {A : Type} (new : key -> Prop) (xs : list A) (body : A -> M unit) :
  (forall x, In x xs -> adds_only new (body x)) -> adds_only new (for_each xs body).
Proof.
  induction xs as [|x xs IH]; intro H; simpl.
  - apply adds_ret.
  - apply adds_bind; [apply H; now left|].
    intros _. apply IH. intros y Hy. apply H. now right.
Qed.

Lemma adds_add_page (new : key -> Prop) (countries_iso code date_range : string)
  (loc : nat) (p : Z) :
  new (countries_iso, code, date_range, p) ->
  adds_only new (add_page net countries_iso code date_range loc p).
Proof.
  intro Hk. unfold add_page.
  apply adds_bind; [now apply adds_fetch|]. intro l.
  apply adds_bind; [apply adds_read|]. intro json_data.
  apply adds_bind; [apply adds_lift|]. intro n.
  destruct (1 <? n); [|apply adds_ret].
  apply adds_bind; [apply adds_lift|]. intro x.
  destruct (truthy x); [apply adds_extend_rows|apply adds_ret].
Qed.

Lemma adds_try_indicator (countries_dict : list (string * string))
  (countries_iso date_range name code : string) :
  adds_only (fun k => code_of k = code)
    (try_indicator net countries_dict countries_iso date_range name code).
Proof.
  unfold try_indicator.
  apply adds_bind; [now apply adds_fetch|]. intro loc.
  apply adds_bind; [apply adds_read|]. intro first_page.
  destruct (no_data first_page); [apply adds_ret|].
  apply adds_bind; [apply adds_lift|]. intro total_pages.
  apply adds_bind.
  - apply adds_for_each. intros p _. now apply adds_add_page.
  - intros _. apply adds_bind; [apply adds_read|]. intro fp. apply adds_lift.
Qed.

(** ** Two fetchers that hold the same first page *)

Lemma set_nth_length {A : Type} (n : nat) (x : A) (l : list A) :
  List.length (set_nth n x l) = List.length l.
Proof.
  revert n. induction l as [|y l IH]; intros [|n]; simpl; auto.
Qed.

Lemma set_nth_same {A : Type} (n : nat) (x d : A) (l : list A) :
  (n < List.length l)%nat -> nth n (set_nth n x l) d = x.
Proof.
  revert n. induction l as [|y l IH]; intros [|n] H; simpl in *; try lia; auto.
  apply IH. lia.
Qed.

Lemma deref_grown (st : fetcher) (page : json) (c : list (key * nat)) (loc : nat) :
  (loc < List.length (store st))%nat ->
  deref {| store := store st ++ [page]; cache := c |} loc = deref st loc.
Proof. intro H. unfold deref. cbn [store]. now apply app_nth1. Qed.

Lemma deref_new (st : fetcher) (page : json) (c : list (key * nat)) :
  deref {| store := store st ++ [page]; cache := c |} (List.length (store st)) = page.
Proof. unfold deref. cbn [store]. apply nth_middle. Qed.

Lemma same_at_grown (loc loc' : nat) (st st' : fetcher) (page page' : json)
  (c c' : list (key * nat)) :
  same_at loc loc' st st' ->
  same_at loc loc' {| store := store st ++ [page]; cache := c |}
                   {| store := store st' ++ [page']; cache := c' |}.
Proof.
  intros (H & H' & E). unfold same_at. cbn [store].
  rewrite !length_app, !deref_grown by assumption. simpl. repeat split; try lia. exact E.
Qed.

Lemma extend_rows_sim (loc loc' : nat) (more : json) (st st' : fetcher) :
  same_at loc loc' st st' ->
  snd (extend_rows loc more st) = snd (extend_rows loc' more st')
  /\ same_at loc loc' (fst (extend_rows loc more st)) (fst (extend_rows loc' more st')).
Proof.
  intros Hs. pose proof Hs as (H & H' & E). unfold extend_rows. rewrite <- E.
  destruct (deref st loc) as [| | | | |[|meta [|[| | | | |all_rows|] rest]]|];
    try (split; [reflexivity|exact Hs]).
  destruct (py_iter more) as [items|e]; [|split; [reflexivity|exact Hs]].
  split; [reflexivity|]. unfold same_at, deref. cbn [fst store].
  rewrite !set_nth_length, !set_nth_same by assumption. now repeat split.
Qed.

Lemma add_page_miss (countries_iso code date_range : string) (loc : nat) (p : Z)
  (st : fetcher) :
  absent (countries_iso, code, date_range, p) st ->
  add_page net countries_iso code date_range loc p st
  = match net (countries_iso, code, date_range, p) with
    | None => (st, Raise HTTPError)
    | Some page =>
        let st1 := {| store := store st ++ [page];
                      cache := firstn maxsize
                                 ((countries_iso, code, date_range, p, List.length (store st))
                                  :: cache st) |} in
        match py_len page with
        | Raise e => (st1, Raise e)
        | Ok n =>
            if 1 <? n then
              match py_item1 page with
              | Raise e => (st1, Raise e)
              | Ok x => if truthy x then extend_rows loc x st1 else (st1, Ok tt)
              end
            else (st1, Ok tt)
        end
    end.
Proof.
  intro H. unfold add_page, bind at 1. rewrite (fetch_miss _ _ H).
  destruct (net (countries_iso, code, date_range, p)) as [page|]; [|reflexivity].
  unfold bind at 1, read at 1. rewrite deref_new.
  unfold bind at 1, lift at 1. destruct (py_len page) as [n|e]; [|reflexivity].
  destruct (1 <? n); [|reflexivity].
  unfold bind, lift. destruct (py_item1 page) as [x|e]; [|reflexivity].
  now destruct (truthy x).
Qed.

Lemma add_page_sim (countries_iso code date_range : string) (loc loc' : nat) (p : Z)
  (st st' : fetcher) :
  absent (countries_iso, code, date_range, p) st ->
  absent (countries_iso, code, date_range, p) st' ->
  same_at loc loc' st st' ->
  snd (add_page net countries_iso code date_range loc p st)
  = snd (add_page net countries_iso code date_range loc' p st')
  /\ same_at loc loc' (fst (add_page net countries_iso code date_range loc p st))
                      (fst (add_page net countries_iso code date_range loc' p st')).
Proof.
  intros Ha Ha' Hs. rewrite !add_page_miss by assumption.
  destruct (net (countries_iso, code, date_range, p)) as [page|]; [|now split].
  cbv zeta.
  pose proof (same_at_grown loc loc' st st' page page
                (firstn maxsize ((countries_iso, code, date_range, p, List.length (store st))
                                 :: cache st))
                (firstn maxsize ((countries_iso, code, date_range, p, List.length (store st'))
                                 :: cache st')) Hs) as Hs1.
  destruct (py_len page) as [n|e]; [|now split].
  destruct (1 <? n); [|now split].
  destruct (py_item1 page) as [x|e]; [|now split].
  destruct (truthy x); [|now split].
  now apply extend_rows_sim.
Qed.

Lemma for_each_add_page_sim (countries_iso code date_range : string) (loc loc' : nat)
  (ps : list Z) :
  NoDup ps ->
  forall st st',
    (forall p, In p ps -> absent (countries_iso, code, date_range, p) st) ->
    (forall p, In p ps -> absent (countries_iso, code, date_range, p) st') ->
    same_at loc loc' st st' ->
    snd (for_each ps (add_page net countries_iso code date_range loc) st)
    = snd (for_each ps (add_page net countries_iso code date_range loc') st')
    /\ same_at loc loc'
         (fst (for_each ps (add_page net countries_iso code date_range loc) st))
         (fst (for_each ps (add_page net countries_iso code date_range loc') st')).
Proof.
  induction 1 as [|p ps Hp Hnd IH]; intros st st' Ha Ha' Hs.
  - now split.
  - cbn [for_each]. unfold bind.
    destruct (add_page_sim countries_iso code date_range loc loc' p st st'
                (Ha p (or_introl eq_refl)) (Ha' p (or_introl eq_refl)) Hs) as [Er Hs1].
    pose proof (adds_add_page (eq (countries_iso, code, date_range, p))
                  countries_iso code date_range loc p eq_refl st) as Hg.
    pose proof (adds_add_page (eq (countries_iso, code, date_range, p))
                  countries_iso code date_range loc' p eq_refl st') as Hg'.
    destruct (add_page net countries_iso code date_range loc p st) as [st1 r].
    destruct (add_page net countries_iso code date_range loc' p st') as [st1' r'].
    cbn [fst snd] in *. subst r'. destruct r as [u|e]; [|now split].
    apply IH; [| |exact Hs1].
    + intros q Hq. apply (absent_after _ _ _ _ Hg); [|apply Ha; now right].
      intros [= <-]. contradiction.
    + intros q Hq. apply (absent_after _ _ _ _ Hg'); [|apply Ha'; now right].
      intros [= <-]. contradiction.
Qed.

Lemma py_range_NoDup (a b : Z) : NoDup (py_range a b).
Proof.
  unfold py_range. apply Finite.Injective_map_NoDup; [|apply seq_NoDup].
  intros i j H. lia.
Qed.

Lemma py_range_in (a b p : Z) : In p (py_range a b) -> a <= p.
Proof.
  unfold py_range. rewrite in_map_iff. intros (i & <- & _). lia.
Qed.

Lemma try_indicator_miss (countries_dict : list (string * string))
  (countries_iso date_range name code : string) (st : fetcher) :
  absent (countries_iso, code, date_range, 1) st ->
  try_indicator net countries_dict countries_iso date_range name code st
  = match net (countries_iso, code, date_range, 1) with
    | None => (st, Raise HTTPError)
    | Some page =>
        let loc := List.length (store st) in
        let st1 := {| store := store st ++ [page];
                      cache := firstn maxsize
                                 ((countries_iso, code, date_range, 1, loc) :: cache st) |} in
        if no_data page then (st1, Ok None)
        else
          match total_pages_of page with
          | Raise e => (st1, Raise e)
          | Ok total_pages =>
              match for_each (py_range 2 (total_pages + 1))
                      (add_page net countries_iso code date_range loc) st1 with
              | (st2, Raise e) => (st2, Raise e)
              | (st2, Ok _) =>
                  (st2, clean_frame countries_dict name (all_rows_of (deref st2 loc)))
              end
          end
    end.
Proof.
  intro H. unfold try_indicator, bind at 1. rewrite (fetch_miss _ _ H).
  destruct (net (countries_iso, code, date_range, 1)) as [page|]; [|reflexivity].
  unfold bind at 1, read at 1. rewrite deref_new. cbv zeta.
  destruct (no_data page); [reflexivity|].
  unfold bind at 1, lift at 1.
  destruct (total_pages_of page) as [total_pages|e]; [|reflexivity].
  unfold bind at 1. destruct (for_each _ _ _) as [st2 [u|e]]; reflexivity.
Qed.

(** Where the cache has no entry for the indicator's code, what the
    aggregation returns is decided by the API alone. *)
Lemma try_indicator_fresh (countries_dict : list (string * string))
  (countries_iso date_range name code : string) (st st' : fetcher) :
  no_entry_for code st -> no_entry_for code st' ->
  snd (try_indicator net countries_dict countries_iso date_range name code st)
  = snd (try_indicator net countries_dict countries_iso date_range name code st').
Proof.
  intros Hn Hn'.
  rewrite !try_indicator_miss by (eapply no_entry_absent; [eassumption|reflexivity]).
  destruct (net (countries_iso, code, date_range, 1)) as [page|]; [|reflexivity].
  cbv zeta. destruct (no_data page); [reflexivity|].
  destruct (total_pages_of page) as [total_pages|e]; [|reflexivity].
  set (st1 := {| store := store st ++ [page]; cache := _ |}).
  set (st1' := {| store := store st' ++ [page]; cache := _ |}).
  assert (Hs : same_at (List.length (store st)) (List.length (store st')) st1 st1').
  { unfold same_at, st1, st1'. rewrite !deref_new. cbn [store].
    rewrite !length_app. simpl. repeat split; lia. }
  assert (Ha : forall st0 c, no_entry_for code st0 ->
            forall p, In p (py_range 2 (total_pages + 1)) ->
            absent (countries_iso, code, date_range, p)
              {| store := c;
                 cache := firstn maxsize
                            ((countries_iso, code, date_range, 1, List.length (store st0))
                             :: cache st0) |}).
  { intros st0 c H0 p Hp e He. cbn [cache] in He.
    apply firstn_in in He as [<-|He].
    - cbn [fst]. intros [= E]. apply py_range_in in Hp. lia.
    - intro E. apply (H0 e He). now rewrite E. }
  destruct (for_each_add_page_sim countries_iso code date_range
              (List.length (store st)) (List.length (store st'))
              (py_range 2 (total_pages + 1)) (py_range_NoDup _ _) st1 st1'
              (Ha st _ Hn) (Ha st' _ Hn') Hs) as [Er Hs2].
  destruct (for_each _ _ st1) as [st2 r]. destruct (for_each _ _ st1') as [st2' r'].
  cbn [fst snd] in *. subst r'. destruct r as [u|e]; [|reflexivity].
  cbn [snd]. destruct Hs2 as (_ & _ & E). now rewrite E.
Qed.

Lemma adds_for_indicators (countries_dict : list (string * string))
  (countries_iso date_range : string) (indicators : list (string * string)) :
  forall (dfs : list (table json)) (st : fetcher),
    cache_adds (fun k => In (code_of k) (map snd indicators)) st
      (fst (for_indicators net countries_dict countries_iso date_range indicators dfs st)).
Proof.
  induction indicators as [|[name code] rest IH]; intros dfs st; cbn [for_indicators].
  - apply cache_adds_refl.
  - pose proof (adds_try_indicator countries_dict countries_iso date_range name code st)
      as Hhead.
    assert (Hstep : forall dfs' st1,
               cache_adds (fun k => code_of k = code) st st1 ->
               cache_adds (fun k => In (code_of k) (map snd ((name, code) :: rest))) st
                 (fst (for_indicators net countries_dict countries_iso date_range
                         rest dfs' st1))).
    { intros dfs' st1 H1.
      eapply cache_adds_trans.
      - eapply cache_adds_weaken; [|exact H1]. intros k <-. now left.
      - eapply cache_adds_weaken; [|apply IH]. intros k Hk. now right. }
    destruct (try_indicator _ _ _ _ _ _ st) as [st1 [[df|]|e]]; now apply Hstep.
Qed.

Lemma no_entry_kept (new : key -> Prop) (code : string) (st st1 : fetcher) :
  cache_adds new st st1 -> (forall k, new k -> code_of k <> code) ->
  no_entry_for code st -> no_entry_for code st1.
Proof.
  intros Ha Hnew Hn e He. destruct (Ha e He) as [H|H]; [now apply Hn|now apply Hnew].
Qed.

(** With distinct codes and no entry for any of them, the frames are decided
    by the API alone. *)
Lemma for_indicators_fresh (countries_dict : list (string * string))
  (countries_iso date_range : string) (indicators : list (string * string)) :
  NoDup (map snd indicators) ->
  forall (dfs : list (table json)) (st st' : fetcher),
    (forall code, In code (map snd indicators) -> no_entry_for code st) ->
    (forall code, In code (map snd indicators) -> no_entry_for code st') ->
    snd (for_indicators net countries_dict countries_iso date_range indicators dfs st)
    = snd (for_indicators net countries_dict countries_iso date_range indicators dfs st').
Proof.
  induction indicators as [|[name code] rest IH]; intros Hnd dfs st st' Hn Hn';
    cbn [for_indicators].
  - reflexivity.
  - cbn [map snd] in Hnd, Hn, Hn'. inversion Hnd as [|? ? Hcode Hrest]; subst.
    pose proof (try_indicator_fresh countries_dict countries_iso date_range name code
                  st st' (Hn code (or_introl eq_refl)) (Hn' code (or_introl eq_refl))) as Er.
    pose proof (adds_try_indicator countries_dict countries_iso date_range name code st)
      as Hg.
    pose proof (adds_try_indicator countries_dict countries_iso date_range name code st')
      as Hg'.
    destruct (try_indicator _ _ _ _ _ _ st) as [st1 r].
    destruct (try_indicator _ _ _ _ _ _ st') as [st1' r'].
    cbn [fst snd] in *. subst r'.
    assert (H1 : forall c, In c (map snd rest) -> no_entry_for c st1).
    { intros c Hc. apply (no_entry_kept _ _ _ _ Hg); [|apply Hn; now right].
      intros k Hk E. apply Hcode. now rewrite <- Hk, E. }
    assert (H1' : forall c, In c (map snd rest) -> no_entry_for c st1').
    { intros c Hc. apply (no_entry_kept _ _ _ _ Hg'); [|apply Hn'; now right].
      intros k Hk E. apply Hcode. now rewrite <- Hk, E. }
    destruct r as [[df|]|e]; now apply IH.
Qed.

End Fetches.

Lemma NoDup_app_disjoint {A : Type} (l1 l2 : list A) (a : A) :
  NoDup (l1 ++ l2) -> In a l1 -> In a l2 -> False.
Proof.
  induction l1 as [|x l1 IH]; simpl; intros Hnd H1 H2; [contradiction|].
  inversion Hnd as [|? ? Hx Hrest]; subst. destruct H1 as [->|H1].
  - apply Hx. apply in_or_app. now right.
  - now apply IH.
Qed.

(** ** The indicators, one after the other *)

(** An indicator whose processing raises appends no frame: the frames are
    those appended before it and those the later indicators append. *)
Lemma frames_around_failure (net : key -> option json)
  (countries_dict before after : list (string * string)) (name code : string)
  (start_year end_year : Z) (st st1 st2 : fetcher) (dfs1 : list (table json)) (e : exn) :
  for_indicators net countries_dict (countries_iso_of countries_dict)
    (date_range_of start_year end_year) before [] st = (st1, dfs1) ->
  try_indicator net countries_dict (countries_iso_of countries_dict)
    (date_range_of start_year end_year) name code st1 = (st2, Raise e) ->
  indicator_frames net countries_dict (before ++ (name, code) :: after) start_year end_year st
  = dfs1 ++ indicator_frames net countries_dict after start_year end_year st2.
Proof.
  intros Hbefore Hraise. unfold indicator_frames.
  rewrite for_indicators_app, Hbefore. cbn [for_indicators].
  rewrite Hraise. now rewrite for_indicators_acc.
Qed.

(** With distinct codes and a cache without entries for them, each
    indicator's frame is the one its processing gives on the starting fetcher. *)
Lemma for_indicators_each (net : key -> option json)
  (countries_dict : list (string * string)) (countries_iso date_range : string)
  (indicators : list (string * string)) :
  NoDup (map snd indicators) ->
  forall st st0 : fetcher,
    (forall code, In code (map snd indicators) -> no_entry_for code st) ->
    (forall code, In code (map snd indicators) -> no_entry_for code st0) ->
    snd (for_indicators net countries_dict countries_iso date_range indicators [] st)
    = flat_map (fun ind => appended (snd (try_indicator net countries_dict countries_iso
                                            date_range (fst ind) (snd ind) st0)))
               indicators.
Proof.
  induction indicators as [|[name code] rest IH]; intros Hnd st st0 Hn Hn0;
    cbn [for_indicators flat_map fst snd].
  - reflexivity.
  - cbn [map snd] in Hnd, Hn, Hn0. inversion Hnd as [|? ? Hcode Hrest]; subst.
    pose proof (try_indicator_fresh net countries_dict countries_iso date_range name code
                  st st0 (Hn code (or_introl eq_refl)) (Hn0 code (or_introl eq_refl))) as Er.
    pose proof (adds_try_indicator net countries_dict countries_iso date_range name code st)
      as Hg.
    destruct (try_indicator net countries_dict countries_iso date_range name code st)
      as [st1 r].
    cbn [fst snd] in *. rewrite <- Er.
    assert (H1 : forall c, In c (map snd rest) -> no_entry_for c st1).
    { intros c Hc. apply (no_entry_kept _ _ _ _ Hg); [|apply Hn; now right].
      intros k Hk E. apply Hcode. now rewrite <- Hk, E. }
    assert (H0 : forall c, In c (map snd rest) -> no_entry_for c st0).
    { intros c Hc. apply Hn0. now right. }
    destruct r as [[df|]|e]; cbn [appended app].
    + rewrite for_indicators_acc. cbn [snd app]. f_equal. now apply IH.
    + now apply IH.
    + now apply IH.
Qed.


(** C9 at a record of a country that is not in the registry: the API answers
    one indicator with a record of Germany and a record whose code, "XKX", is
    not in the registry; both rows are kept, the second with the country
    object in its Country cell, and the sort raises: the build returns no
    table.  With the name under "value" in that cell, the two rows sort. *)
Lemma unknown_code_breaks_the_build :
  indicator_frames stray_code sample_countries [("Ind A", "A")] 2000 2024 no_fetches
  = [frame_of [{| ISO3Code := Some "DEU"; Country := JStr "Germany"; Year := Some 2021;
                  Value := 110; Indicator := "Ind A" |};
               {| ISO3Code := Some "XKX";
                  Country := JDict [("id", JStr "XKX"); ("value", JStr "Kosovo")];
                  Year := Some 2021; Value := 70; Indicator := "Ind A" |}]]
  /\ snd (get_worldbank_data stray_code sample_countries [("Ind A", "A")] 2000 2024 no_fetches)
     = Raise TypeError
  /\ sort_values
       [{| ISO3Code := Some "DEU"; Country := JStr "Germany"; Year := Some 2021;
           Value := 110; Indicator := "Ind A" |};
        {| ISO3Code := Some "XKX"; Country := JStr "Kosovo";
           Year := Some 2021; Value := 70; Indicator := "Ind A" |}]
     = Ok [{| ISO3Code := Some "DEU"; Country := Some "Germany"; Year := Some 2021;
              Value := 110; Indicator := "Ind A" |};
           {| ISO3Code := Some "XKX"; Country := Some "Kosovo";
              Year := Some 2021; Value := 70; Indicator := "Ind A" |}].
Proof. repeat split; reflexivity. Qed.

(** ** The page count *)

(** C8 (as amended): for a first page that is accepted as having data and
    whose metadata is an object, the page count is [int] of the "pages" field
    where the field is present and 1 where it is absent; an integer field
    gives itself, and so does text that [int] reads; where [int] raises on the
    field, the indicator's processing ends with that exception, no frame is
    appended for it, and the loop goes on with the next indicator. *)
Theorem total_pages_default_and_failure (net : key -> option json)
  (countries_dict : list (string * string))
  (countries_iso date_range name code : string) (st st1 : fetcher) (loc : nat)
  (meta : list (string * json)) (rest : list json) :
  fetch_worldbank_page net (countries_iso, code, date_range, 1) st = (st1, Ok loc) ->
  deref st1 loc = JList (JDict meta :: rest) ->
  no_data (deref st1 loc) = false ->
  total_pages_of (deref st1 loc)
  = match lookup "pages" meta with
    | Some v => py_int v
    | None => Ok 1
    end
  /\ (forall n, lookup "pages" meta = Some (JInt n) -> total_pages_of (deref st1 loc) = Ok n)
  /\ (forall s n, lookup "pages" meta = Some (JStr s) -> int_of_text s = Some n ->
      total_pages_of (deref st1 loc) = Ok n)
  /\ (forall v e, lookup "pages" meta = Some v -> py_int v = Raise e ->
      try_indicator net countries_dict countries_iso date_range name code st
      = (st1, Raise e)
      /\ forall later dfs,
           for_indicators net countries_dict countries_iso date_range
             ((name, code) :: later) dfs st
           = for_indicators net countries_dict countries_iso date_range later dfs st1).
Proof.
  intros Hfetch Hpage Hdata.
  assert (Htotal : total_pages_of (deref st1 loc)
                   = match lookup "pages" meta with
                     | Some v => py_int v
                     | None => Ok 1
                     end).
  { rewrite Hpage. simpl. now destruct (lookup "pages" meta). }
  split; [exact Htotal|]. split; [|split].
  - intros n Hn. now rewrite Htotal, Hn.
  - intros s n Hs Hn. rewrite Htotal, Hs. cbn [py_int]. now rewrite Hn.
  - intros v e Hv He.
    assert (Htry : try_indicator net countries_dict countries_iso date_range name code st
                   = (st1, Raise e)).
    { unfold try_indicator, bind at 1. rewrite Hfetch.
      unfold bind at 1, read at 1. rewrite Hdata.
      unfold bind, lift. now rewrite Htotal, Hv, He. }
    split; [exact Htry|]. intros later dfs. cbn [for_indicators]. now rewrite Htry.
Qed.

Lemma total_pages_default_and_failure_witness :
  total_pages_of (deref (fst (fetch_worldbank_page worded_pages
                                ("DEU", "X.CODE", "2000:2024", 1) no_fetches)) 0)
  = match lookup "pages" [("page", JInt 1); ("pages", JStr "2.0")] with
    | Some v => py_int v
    | None => Ok 1
    end
  /\ (forall n, lookup "pages" [("page", JInt 1); ("pages", JStr "2.0")] = Some (JInt n) ->
      total_pages_of (deref (fst (fetch_worldbank_page worded_pages
                                    ("DEU", "X.CODE", "2000:2024", 1) no_fetches)) 0)
      = Ok n)
  /\ (forall s n, lookup "pages" [("page", JInt 1); ("pages", JStr "2.0")] = Some (JStr s) ->
      int_of_text s = Some n ->
      total_pages_of (deref (fst (fetch_worldbank_page worded_pages
                                    ("DEU", "X.CODE", "2000:2024", 1) no_fetches)) 0)
      = Ok n)
  /\ (forall v e, lookup "pages" [("page", JInt 1); ("pages", JStr "2.0")] = Some v ->
      py_int v = Raise e ->
      try_indicator worded_pages sample_countries "DEU" "2000:2024" "X" "X.CODE" no_fetches
      = (fst (fetch_worldbank_page worded_pages ("DEU", "X.CODE", "2000:2024", 1) no_fetches),
         Raise e)
      /\ forall later dfs,
           for_indicators worded_pages sample_countries "DEU" "2000:2024"
             (("X", "X.CODE") :: later) dfs no_fetches
           = for_indicators worded_pages sample_countries "DEU" "2000:2024" later dfs
               (fst (fetch_worldbank_page worded_pages ("DEU", "X.CODE", "2000:2024", 1)
                       no_fetches))).
Proof.
  apply (total_pages_default_and_failure worded_pages sample_countries
           "DEU" "2000:2024" "X" "X.CODE" no_fetches
           (fst (fetch_worldbank_page worded_pages ("DEU", "X.CODE", "2000:2024", 1) no_fetches))
           0%nat [("page", JInt 1); ("pages", JStr "2.0")]
           [JList [wb_record "DEU" "Germany" "2021" (JFloat 110)]]);
    reflexivity.
Defined.

(** What [int] makes of some "pages" fields. *)
Example pages_fields_read :
  py_int (JInt 3) = Ok 3
  /\ py_int (JStr "3") = Ok 3
  /\ py_int (JStr " 2 ") = Ok 2
  /\ py_int (JStr "1_0") = Ok 10
  /\ py_int (JStr "+07") = Ok 7
  /\ py_int (JFloat 2.5) = Ok 2
  /\ py_int (JBool true) = Ok 1
  /\ py_int (JStr "2.0") = Raise ValueError
  /\ py_int (JStr "two") = Raise ValueError
  /\ py_int (JStr "") = Raise ValueError
  /\ py_int (JStr "1__0") = Raise ValueError
  /\ py_int (JStr "- 1") = Raise ValueError
  /\ py_int JNull = Raise TypeError
  /\ py_int (JList []) = Raise TypeError
  /\ py_int (JFloat infinity) = Raise OverflowError.
Proof. repeat split; reflexivity. Qed.

(** C8, as stated, fails where the "pages" field is null: the first page is
    accepted as having data, the page count is not 1 but an exception, and the
    record of the first page is not in the table. *)
Lemma null_pages_field_drops_indicator :
  no_data (wb_page JNull [wb_record "DEU" "Germany" "2021" (JFloat 110)]) = false
  /\ total_pages_of (wb_page JNull [wb_record "DEU" "Germany" "2021" (JFloat 110)])
     = Raise TypeError
  /\ snd (try_indicator null_pages sample_countries (countries_iso_of sample_countries)
            (date_range_of 2000 2024) "X" "X.CODE" no_fetches) = Raise TypeError
  /\ snd (get_worldbank_data null_pages sample_countries [("X", "X.CODE")]
            2000 2024 no_fetches)
     = Ok {| columns := canonical_columns; rows := [] |}.
Proof. repeat split; reflexivity. Qed.

(** C1 at a two-page indicator: the first run yields the record of each page
    once; the second run, on the fetcher the first one left, finds the first
    page in the cache with the rows of page 2 already appended to it, and
    yields the record of page 2 twice. *)
Lemma second_run_repeats_later_pages :
  snd (run_two_pages no_fetches)
  = Ok (Some (frame_of [germany_row 2021 110; germany_row 2020 100]))
  /\ snd (run_two_pages (fst (run_two_pages no_fetches)))
     = Ok (Some (frame_of [germany_row 2021 110; germany_row 2020 100;
                           germany_row 2020 100])).
Proof. split; reflexivity. Qed.

(** ** The order of float64 *)


Lemma SFcompare_key (f1 f2 : spec_float) :
  f1 <> S754_nan -> f2 <> S754_nan ->
  SFcompare f1 f2 = Some (key3_compare (sf_key f1) (sf_key f2)).
Proof.
  intros H1 H2.
  destruct f1 as [s1|s1| |s1 m1 e1]; destruct f2 as [s2|s2| |s2 m2 e2];
    try congruence; try destruct s1; try destruct s2; try reflexivity.
  - unfold key3_compare, sf_key, SFcompare, fst, snd, lex.
    rewrite Z.compare_opp.
    change (Z.neg m1 ?= Z.neg m2) with (CompOpp (Pos.compare m1 m2)).
    rewrite (Z.compare_antisym e1 e2).
    change (-1 ?= -1) with Eq. cbv beta iota.
    now destruct (e1 ?= e2).
  - unfold key3_compare, sf_key, SFcompare, fst, snd, lex.
    change (Z.pos m1 ?= Z.pos m2) with (Pos.compare m1 m2).
    change (1 ?= 1) with Eq. cbv beta iota.
    now destruct (e1 ?= e2).
Qed.

Lemma ordering_key3 : ordering key3_compare.
Proof.
  unfold key3_compare.
  apply (ordering_lex (fun a b : Z * (Z * Z) => fst a ?= fst b)
           (fun a b => lex (fst (snd a) ?= fst (snd b)) (snd (snd a) ?= snd (snd b)))).
  - apply (ordering_on (fun a : Z * (Z * Z) => fst a)), ordering_Z.
  - apply (ordering_lex (fun a b : Z * (Z * Z) => fst (snd a) ?= fst (snd b))
             (fun a b => snd (snd a) ?= snd (snd b))).
    + apply (ordering_on (fun a : Z * (Z * Z) => fst (snd a))), ordering_Z.
    + apply (ordering_on (fun a : Z * (Z * Z) => snd (snd a))), ordering_Z.
Qed.

Lemma ordering_float : ordering float_compare.
Proof.
  unfold float_compare.
  apply (ordering_on (fun x => sf_key (Prim2SF x))), ordering_key3.
Qed.

Lemma ordering_refl {A : Type} (cmp : A -> A -> comparison) :
  ordering cmp -> forall x, cmp x x = Eq.
Proof.
  intros O x. pose proof (cmp_opp cmp O x x) as H. now destruct (cmp x x).
Qed.

Lemma ordering_flip {A : Type} (cmp : A -> A -> comparison) :
  ordering cmp -> ordering (fun x y => cmp y x).
Proof.
  intros O. constructor.
  - intros x y. apply (cmp_opp cmp O).
  - intros x y z H.
    rewrite (cmp_opp cmp O x z), (cmp_opp cmp O y z). f_equal.
    apply (cmp_eq cmp O). rewrite (cmp_opp cmp O y x), H. reflexivity.
  - intros x y z Hxy Hyz. apply (cmp_lt cmp O z y x); assumption.
Qed.

Lemma is_nan_spec (x : float) : PrimFloat.is_nan x = true <-> Prim2SF x = S754_nan.
Proof.
  unfold PrimFloat.is_nan. rewrite eqb_spec. unfold SFeqb. split.
  - intro H. destruct (Prim2SF x) eqn:E; try reflexivity;
      rewrite SFcompare_key in H by discriminate;
      now rewrite (ordering_refl _ ordering_key3) in H.
  - now intros ->.
Qed.

Lemma not_nan_spec (x : float) : PrimFloat.is_nan x = false <-> Prim2SF x <> S754_nan.
Proof.
  rewrite <- is_nan_spec. now destruct (PrimFloat.is_nan x).
Qed.

Lemma ltb_compare (x y : float) :
  PrimFloat.is_nan x = false -> PrimFloat.is_nan y = false ->
  PrimFloat.ltb x y = match float_compare x y with Lt => true | _ => false end.
Proof.
  intros Hx Hy. apply not_nan_spec in Hx, Hy.
  rewrite ltb_spec. unfold SFltb, float_compare. now rewrite SFcompare_key.
Qed.

Lemma eqb_compare (x y : float) :
  PrimFloat.is_nan x = false -> PrimFloat.is_nan y = false ->
  PrimFloat.eqb x y = match float_compare x y with Eq => true | _ => false end.
Proof.
  intros Hx Hy. apply not_nan_spec in Hx, Hy.
  rewrite eqb_spec. unfold SFeqb, float_compare. now rewrite SFcompare_key.
Qed.

(** On rows with a value, [value_ge] is "not after" in the descending order. *)
Lemma value_ge_compare (r1 r2 : row) :
  notna (Value r1) = true -> notna (Value r2) = true ->
  value_ge r1 r2 = not_gt (float_compare (Value r2) (Value r1)).
Proof.
  unfold notna, value_ge. intros H1 H2.
  apply negb_true_iff in H1, H2.
  rewrite (ltb_compare _ _ H1 H2).
  rewrite (cmp_opp _ ordering_float (Value r1) (Value r2)).
  now destruct (float_compare (Value r1) (Value r2)).
Qed.

Lemma sort_values_value_desc_no_nan (rs : list row) :
  Forall (fun r => notna (Value r) = true) rs ->
  sort_values_value_desc rs = sort_by value_ge rs.
Proof.
  intro H. unfold sort_values_value_desc.
  assert (E : filter (fun r => notna (Value r)) rs = rs
              /\ filter (fun r => PrimFloat.is_nan (Value r)) rs = []).
  { induction H as [|r rs Hr _ [IH1 IH2]]; simpl; [now split|].
    rewrite Hr, IH1. unfold notna in Hr.
    destruct (PrimFloat.is_nan (Value r)); [discriminate|now split]. }
  destruct E as [E1 E2]. now rewrite E1, E2, app_nil_r.
Qed.

(** Sorted by value, descending: no row is before a row of larger value. *)
Lemma sort_values_value_desc_sorted (rs : list row) :
  Forall (fun r => notna (Value r) = true) rs ->
  StronglySorted (fun a b => PrimFloat.ltb (Value a) (Value b) = false)
    (sort_values_value_desc rs).
Proof.
  intro H. rewrite (sort_values_value_desc_no_nan rs H).
  assert (Hs : StronglySorted (fun a b => value_ge a b = true) (sort_by value_ge rs)).
  { apply (sort_by_sorted value_ge (fun r => notna (Value r) = true)).
    - intros x y Hx Hy. rewrite !value_ge_compare by assumption.
      apply (ordering_total
               (fun a b : row => float_compare (Value b) (Value a))).
      apply (ordering_on Value (fun a b => float_compare b a)).
      apply ordering_flip, ordering_float.
    - intros x y z Hx Hy Hz. rewrite !value_ge_compare by assumption.
      apply (ordering_trans
               (fun a b : row => float_compare (Value b) (Value a))).
      apply (ordering_on Value (fun a b => float_compare b a)).
      apply ordering_flip, ordering_float.
    - exact H. }
  clear H. induction Hs as [|r l _ IH Hr]; constructor; [exact IH|].
  rewrite Forall_forall in Hr |- *. intros z Hz. specialize (Hr z Hz).
  unfold value_ge in Hr. now destruct (PrimFloat.ltb (Value r) (Value z)).
Qed.

Lemma dropna_value_notna (rs : list row) :
  Forall (fun r => notna (Value r) = true) (dropna_value rs).
Proof.
  apply Forall_forall. intros r Hr. now apply filter_In in Hr.
Qed.

(** ** The KPI cards *)

Lemma between_year (y0 y1 : Z) (c : option Z) :
  between y0 y1 c = true -> exists y, c = Some y /\ y0 <= y <= y1.
Proof.
  destruct c as [y|]; simpl; [|discriminate].
  intro H. apply andb_prop in H as [H0 H1]. exists y. split; [reflexivity|lia].
Qed.

Lemma kpi_rows_in (DF_ALL : DataFrame) (indicator kpi_country : string) (y0 y1 : Z)
  (r : row) :
  In r (kpi_rows DF_ALL indicator kpi_country y0 y1) ->
  In r (rows DF_ALL) /\ Indicator r = indicator /\ Country r = Some kpi_country
  /\ exists y, Year r = Some y /\ y0 <= y <= y1.
Proof.
  unfold kpi_rows. intro H. apply filter_In in H as [Hin H].
  apply andb_prop in H as [H Hy]. apply andb_prop in H as [Hi Hc].
  split; [exact Hin|]. split; [now apply String.eqb_eq|]. split.
  - unfold name_is in Hc. destruct (Country r) as [x|]; [|discriminate].
    apply String.eqb_eq in Hc. now subst.
  - now apply between_year.
Qed.

Lemma kpi_sorted_in (DF_ALL : DataFrame) (indicator kpi_country : string) (y0 y1 : Z)
  (r : row) :
  In r (kpi_sorted DF_ALL indicator kpi_country y0 y1) <->
  In r (kpi_rows DF_ALL indicator kpi_country y0 y1).
Proof. apply sort_by_in. Qed.

Lemma rev_head_in {A : Type} (l : list A) (x : A) (before : list A) :
  rev l = x :: before -> In x l.
Proof.
  intro H. apply in_rev. rewrite H. now left.
Qed.

(** What [update_kpis] returns on a selection that is not empty. *)
Lemma update_kpis_unfold (pow : float -> float -> float) (DF_ALL : DataFrame)
  (indicator kpi_country : string) (y0 y1 : Z)
  (first_row last_row : row) (rest before : list row) (first_year last_year : Z) :
  kpi_sorted DF_ALL indicator kpi_country y0 y1 = first_row :: rest ->
  rev (kpi_sorted DF_ALL indicator kpi_country y0 y1) = last_row :: before ->
  Year first_row = Some first_year ->
  Year last_row = Some last_year ->
  update_kpis pow DF_ALL indicator kpi_country y0 y1
  = Ok {| kpi_value := format_value indicator (Value last_row);
          kpi_year := YearOf last_year;
          kpi_var :=
            match before with
            | prev_row :: _ =>
                if negb (PrimFloat.eqb (Value prev_row) 0) && notna (Value prev_row)
                then percent_or_na (yoy_pct (Value last_row) (Value prev_row))
                else NA
            | [] => NA
            end;
          kpi_var_abs :=
            match before with
            | prev_row :: _ =>
                if notna (yoy_abs (Value last_row) (Value prev_row))
                then Delta (format_value indicator (yoy_abs (Value last_row) (Value prev_row)))
                else Delta NA
            | [] => Delta NA
            end;
          kpi_cagr :=
            if negb (PrimFloat.eqb (Value first_row) 0) && notna (Value first_row)
            then percent_or_na (cagr_pct pow (Value last_row) (Value first_row)
                                  (Z.max 1 (last_year - first_year)))
            else NA;
          kpi_range := Range y0 y1;
          kpi_rank := fst (rank_texts DF_ALL indicator kpi_country last_year);
          kpi_top := snd (rank_texts DF_ALL indicator kpi_country last_year) |}.
Proof.
  unfold kpi_sorted, update_kpis. intros Hfirst Hlast Hfy Hly.
  destruct (kpi_rows DF_ALL indicator kpi_country y0 y1) as [|r sel] eqn:Hsel.
  - discriminate.
  - cbv beta iota zeta. rewrite Hlast, Hfirst, Hly. cbn [rbind int_year].
    rewrite Hfy. cbn [rbind int_year].
    destruct (rank_texts DF_ALL indicator kpi_country last_year) as [rank_text top_text].
    assert (Hnan : notna nan = false) by reflexivity.
    unfold percent_or_na, yoy_pct, yoy_abs, cagr_pct. cbn [fst snd].
    destruct (negb (PrimFloat.eqb (Value first_row) 0) && notna (Value first_row));
      destruct before as [|prev_row before']; rewrite ?Hnan; try reflexivity;
      destruct (negb (PrimFloat.eqb (Value prev_row) 0) && notna (Value prev_row));
      rewrite ?Hnan; reflexivity.
Qed.

(** A selection that is not empty has a first and a last row by year, and
    both have a year within the range. *)
Lemma kpi_sorted_ends (DF_ALL : DataFrame) (indicator kpi_country : string) (y0 y1 : Z) :
  kpi_rows DF_ALL indicator kpi_country y0 y1 <> [] ->
  exists first_row rest last_row before first_year last_year,
    kpi_sorted DF_ALL indicator kpi_country y0 y1 = first_row :: rest
    /\ rev (kpi_sorted DF_ALL indicator kpi_country y0 y1) = last_row :: before
    /\ Year first_row = Some first_year
    /\ Year last_row = Some last_year.
Proof.
  intro Hne.
  assert (Hlen : List.length (kpi_sorted DF_ALL indicator kpi_country y0 y1) <> 0%nat).
  { unfold kpi_sorted, sort_values_year. rewrite sort_by_length.
    now destruct (kpi_rows DF_ALL indicator kpi_country y0 y1). }
  destruct (kpi_sorted DF_ALL indicator kpi_country y0 y1) as [|first_row rest] eqn:Hs;
    [now elim Hlen|].
  destruct (rev (first_row :: rest)) as [|last_row before] eqn:Hr.
  { apply (f_equal (@List.length row)) in Hr. rewrite length_rev in Hr. discriminate. }
  assert (Hf : In first_row (kpi_rows DF_ALL indicator kpi_country y0 y1)).
  { apply kpi_sorted_in. rewrite Hs. now left. }
  assert (Hl : In last_row (kpi_rows DF_ALL indicator kpi_country y0 y1)).
  { apply kpi_sorted_in. rewrite Hs. eapply rev_head_in. exact Hr. }
  apply kpi_rows_in in Hf as (_ & _ & _ & fy & Hfy & _).
  apply kpi_rows_in in Hl as (_ & _ & _ & ly & Hly & _).
  exists first_row, rest, last_row, before, fy, ly. auto.
Qed.

Lemma format_value_number (indicator : string) (v : float) :
  number_or_na (format_value indicator v) = true.
Proof.
  unfold format_value. destruct (PrimFloat.is_nan v) eqn:E; [reflexivity|].
  destruct (contains "%" indicator); [|destruct (contains "US$" indicator)];
    simpl; unfold notna; now rewrite E.
Qed.

Lemma percent_or_na_number (v : float) : number_or_na (percent_or_na v) = true.
Proof.
  unfold percent_or_na. destruct (notna v) eqn:E; [exact E|reflexivity].
Qed.

Lemma rank_texts_shape (DF_ALL : DataFrame) (indicator kpi_country : string) (last_year : Z) :
  number_or_na (fst (rank_texts DF_ALL indicator kpi_country last_year)) = true
  /\ (snd (rank_texts DF_ALL indicator kpi_country last_year) = YearOf last_year
      \/ snd (rank_texts DF_ALL indicator kpi_country last_year) = Blank).
Proof.
  unfold rank_texts. destruct (year_rows DF_ALL indicator last_year) as [|r rs].
  - split; [reflexivity|now right].
  - cbn [fst snd]. split; [|now left].
    destruct (filter _ _) as [|[k r'] l]; reflexivity.
Qed.

(** C3 (as amended): on a selection that is not empty [update_kpis] returns
    without raising; the latest value, the latest year, the two year-over-year
    fields, the growth rate, the range label and the rank are each 'N/A' or a
    number that is not NaN (it can be infinite), and the rank's caption is the
    year or blank. *)
Theorem kpis_return_numbers_or_na (pow : float -> float -> float) (DF_ALL : DataFrame)
  (indicator kpi_country : string) (y0 y1 : Z) :
  kpi_rows DF_ALL indicator kpi_country y0 y1 <> [] ->
  exists k,
    update_kpis pow DF_ALL indicator kpi_country y0 y1 = Ok k
    /\ number_or_na (kpi_value k) = true
    /\ number_or_na (kpi_year k) = true
    /\ number_or_na (kpi_var k) = true
    /\ number_or_na (kpi_var_abs k) = true
    /\ number_or_na (kpi_cagr k) = true
    /\ number_or_na (kpi_range k) = true
    /\ number_or_na (kpi_rank k) = true
    /\ (number_or_na (kpi_top k) = true \/ kpi_top k = Blank).
Proof.
  intro Hne.
  destruct (kpi_sorted_ends DF_ALL indicator kpi_country y0 y1 Hne)
    as (first_row & rest & last_row & before & fy & ly & Hs & Hr & Hfy & Hly).
  eexists. split; [apply (update_kpis_unfold pow _ _ _ _ _ _ _ _ _ _ _ Hs Hr Hfy Hly)|].
  cbn [kpi_value kpi_year kpi_var kpi_var_abs kpi_cagr kpi_range kpi_rank kpi_top].
  destruct (rank_texts_shape DF_ALL indicator kpi_country ly) as [Hrank Htop].
  repeat split; try reflexivity; try assumption.
  - apply format_value_number.
  - destruct before as [|prev_row ?]; [reflexivity|].
    destruct (_ && _); [apply percent_or_na_number|reflexivity].
  - destruct before as [|prev_row ?]; [reflexivity|].
    destruct (notna _); [apply format_value_number|reflexivity].
  - destruct (_ && _); [apply percent_or_na_number|reflexivity].
  - destruct Htop as [-> | ->]; [now left|now right].
Qed.

Lemma kpis_return_numbers_or_na_witness :
  exists k,
    update_kpis pow_unused three_countries "X" "Germany" 2020 2021 = Ok k
    /\ number_or_na (kpi_value k) = true
    /\ number_or_na (kpi_year k) = true
    /\ number_or_na (kpi_var k) = true
    /\ number_or_na (kpi_var_abs k) = true
    /\ number_or_na (kpi_cagr k) = true
    /\ number_or_na (kpi_range k) = true
    /\ number_or_na (kpi_rank k) = true
    /\ (number_or_na (kpi_top k) = true \/ kpi_top k = Blank).
Proof.
  apply (kpis_return_numbers_or_na pow_unused three_countries "X" "Germany" 2020 2021).
  vm_compute. discriminate.
Defined.

(** C3, as stated, fails on two finite values that are far apart: the
    year-over-year percentage overflows, and the card shows an infinity. *)
Lemma overflow_shows_infinity :
  kpi_rows far_apart "X" "Germany" 2020 2021 <> []
  /\ Forall (fun r => PrimFloat.is_finite (Value r) = true) (rows far_apart)
  /\ exists k,
       update_kpis pow_unused far_apart "X" "Germany" 2020 2021 = Ok k
       /\ kpi_var k = Percent infinity
       /\ finite_or_na (kpi_var k) = false.
Proof.
  split; [vm_compute; discriminate|].
  split; [repeat constructor|].
  eexists. split; [vm_compute; reflexivity|]. split; reflexivity.
Qed.

(** The same for every [pow]: the overflow is in the division. *)
Lemma overflow_whatever_pow (pow : float -> float -> float) :
  option_map kpi_var
    (match update_kpis pow far_apart "X" "Germany" 2020 2021 with
     | Ok k => Some k
     | Raise _ => None
     end) = Some (Percent infinity).
Proof. reflexivity. Qed.

(** C4 (as amended): on a selection that is not empty, with [n] the larger of
    1 and the years between the first and the latest row, the growth rate is
    'N/A' where the first value is zero or missing, and otherwise the value
    of ((latest / first) ^ (1/n) - 1) x 100, shown unless it is NaN; a
    negative first value is not set apart. *)
Theorem cagr_guards_zero_and_missing (pow : float -> float -> float) (DF_ALL : DataFrame)
  (indicator kpi_country : string) (y0 y1 : Z) :
  kpi_rows DF_ALL indicator kpi_country y0 y1 <> [] ->
  exists k first_row rest last_row before first_year last_year,
    update_kpis pow DF_ALL indicator kpi_country y0 y1 = Ok k
    /\ kpi_sorted DF_ALL indicator kpi_country y0 y1 = first_row :: rest
    /\ rev (kpi_sorted DF_ALL indicator kpi_country y0 y1) = last_row :: before
    /\ Year first_row = Some first_year
    /\ Year last_row = Some last_year
    /\ kpi_cagr k
       = if PrimFloat.eqb (Value first_row) 0 || PrimFloat.is_nan (Value first_row)
         then NA
         else percent_or_na (cagr_pct pow (Value last_row) (Value first_row)
                               (Z.max 1 (last_year - first_year))).
Proof.
  intro Hne.
  destruct (kpi_sorted_ends DF_ALL indicator kpi_country y0 y1 Hne)
    as (first_row & rest & last_row & before & fy & ly & Hs & Hr & Hfy & Hly).
  eexists. exists first_row, rest, last_row, before, fy, ly.
  split; [apply (update_kpis_unfold pow _ _ _ _ _ _ _ _ _ _ _ Hs Hr Hfy Hly)|].
  repeat (split; [assumption|]).
  cbn [kpi_cagr]. unfold notna.
  now destruct (PrimFloat.eqb (Value first_row) 0), (PrimFloat.is_nan (Value first_row)).
Qed.

Lemma cagr_guards_zero_and_missing_witness :
  exists k first_row rest last_row before first_year last_year,
    update_kpis pow_unused three_countries "X" "Germany" 2020 2021 = Ok k
    /\ kpi_sorted three_countries "X" "Germany" 2020 2021 = first_row :: rest
    /\ rev (kpi_sorted three_countries "X" "Germany" 2020 2021) = last_row :: before
    /\ Year first_row = Some first_year
    /\ Year last_row = Some last_year
    /\ kpi_cagr k
       = if PrimFloat.eqb (Value first_row) 0 || PrimFloat.is_nan (Value first_row)
         then NA
         else percent_or_na (cagr_pct pow_unused (Value last_row) (Value first_row)
                               (Z.max 1 (last_year - first_year))).
Proof.
  apply (cagr_guards_zero_and_missing pow_unused three_countries "X" "Germany" 2020 2021).
  vm_compute. discriminate.
Defined.

(** C4, as stated, fails on a negative first value: from -100 to -50 in one
    year the card shows -50%, not 'N/A'. *)
Lemma negative_first_value_has_growth_rate :
  kpi_sorted below_zero "X" "Germany" 2020 2021
  = [sample_row "Germany" 2020 (-100); sample_row "Germany" 2021 (-50)]
  /\ PrimFloat.ltb (-100) 0 = true
  /\ exists k,
       update_kpis pow_unused below_zero "X" "Germany" 2020 2021 = Ok k
       /\ kpi_cagr k = Percent (-50)
       /\ kpi_cagr k <> NA.
Proof.
  split; [reflexivity|]. split; [reflexivity|].
  eexists. split; [vm_compute; reflexivity|]. split; [reflexivity|discriminate].
Qed.

Lemma negative_first_value_whatever_pow (pow : float -> float -> float) :
  option_map kpi_cagr
    (match update_kpis pow below_zero "X" "Germany" 2020 2021 with
     | Ok k => Some k
     | Raise _ => None
     end) = Some (Percent (-50)).
Proof. reflexivity. Qed.



Lemma kpi_sorted_nonempty (DF_ALL : DataFrame) (indicator kpi_country : string) (y0 y1 : Z)
  (x : row) (l : list row) :
  rev (kpi_sorted DF_ALL indicator kpi_country y0 y1) = x :: l ->
  kpi_rows DF_ALL indicator kpi_country y0 y1 <> [].
Proof.
  intros H E. unfold kpi_sorted in H. rewrite E in H. discriminate.
Qed.

Lemma sort_values_year_sorted (rs : list row) :
  StronglySorted (fun a b => year_le a b = true) (sort_values_year rs).
Proof.
  apply (sort_by_sorted year_le (fun _ => True)).
  - intros x y _ _.
    apply (ordering_total (fun a b : row => opt_compare Z.compare (Year a) (Year b))).
    apply (ordering_on Year), ordering_opt, ordering_Z.
  - intros x y z _ _ _.
    apply (ordering_trans (fun a b : row => opt_compare Z.compare (Year a) (Year b))).
    apply (ordering_on Year), ordering_opt, ordering_Z.
  - apply Forall_forall. auto.
Qed.






(** The scenario of the specification, Germany 100 in 2020 and 110 in 2021,
    and the boundary of a zero in the year before the latest. *)
Example yoy_of_the_scenarios :
  option_map (fun k => (kpi_var_abs k, kpi_var k))
    (match update_kpis pow_unused three_countries "X" "Germany" 2020 2021 with
     | Ok k => Some k
     | Raise _ => None
     end) = Some (Delta (Plain 10), Percent 10)
  /\ option_map (fun k => (kpi_var_abs k, kpi_var k))
       (match update_kpis pow_unused zero_before_latest "X" "Germany" 2020 2021 with
        | Ok k => Some k
        | Raise _ => None
        end) = Some (Delta (Plain 110), NA).
Proof. split; reflexivity. Qed.


(** ** The rank *)

Lemma with_rank_position (c : string) (l : list row) :
  forall s : nat,
    match filter (fun kr : Z * row => name_is c (Country (snd kr)))
                 (combine (map (fun i => Z.of_nat i + 1) (seq s (List.length l))) l) with
    | (k, _) :: _ => Some k
    | [] => None
    end
    = option_map (fun p => p + Z.of_nat s) (position c l).
Proof.
  induction l as [|r l IH]; intro s;
    cbn [filter combine map seq List.length position snd option_map].
  - reflexivity.
  - destruct (name_is c (Country r)).
    + cbn [option_map]. f_equal. lia.
    + rewrite (IH (S s)). destruct (position c l) as [p|]; cbn [option_map]; [|reflexivity].
      f_equal. lia.
Qed.

Lemma rank_texts_spec (DF_ALL : DataFrame) (indicator kpi_country : string) (last_year : Z) :
  fst (rank_texts DF_ALL indicator kpi_country last_year)
  = rank_spec DF_ALL indicator kpi_country last_year.
Proof.
  unfold rank_texts, rank_spec.
  pose proof (dropna_value_notna
                (filter (fun r => String.eqb (Indicator r) indicator
                                  && year_is last_year (Year r)) (rows DF_ALL))) as Hn.
  fold (year_rows DF_ALL indicator last_year) in Hn.
  destruct (year_rows DF_ALL indicator last_year) as [|r rs] eqn:E.
  - reflexivity.
  - cbn [fst]. unfold with_rank.
    pose proof (with_rank_position kpi_country (sort_values_value_desc (r :: rs)) 0) as H.
    assert (Hlen : List.length (sort_values_value_desc (r :: rs)) = List.length (r :: rs)).
    { rewrite (sort_values_value_desc_no_nan _ Hn). apply sort_by_length. }
    destruct (filter _ _) as [|[k r'] l];
      destruct (position kpi_country (sort_values_value_desc (r :: rs))) as [p|];
      simpl in H; try discriminate; [reflexivity|].
    injection H as ->. rewrite Hlen. f_equal. lia.
Qed.

Lemma year_rows_in (DF_ALL : DataFrame) (indicator : string) (last_year : Z) (r : row) :
  In r (year_rows DF_ALL indicator last_year) <->
  In r (rows DF_ALL) /\ Indicator r = indicator /\ Year r = Some last_year
  /\ PrimFloat.is_nan (Value r) = false.
Proof.
  unfold year_rows, dropna_value, notna, year_is.
  rewrite filter_In, filter_In, andb_true_iff, String.eqb_eq, negb_true_iff.
  destruct (Year r) as [y|].
  - rewrite Z.eqb_eq. split.
    + intros [(Hin & Hi & ->) Hv]. auto.
    + intros (Hin & Hi & [= ->] & Hv). auto.
  - split.
    + intros [(_ & _ & H) _]. discriminate.
    + intros (_ & _ & H & _). discriminate.
Qed.

Lemma StronglySorted_last {A : Type} (R : A -> A -> Prop) (l : list A) (x : A) :
  StronglySorted R (l ++ [x]) -> Forall (fun a => R a x) l.
Proof.
  induction l as [|a l IH]; simpl; intro H.
  - constructor.
  - inversion H as [|? ? Hs Ha]; subst. constructor.
    + rewrite Forall_forall in Ha. apply Ha. apply in_or_app. right. now left.
    + now apply IH.
Qed.

(** The last row of the selection by year has the latest year in it. *)
Lemma last_row_is_latest (DF_ALL : DataFrame) (indicator kpi_country : string) (y0 y1 : Z)
  (last_row : row) (before : list row) (last_year : Z) :
  rev (kpi_sorted DF_ALL indicator kpi_country y0 y1) = last_row :: before ->
  Year last_row = Some last_year ->
  Forall (fun r => exists y, Year r = Some y /\ y <= last_year)
    (kpi_rows DF_ALL indicator kpi_country y0 y1).
Proof.
  intros Hrev Hly. apply Forall_forall. intros r Hr.
  destruct (kpi_rows_in _ _ _ _ _ _ Hr) as (_ & _ & _ & y & Hy & _).
  exists y. split; [exact Hy|].
  apply kpi_sorted_in in Hr.
  assert (E : kpi_sorted DF_ALL indicator kpi_country y0 y1 = rev before ++ [last_row]).
  { rewrite <- (rev_involutive (kpi_sorted _ _ _ _ _)), Hrev. reflexivity. }
  pose proof (sort_values_year_sorted (kpi_rows DF_ALL indicator kpi_country y0 y1)) as Hs.
  fold (kpi_sorted DF_ALL indicator kpi_country y0 y1) in Hs.
  rewrite E in Hs, Hr. apply StronglySorted_last in Hs.
  apply in_app_or in Hr as [Hr|[<-|[]]].
  - rewrite Forall_forall in Hs. specialize (Hs r Hr).
    unfold year_le in Hs. rewrite Hy, Hly in Hs. simpl in Hs.
    destruct (y ?= last_year) eqn:C; try discriminate.
    + apply Z.compare_eq in C. lia.
    + apply Z.lt_le_incl. exact C.
  - rewrite Hy in Hly. injection Hly as ->. lia.
Qed.




(** The scenario of the specification: Germany 110, France 90, Spain 80 in
    2021. *)
Example rank_of_germany_among_three :
  option_map kpi_rank
    (match update_kpis pow_unused three_countries "X" "Germany" 2020 2021 with
     | Ok k => Some k
     | Raise _ => None
     end) = Some (RankOf 1 3).
Proof. reflexivity. Qed.

Example ranks_of_france_and_spain :
  option_map kpi_rank
    (match update_kpis pow_unused three_countries "X" "France" 2020 2021 with
     | Ok k => Some k
     | Raise _ => None
     end) = Some (RankOf 2 3)
  /\ option_map kpi_rank
       (match update_kpis pow_unused three_countries "X" "Spain" 2020 2021 with
        | Ok k => Some k
        | Raise _ => None
        end) = Some (RankOf 3 3)
  /\ option_map kpi_rank
       (match update_kpis pow_unused three_countries "X" "Germany" 2020 2020 with
        | Ok k => Some k
        | Raise _ => None
        end) = Some (RankOf 1 1).
Proof. repeat split; reflexivity. Qed.

(** ** The bar chart *)

(** C2 at a country whose value falls: of Germany's two rows in the range the
    chart takes the one of 2020, which has the larger value; the latest year
    with a value is 2021, and the selection worded by the specification is
    the row of 2021. *)
Lemma bar_chart_takes_largest_value :
  update_bar_chart falling "X" 2020 2021 = Ok (Bar [sample_row "Germany" 2020 110])
  /\ latest_per_country falling "X" 2020 2021 = [sample_row "Germany" 2021 100].
Proof. split; reflexivity. Qed.

(** * Beyond the claims *)

(** ** The fetcher stays in order *)

Lemma key_eqb_refl (k : key) : key_eqb k k = true.
Proof. now apply key_eqb_eq. Qed.

Lemma cache_find_in (k : key) (c : list (key * nat)) (loc : nat) :
  cache_find k c = Some loc -> In (k, loc) c.
Proof.
  induction c as [|[k' l] c IH]; simpl; [discriminate|].
  destruct (key_eqb k k') eqn:E.
  - apply key_eqb_eq in E. intros [= ->]. left. now subst.
  - intro H. right. now apply IH.
Qed.

Lemma cache_find_none (k : key) (c : list (key * nat)) :
  cache_find k c = None -> ~ In k (map fst c).
Proof.
  induction c as [|[k' l] c IH]; simpl; [tauto|].
  destruct (key_eqb k k') eqn:E; [discriminate|].
  intros H [->|Hin]; [now rewrite key_eqb_refl in E|now apply IH].
Qed.

Lemma cache_remove_keys (k : key) (c : list (key * nat)) :
  NoDup (map fst c) ->
  NoDup (map fst (cache_remove k c)) /\ ~ In k (map fst (cache_remove k c)).
Proof.
  unfold cache_remove. induction c as [|[k' l] c IH]; simpl; intro H.
  - split; [constructor|tauto].
  - apply NoDup_cons_iff in H as [Hk' Hc]. destruct (IH Hc) as [IH1 IH2].
    destruct (key_eqb k k') eqn:E; simpl; [now split|].
    split.
    + constructor; [|exact IH1]. intro Hin. apply Hk'.
      apply in_map_iff in Hin as (e & <- & He). apply filter_In in He as [He _].
      now apply in_map.
    + intros [->|Hin]; [now rewrite key_eqb_refl in E|now apply IH2].
Qed.

Lemma cache_remove_shorter (k : key) (c : list (key * nat)) (loc : nat) :
  cache_find k c = Some loc ->
  (S (List.length (cache_remove k c)) <= List.length c)%nat.
Proof.
  unfold cache_remove. induction c as [|[k' l] c IH]; simpl; [discriminate|].
  destruct (key_eqb k k') eqn:E; simpl.
  - intros _. pose proof (filter_length_le (fun e => negb (key_eqb k (fst e))) c). lia.
  - intro H. specialize (IH H). lia.
Qed.

Lemma NoDup_firstn {A : Type} (n : nat) (l : list A) : NoDup l -> NoDup (firstn n l).
Proof.
  revert l. induction n as [|n IH]; intros [|x l] H; simpl; try constructor.
  - apply NoDup_cons_iff in H as [Hx Hl]. intro Hin. apply Hx.
    now apply firstn_in in Hin.
  - apply IH. now apply NoDup_cons_iff in H.
Qed.

Section Soundness.

Variable net : key -> option json.

Lemma fetch_sound (k : key) : keeps sound (fetch_worldbank_page net k).
Proof.
  intros st (Hnd & Hlen & Hloc). unfold fetch_worldbank_page.
  destruct (cache_find k (cache st)) as [loc|] eqn:F.
  - cbn [fst]. unfold sound. cbn [cache store map fst].
    destruct (cache_remove_keys k (cache st) Hnd) as [H1 H2].
    split; [now constructor|]. split.
    + cbn [List.length]. pose proof (cache_remove_shorter k (cache st) loc F). lia.
    + intros e [<-|He].
      * apply (Hloc (k, loc)). now apply cache_find_in.
      * apply Hloc. unfold cache_remove in He. now apply filter_In in He.
  - destruct (net k) as [page|]; [|now repeat split].
    cbn [fst]. unfold sound. cbn [cache store].
    split; [|split].
    + rewrite <- firstn_map. apply NoDup_firstn. cbn [map fst].
      constructor; [now apply cache_find_none|exact Hnd].
    + apply firstn_le_length.
    + intros e He. rewrite length_app. cbn [List.length].
      apply firstn_in in He as [<-|He]; cbn [snd]; [lia|].
      specialize (Hloc e He). lia.
Qed.

Lemma extend_rows_sound (loc : nat) (more : json) : keeps sound (extend_rows loc more).
Proof.
  intros st H. unfold extend_rows.
  destruct (deref st loc) as [| | | | |[|meta [|[| | | | |all_rows|] rest]]|]; try exact H.
  destruct (py_iter more); [|exact H].
  destruct H as (Hnd & Hlen & Hloc). unfold sound. cbn [fst cache store].
  rewrite set_nth_length. now repeat split.
Qed.

Lemma fetch_grows_store (n : nat) (k : key) :
  keeps (fun st => (n <= List.length (store st))%nat) (fetch_worldbank_page net k).
Proof.
  intros st H. unfold fetch_worldbank_page.
  destruct (cache_find k (cache st)); [exact H|].
  destruct (net k); [|exact H]. cbn [fst store]. rewrite length_app. lia.
Qed.

Lemma extend_rows_grows_store (n : nat) (loc : nat) (more : json) :
  keeps (fun st => (n <= List.length (store st))%nat) (extend_rows loc more).
Proof.
  intros st H. unfold extend_rows.
  destruct (deref st loc) as [| | | | |[|meta [|[| | | | |all_rows|] rest]]|]; try exact H.
  destruct (py_iter more); [|exact H]. cbn [fst store]. now rewrite set_nth_length.
Qed.

(** What the two changes of the fetcher keep, the whole build keeps. *)
Section Kept.

Variable P : fetcher -> Prop.
Hypothesis P_fetch : forall k, keeps P (fetch_worldbank_page net k).
Hypothesis P_extend : forall loc more, keeps P (extend_rows loc more).

Lemma keeps_bind {A B : Type} (m : M A) (k : A -> M B) :
  keeps P m -> (forall a, keeps P (k a)) -> keeps P (bind m k).
Proof.
  intros Hm Hk st H. unfold bind. specialize (Hm st H).
  destruct (m st) as [st1 [a|e]]; [now apply Hk|exact Hm].
Qed.

Lemma keeps_same {A : Type} (m : M A) : (forall st, fst (m st) = st) -> keeps P m.
Proof. intros Hm st H. now rewrite Hm. Qed.

Lemma keeps_for_each {A : Type} (xs : list A) (body : A -> M unit) :
  (forall x, keeps P (body x)) -> keeps P (for_each xs body).
Proof.
  intro H. induction xs as [|x xs IH]; cbn [for_each].
  - now apply keeps_same.
  - apply keeps_bind; [apply H|]. intros _. exact IH.
Qed.

Lemma keeps_add_page (countries_iso code date_range : string) (loc : nat) (p : Z) :
  keeps P (add_page net countries_iso code date_range loc p).
Proof.
  unfold add_page.
  apply keeps_bind; [apply P_fetch|]. intro l.
  apply keeps_bind; [now apply keeps_same|]. intro json_data.
  apply keeps_bind; [now apply keeps_same|]. intro n.
  destruct (1 <? n); [|now apply keeps_same].
  apply keeps_bind; [now apply keeps_same|]. intro x.
  destruct (truthy x); [apply P_extend|now apply keeps_same].
Qed.

Lemma keeps_try_indicator (countries_dict : list (string * string))
  (countries_iso date_range name code : string) :
  keeps P (try_indicator net countries_dict countries_iso date_range name code).
Proof.
  unfold try_indicator.
  apply keeps_bind; [apply P_fetch|]. intro loc.
  apply keeps_bind; [now apply keeps_same|]. intro first_page.
  destruct (no_data first_page); [now apply keeps_same|].
  apply keeps_bind; [now apply keeps_same|]. intro total_pages.
  apply keeps_bind.
  - apply keeps_for_each. intro p. apply keeps_add_page.
  - intros _. apply keeps_bind; [now apply keeps_same|]. intro fp. now apply keeps_same.
Qed.

Lemma keeps_for_indicators (countries_dict : list (string * string))
  (countries_iso date_range : string) (indicators : list (string * string)) :
  forall (dfs : list (table json)) (st : fetcher),
    P st ->
    P (fst (for_indicators net countries_dict countries_iso date_range indicators dfs st)).
Proof.
  induction indicators as [|[name code] rest IH]; intros dfs st H; cbn [for_indicators].
  - exact H.
  - pose proof (keeps_try_indicator countries_dict countries_iso date_range name code st H)
      as H1.
    destruct (try_indicator _ _ _ _ _ _ st) as [st1 [[df|]|e]]; now apply IH.
Qed.

Lemma keeps_get_worldbank_data (countries_dict indicators_dict : list (string * string))
  (start_year end_year : Z) (st : fetcher) :
  P st ->
  P (fst (get_worldbank_data net countries_dict indicators_dict start_year end_year st)).
Proof.
  intro H. unfold get_worldbank_data.
  pose proof (keeps_for_indicators countries_dict (countries_iso_of countries_dict)
                (date_range_of start_year end_year) indicators_dict [] st H) as H1.
  now destruct (for_indicators _ _ _ _ _ _ _) as [st' dfs].
Qed.

End Kept.

(** X1: the build leaves the fetcher in order: the cache holds no key twice
    and at most 64 entries, each at an object of the store, and no object of
    the store is given up. *)
Theorem build_keeps_fetcher_sound (countries_dict indicators_dict : list (string * string))
  (start_year end_year : Z) (st : fetcher) :
  sound st ->
  sound (fst (get_worldbank_data net countries_dict indicators_dict start_year end_year st))
  /\ (List.length (store st)
      <= List.length
           (store (fst (get_worldbank_data net countries_dict indicators_dict
                          start_year end_year st))))%nat.
Proof.
  intro H. split.
  - apply (keeps_get_worldbank_data sound fetch_sound extend_rows_sound); exact H.
  - apply (keeps_get_worldbank_data
             (fun st' => (List.length (store st) <= List.length (store st'))%nat)
             (fetch_grows_store _) (extend_rows_grows_store _)). lia.
Qed.

End Soundness.

Lemma build_keeps_fetcher_sound_witness :
  sound (fst (get_worldbank_data two_pages sample_countries [("X", "X.CODE")]
                2000 2024 no_fetches))
  /\ (List.length (store no_fetches)
      <= List.length
           (store (fst (get_worldbank_data two_pages sample_countries [("X", "X.CODE")]
                          2000 2024 no_fetches))))%nat.
Proof.
  apply (build_keeps_fetcher_sound two_pages sample_countries [("X", "X.CODE")] 2000 2024
           no_fetches).
  unfold sound, no_fetches. cbn [cache store map List.length].
  split; [constructor|]. split; [unfold maxsize; lia|]. intros e [].
Defined.

(** After a fetch that returned, the key is in the cache at the object returned. *)
Lemma fetch_hit_after (net net' : key -> option json) (k : key)
  (st st1 : fetcher) (loc : nat) :
  fetch_worldbank_page net k st = (st1, Ok loc) ->
  exists st2,
    fetch_worldbank_page net' k st1 = (st2, Ok loc)
    /\ store st2 = store st1
    /\ deref st2 loc = deref st1 loc.
Proof.
  intro H.
  assert (F : cache_find k (cache st1) = Some loc).
  { unfold fetch_worldbank_page in H.
    destruct (cache_find k (cache st)) as [l|].
    - injection H as <- <-. cbn [cache cache_find]. now rewrite key_eqb_refl.
    - destruct (net k) as [page|]; [|discriminate].
      injection H as <- <-. cbn [cache]. unfold maxsize. cbn [firstn cache_find].
      now rewrite key_eqb_refl. }
  unfold fetch_worldbank_page. rewrite F. eexists. split; [reflexivity|].
  split; reflexivity.
Qed.

(** X2: a page that was fetched is served from the cache afterwards: the same
    object, with no request and no new object, whatever the API would answer
    now. *)
Theorem fetch_again_hits_cache (net net' : key -> option json) (k : key)
  (st st1 : fetcher) (loc : nat) :
  fetch_worldbank_page net k st = (st1, Ok loc) ->
  exists st2,
    fetch_worldbank_page net' k st1 = (st2, Ok loc)
    /\ store st2 = store st1
    /\ deref st2 loc = deref st1 loc.
Proof. apply fetch_hit_after. Qed.

Lemma fetch_again_hits_cache_witness :
  exists st2,
    fetch_worldbank_page (fun _ => None) ("DEU", "X.CODE", "2000:2024", 1)
      (fst (fetch_worldbank_page two_pages ("DEU", "X.CODE", "2000:2024", 1) no_fetches))
    = (st2, Ok 0%nat)
    /\ store st2
       = store (fst (fetch_worldbank_page two_pages ("DEU", "X.CODE", "2000:2024", 1)
                       no_fetches))
    /\ deref st2 0
       = deref (fst (fetch_worldbank_page two_pages ("DEU", "X.CODE", "2000:2024", 1)
                       no_fetches)) 0.
Proof.
  apply (fetch_again_hits_cache two_pages (fun _ => None)
           ("DEU", "X.CODE", "2000:2024", 1) no_fetches).
  reflexivity.
Defined.

(** ** One run after another *)

Section Runs.

Variable net : key -> option json.

Lemma fetch_raise_same (k : key) (st st1 : fetcher) (e : exn) :
  fetch_worldbank_page net k st = (st1, Raise e) -> st1 = st.
Proof.
  unfold fetch_worldbank_page. destruct (cache_find k (cache st)); [discriminate|].
  destruct (net k); [discriminate|]. now intros [= <- _].
Qed.

Lemma try_indicator_after_fetch (countries_dict : list (string * string))
  (countries_iso date_range name code : string) (st st1 : fetcher) (loc : nat) :
  fetch_worldbank_page net (countries_iso, code, date_range, 1) st = (st1, Ok loc) ->
  try_indicator net countries_dict countries_iso date_range name code st
  = if no_data (deref st1 loc) then (st1, Ok None)
    else
      match total_pages_of (deref st1 loc) with
      | Raise e => (st1, Raise e)
      | Ok total_pages =>
          match for_each (py_range 2 (total_pages + 1))
                  (add_page net countries_iso code date_range loc) st1 with
          | (st2, Raise e) => (st2, Raise e)
          | (st2, Ok _) =>
              (st2, clean_frame countries_dict name (all_rows_of (deref st2 loc)))
          end
      end.
Proof.
  intro H. unfold try_indicator, bind at 1. rewrite H.
  unfold bind at 1, read at 1.
  destruct (no_data (deref st1 loc)); [reflexivity|].
  unfold bind at 1, lift at 1.
  destruct (total_pages_of (deref st1 loc)) as [total_pages|e]; [|reflexivity].
  unfold bind at 1. destruct (for_each _ _ _) as [st2 [u|e]]; reflexivity.
Qed.

Lemma py_range_empty (a b : Z) : b <= a -> py_range a b = [].
Proof.
  intro H. unfold py_range. replace (Z.to_nat (b - a)) with 0%nat by lia. reflexivity.
Qed.

(** X3: an indicator of one page is aggregated the same a second time: the
    second run, on the fetcher the first one left, returns what the first
    returned, and builds no new object. *)
Theorem single_page_second_run_same (countries_dict : list (string * string))
  (countries_iso date_range name code : string) (st : fetcher) :
  (forall st1 loc total_pages,
      fetch_worldbank_page net (countries_iso, code, date_range, 1) st = (st1, Ok loc) ->
      total_pages_of (deref st1 loc) = Ok total_pages -> total_pages < 2) ->
  snd (try_indicator net countries_dict countries_iso date_range name code
         (fst (try_indicator net countries_dict countries_iso date_range name code st)))
  = snd (try_indicator net countries_dict countries_iso date_range name code st)
  /\ store (fst (try_indicator net countries_dict countries_iso date_range name code
                   (fst (try_indicator net countries_dict countries_iso date_range
                           name code st))))
     = store (fst (try_indicator net countries_dict countries_iso date_range name code st)).
Proof.
  intro Hone.
  destruct (fetch_worldbank_page net (countries_iso, code, date_range, 1) st)
    as [st1 [loc|e]] eqn:F.
  - assert (Hrun : forall st0 st0',
               fetch_worldbank_page net (countries_iso, code, date_range, 1) st0
               = (st0', Ok loc) ->
               deref st0' loc = deref st1 loc ->
               try_indicator net countries_dict countries_iso date_range name code st0
               = (st0', if no_data (deref st1 loc) then Ok None
                        else match total_pages_of (deref st1 loc) with
                             | Raise e => Raise e
                             | Ok _ => clean_frame countries_dict name
                                         (all_rows_of (deref st1 loc))
                             end)).
    { intros st0 st0' F0 D0. rewrite (try_indicator_after_fetch _ _ _ _ _ _ _ _ F0), D0.
      destruct (no_data (deref st1 loc)); [reflexivity|].
      destruct (total_pages_of (deref st1 loc)) as [tp|e] eqn:T; [|reflexivity].
      rewrite py_range_empty by (specialize (Hone st1 loc tp eq_refl T); lia).
      cbn [for_each ret]. now rewrite D0. }
    rewrite (Hrun st st1 F eq_refl). cbn [fst snd].
    destruct (fetch_hit_after net net _ _ _ _ F) as (st2 & F2 & S2 & D2).
    rewrite (Hrun st1 st2 F2 D2). cbn [fst snd]. now split.
  - pose proof (fetch_raise_same _ _ _ _ F) as ->.
    assert (Hrun : try_indicator net countries_dict countries_iso date_range name code st
                   = (st, Raise e)).
    { unfold try_indicator, bind at 1. now rewrite F. }
    rewrite !Hrun. cbn [fst snd]. rewrite Hrun. now split.
Qed.

(** ** All the pages, in order *)

Lemma add_page_appends (countries_iso code date_range : string) (loc : nat) (p : Z)
  (meta : json) (rest : list json) (m : json) (b acc : list json) (st : fetcher) :
  absent (countries_iso, code, date_range, p) st ->
  net (countries_iso, code, date_range, p) = Some (JList [m; JList b]) ->
  (loc < List.length (store st))%nat ->
  deref st loc = JList (meta :: JList acc :: rest) ->
  exists st',
    add_page net countries_iso code date_range loc p st = (st', Ok tt)
    /\ (loc < List.length (store st'))%nat
    /\ deref st' loc = JList (meta :: JList (acc ++ b) :: rest).
Proof.
  intros Ha Hnet Hloc Hd.
  rewrite (add_page_miss net _ _ _ _ _ _ Ha), Hnet. cbv zeta.
  set (st1 := {| store := store st ++ [JList [m; JList b]]; cache := _ |}).
  assert (Hloc1 : (loc < List.length (store st1))%nat).
  { unfold st1. cbn [store]. rewrite length_app. lia. }
  assert (Hd1 : deref st1 loc = JList (meta :: JList acc :: rest)).
  { unfold st1. now rewrite deref_grown. }
  change (py_len (JList [m; JList b])) with (@Ok Z 2).
  change (1 <? 2) with true. cbv iota.
  change (py_item1 (JList [m; JList b])) with (Ok (JList b)). cbv iota.
  destruct b as [|x b].
  - exists st1. cbn [truthy]. rewrite app_nil_r. now repeat split.
  - cbn [truthy]. unfold extend_rows. rewrite Hd1. cbn [py_iter].
    eexists. split; [reflexivity|]. cbn [store]. split.
    + now rewrite set_nth_length.
    + unfold deref. cbn [store]. now apply set_nth_same.
Qed.

Lemma pages_loop (countries_iso code date_range : string) (loc : nat)
  (meta : json) (rest : list json) (meta_of : Z -> json) (body : Z -> list json)
  (ps : list Z) :
  NoDup ps ->
  (forall p, In p ps ->
             net (countries_iso, code, date_range, p)
             = Some (JList [meta_of p; JList (body p)])) ->
  forall (st : fetcher) (acc : list json),
    (forall p, In p ps -> absent (countries_iso, code, date_range, p) st) ->
    (loc < List.length (store st))%nat ->
    deref st loc = JList (meta :: JList acc :: rest) ->
    exists st',
      for_each ps (add_page net countries_iso code date_range loc) st = (st', Ok tt)
      /\ (loc < List.length (store st'))%nat
      /\ deref st' loc = JList (meta :: JList (acc ++ flat_map body ps) :: rest).
Proof.
  induction 1 as [|p ps Hp Hnd IH]; intros Hnet st acc Ha Hloc Hd.
  - exists st. cbn [for_each flat_map]. rewrite app_nil_r. now repeat split.
  - cbn [for_each flat_map]. unfold bind.
    pose proof (adds_add_page net (eq (countries_iso, code, date_range, p))
                  countries_iso code date_range loc p eq_refl st) as Hg.
    destruct (add_page_appends countries_iso code date_range loc p meta rest
                (meta_of p) (body p) acc st (Ha p (or_introl eq_refl))
                (Hnet p (or_introl eq_refl)) Hloc Hd) as (st1 & Hstep & Hloc1 & Hd1).
    rewrite Hstep in *. cbn [fst] in Hg.
    destruct (IH (fun q Hq => Hnet q (or_intror Hq)) st1 (acc ++ body p)) as
      (st' & Hrun & Hl & Hd'); try assumption.
    + intros q Hq. apply (absent_after _ _ _ _ Hg); [|apply Ha; now right].
      intros [= <-]. contradiction.
    + exists st'. rewrite Hrun. rewrite <- app_assoc in Hd'. now repeat split.
Qed.

Lemma py_range_bounds (a b p : Z) : In p (py_range a b) -> a <= p < b.
Proof.
  unfold py_range. rewrite in_map_iff. intros (i & <- & Hi). apply in_seq in Hi. lia.
Qed.

(** X4: with nothing of the indicator in the cache, and the API answering
    every page from 1 to the announced count with a list of a metadata item
    and a list of records, the table is made from the records of all the
    pages, page after page, each once. *)
Theorem cold_run_reads_all_pages_in_order (countries_dict : list (string * string))
  (countries_iso date_range name code : string) (st : fetcher)
  (meta : json) (rows1 : list json) (total_pages : Z)
  (meta_of : Z -> json) (body : Z -> list json) :
  no_entry_for code st ->
  net (countries_iso, code, date_range, 1) = Some (JList [meta; JList rows1]) ->
  rows1 <> [] ->
  total_pages_of (JList [meta; JList rows1]) = Ok total_pages ->
  (forall p, 2 <= p <= total_pages ->
             net (countries_iso, code, date_range, p)
             = Some (JList [meta_of p; JList (body p)])) ->
  snd (try_indicator net countries_dict countries_iso date_range name code st)
  = clean_frame countries_dict name
      (JList (rows1 ++ flat_map body (py_range 2 (total_pages + 1)))).
Proof.
  intros Hcold Hfirst Hrows Htotal Hnet.
  rewrite (try_indicator_miss net) by (eapply no_entry_absent; [eassumption|reflexivity]).
  rewrite Hfirst. cbv zeta.
  assert (Hdata : no_data (JList [meta; JList rows1]) = false).
  { unfold no_data. cbn [List.length nth truthy]. now destruct rows1. }
  rewrite Hdata, Htotal.
  set (st1 := {| store := store st ++ [JList [meta; JList rows1]]; cache := _ |}).
  destruct (pages_loop countries_iso code date_range (List.length (store st))
              meta [] meta_of body (py_range 2 (total_pages + 1))
              (py_range_NoDup _ _)
              (fun p Hp => Hnet p ltac:(apply py_range_bounds in Hp; lia))
              st1 rows1) as (st' & Hrun & _ & Hd).
  - intros p Hp e He. unfold st1 in He. cbn [cache] in He.
    apply firstn_in in He as [<-|He].
    + cbn [fst]. intros [= E]. apply py_range_bounds in Hp. lia.
    + intro E. apply (Hcold e He). now rewrite E.
  - unfold st1. cbn [store]. rewrite length_app. cbn [List.length]. lia.
  - unfold st1. apply deref_new.
  - rewrite Hrun. cbn [snd]. now rewrite Hd.
Qed.

End Runs.

Lemma single_page_second_run_same_witness :
  snd (try_indicator one_fails sample_countries (countries_iso_of sample_countries)
         (date_range_of 2000 2024) "Ind A" "A"
         (fst (try_indicator one_fails sample_countries (countries_iso_of sample_countries)
                 (date_range_of 2000 2024) "Ind A" "A" no_fetches)))
  = snd (try_indicator one_fails sample_countries (countries_iso_of sample_countries)
           (date_range_of 2000 2024) "Ind A" "A" no_fetches)
  /\ store (fst (try_indicator one_fails sample_countries
                   (countries_iso_of sample_countries) (date_range_of 2000 2024)
                   "Ind A" "A"
                   (fst (try_indicator one_fails sample_countries
                           (countries_iso_of sample_countries) (date_range_of 2000 2024)
                           "Ind A" "A" no_fetches))))
     = store (fst (try_indicator one_fails sample_countries
                     (countries_iso_of sample_countries) (date_range_of 2000 2024)
                     "Ind A" "A" no_fetches)).
Proof.
  apply (single_page_second_run_same one_fails sample_countries
           (countries_iso_of sample_countries) (date_range_of 2000 2024)
           "Ind A" "A" no_fetches).
  intros st1 loc total_pages F T. vm_compute in F. injection F as <- <-.
  vm_compute in T. injection T as <-. lia.
Defined.

Lemma cold_run_reads_all_pages_in_order_witness :
  snd (try_indicator two_pages sample_countries (countries_iso_of sample_countries)
         (date_range_of 2000 2024) "X" "X.CODE" no_fetches)
  = clean_frame sample_countries "X"
      (JList ([wb_record "DEU" "Germany" "2021" (JFloat 110)]
              ++ flat_map (fun _ : Z => [wb_record "DEU" "Germany" "2020" (JFloat 100)])
                   (py_range 2 (2 + 1)))).
Proof.
  apply (cold_run_reads_all_pages_in_order two_pages sample_countries
           (countries_iso_of sample_countries) (date_range_of 2000 2024)
           "X" "X.CODE" no_fetches
           (JDict [("page", JInt 1); ("pages", JInt 2)])
           [wb_record "DEU" "Germany" "2021" (JFloat 110)] 2
           (fun _ => JDict [("page", JInt 1); ("pages", JInt 2)])
           (fun _ => [wb_record "DEU" "Germany" "2020" (JFloat 100)])).
  - intros e He. destruct He.
  - reflexivity.
  - discriminate.
  - reflexivity.
  - intros p Hp. assert (E : p = 2) by lia. subst p. reflexivity.
Defined.

(** ** Where the rows come from *)


Lemma clean_frame_records (countries_dict : list (string * string)) (name : string)
  (all_rows : json) (df : table json) :
  clean_frame countries_dict name all_rows = Ok (Some df) ->
  exists ds, rows df = dropna_value_year (map (clean_row countries_dict name) ds).
Proof.
  unfold clean_frame. destruct all_rows; try discriminate.
  intro H. apply rbind_ok in H as [ds [_ H]]. exists ds.
  match type of H with (if ?c then _ else _) = _ => destruct c end; [discriminate|].
  match type of H with (if ?c then _ else _) = _ => destruct c end; [|discriminate].
  now injection H as <-.
Qed.

Section Origin.

Variable net : key -> option json.
Variable countries_dict : list (string * string).

Lemma try_indicator_records (countries_iso date_range name code : string)
  (st st' : fetcher) (df : table json) :
  try_indicator net countries_dict countries_iso date_range name code st
  = (st', Ok (Some df)) ->
  exists ds, rows df = dropna_value_year (map (clean_row countries_dict name) ds).
Proof.
  unfold try_indicator. intro H.
  apply bind_ok in H as (loc & st1 & _ & H).
  apply bind_ok in H as (first_page & st2 & _ & H).
  destruct (no_data first_page); [discriminate|].
  apply bind_ok in H as (total_pages & st3 & _ & H).
  apply bind_ok in H as (u & st4 & _ & H).
  apply bind_ok in H as (first_page' & st5 & _ & H).
  apply lift_ok in H. eapply clean_frame_records; eassumption.
Qed.

Lemma for_indicators_records (countries_iso date_range : string)
  (indicators : list (string * string)) :
  forall (dfs : list (table json)) (st : fetcher) (r : row_of json),
    In r (flat_map rows
            (snd (for_indicators net countries_dict countries_iso date_range
                    indicators dfs st))) ->
    In r (flat_map rows dfs) \/ from_record countries_dict indicators r.
Proof.
  induction indicators as [|[name code] rest IH]; intros dfs st r Hr; cbn [for_indicators] in Hr.
  - now left.
  - assert (Hmore : forall r', from_record countries_dict rest r' ->
                               from_record countries_dict ((name, code) :: rest) r').
    { intros r' (n & c & d & Hin & E). exists n, c, d. split; [now right|exact E]. }
    destruct (try_indicator _ _ _ _ _ _ st) as [st1 [[df|]|e]] eqn:T.
    + apply IH in Hr as [Hr|Hr]; [|right; now apply Hmore].
      rewrite flat_map_app in Hr. apply in_app_or in Hr as [Hr|Hr]; [now left|right].
      cbn [flat_map] in Hr. rewrite app_nil_r in Hr.
      apply try_indicator_records in T as [ds Hds]. rewrite Hds in Hr.
      apply filter_In in Hr as [Hr _]. apply in_map_iff in Hr as (d & <- & _).
      exists name, code, d. split; [now left|reflexivity].
    + apply IH in Hr as [Hr|Hr]; [now left|right; now apply Hmore].
    + apply IH in Hr as [Hr|Hr]; [now left|right; now apply Hmore].
Qed.

Lemma built_rows_from_records (indicators_dict : list (string * string))
  (start_year end_year : Z) (st : fetcher) (df : DataFrame) (r : row) :
  snd (get_worldbank_data net countries_dict indicators_dict start_year end_year st) = Ok df ->
  In r (rows df) ->
  exists r0, from_record countries_dict indicators_dict r0 /\ r = loaded_row r0.
Proof.
  intros Hdf Hr. apply get_worldbank_data_ok in Hdf as [_ Hrows]. rewrite Hrows in Hr.
  apply (proj1 (sort_by_in _ _ _)) in Hr. apply in_map_iff in Hr as (r0 & <- & Hr0).
  exists r0. split; [|reflexivity]. unfold indicator_frames in Hr0.
  apply for_indicators_records in Hr0 as [[]|Hr0]. exact Hr0.
Qed.

(** X5: every row of a table that the build returns is labelled with the
    display name of an indicator of the registry. *)
Theorem built_rows_carry_indicator_names (indicators_dict : list (string * string))
  (start_year end_year : Z) (st : fetcher) :
  match snd (get_worldbank_data net countries_dict indicators_dict start_year end_year st) with
  | Ok df => Forall (fun r => In (Indicator r) (map fst indicators_dict)) (rows df)
  | Raise _ => True
  end.
Proof.
  destruct (snd (get_worldbank_data _ _ _ _ _ _)) as [df|e] eqn:E; [|exact I].
  apply Forall_forall. intros r Hr.
  destruct (built_rows_from_records _ _ _ _ _ _ E Hr) as (r0 & (name & code & d & Hin & ->) & ->).
  cbn [loaded_row clean_row Indicator]. apply in_map_iff. now exists (name, code).
Qed.

(** X6: a row of a table that the build returns whose code is in the country
    registry has the registry's name for it, not the API's. *)
Theorem built_rows_known_code_has_registry_name (indicators_dict : list (string * string))
  (start_year end_year : Z) (st : fetcher) :
  match snd (get_worldbank_data net countries_dict indicators_dict start_year end_year st) with
  | Ok df => Forall (fun r => forall code name,
                         ISO3Code r = Some code ->
                         reverse_country_map countries_dict code = Some name ->
                         Country r = Some name)
               (rows df)
  | Raise _ => True
  end.
Proof.
  destruct (snd (get_worldbank_data _ _ _ _ _ _)) as [df|e] eqn:E; [|exact I].
  apply Forall_forall. intros r Hr code name Hcode Hname.
  destruct (built_rows_from_records _ _ _ _ _ _ E Hr) as (r0 & (n & c & d & Hin & ->) & ->).
  cbn [loaded_row clean_row ISO3Code Country] in *. now rewrite Hcode, Hname.
Qed.

End Origin.

(** ** The country registry, name to code and back *)

Lemma reverse_country_map_in (countries_dict : list (string * string)) (code name : string) :
  reverse_country_map countries_dict code = Some name -> In (name, code) countries_dict.
Proof.
  induction countries_dict as [|[k v] rest IH]; simpl; [discriminate|].
  destruct (reverse_country_map rest code) as [n|].
  - intros [= ->]. right. now apply IH.
  - destruct (String.eqb v code) eqn:E; [|discriminate].
    apply String.eqb_eq in E. intros [= ->]. left. now subst.
Qed.

(** X7: in a registry whose codes are distinct, the reverse map gives for a
    code the name it is registered under, and only that. *)
Theorem reverse_country_map_round_trip (countries_dict : list (string * string))
  (name code : string) :
  NoDup (map snd countries_dict) ->
  (In (name, code) countries_dict <->
   reverse_country_map countries_dict code = Some name).
Proof.
  intro Hnd. split; [|apply reverse_country_map_in].
  induction countries_dict as [|[k v] rest IH]; simpl; [tauto|].
  cbn [map snd] in Hnd. apply NoDup_cons_iff in Hnd as [Hv Hrest].
  intros [[= -> ->]|Hin].
  - destruct (reverse_country_map rest code) as [n|] eqn:R.
    + apply reverse_country_map_in in R. elim Hv.
      apply in_map_iff. now exists (n, code).
    + now rewrite String.eqb_refl.
  - now rewrite (IH Hrest Hin).
Qed.

Lemma all_distinct_NoDup (l : list string) : all_distinct l = true -> NoDup l.
Proof.
  induction l as [|x l IH]; simpl; intro H; [constructor|].
  apply andb_prop in H as [H1 H2]. constructor; [|now apply IH].
  intro Hin. apply negb_true_iff in H1.
  assert (E : existsb (String.eqb x) l = true).
  { apply existsb_exists. exists x. split; [exact Hin|apply String.eqb_refl]. }
  congruence.
Qed.

Lemma reverse_country_map_round_trip_witness :
  In ("Germany", "DEU") COUNTRIES <-> reverse_country_map COUNTRIES "DEU" = Some "Germany".
Proof.
  apply (reverse_country_map_round_trip COUNTRIES "Germany" "DEU").
  apply all_distinct_NoDup. vm_compute. reflexivity.
Defined.

(** ** The registry relabels, and no more *)

Lemma dropna_data_any_registry (cs cs' : list (string * string)) (name : string)
  (ds : list record) :
  map data_of (dropna_value_year (map (clean_row cs name) ds))
  = map data_of (dropna_value_year (map (clean_row cs' name) ds)).
Proof.
  unfold dropna_value_year. induction ds as [|d ds IH]; [reflexivity|].
  cbn [map filter]. cbn [clean_row Value Year].
  destruct (notna _ && _); cbn [map]; [f_equal|]; exact IH.
Qed.

(** X8: the country registry decides the name of a row and nothing else:
    with another registry the same records are kept, in the same order, with
    the same code, year, value and indicator, and the same records make the
    frame fail or come out empty. *)
Theorem registry_only_relabels (cs cs' : list (string * string)) (name : string)
  (all_rows : json) :
  match clean_frame cs name all_rows, clean_frame cs' name all_rows with
  | Ok (Some df), Ok (Some df') =>
      columns df = columns df' /\ map data_of (rows df) = map data_of (rows df')
  | Ok None, Ok None => True
  | Raise e, Raise e' => e = e'
  | _, _ => False
  end.
Proof.
  unfold clean_frame. destruct all_rows; try reflexivity.
  destruct (as_records xs) as [ds|e]; cbn [rbind]; [|reflexivity].
  match goal with |- context [if ?c then Ok None else _] => destruct c end; [exact I|].
  match goal with |- context [if ?c then Ok (Some _) else _] => destruct c end;
    [|reflexivity].
  cbn [columns rows]. split; [reflexivity|apply dropna_data_any_registry].
Qed.

(** ** More on the KPI cards *)

Lemma position_bounds (c : string) (l : list row) :
  (exists r, In r l /\ Country r = Some c) ->
  exists p, position c l = Some p /\ 1 <= p <= Z.of_nat (List.length l).
Proof.
  induction l as [|x l IH]; intros (r & Hin & Hc); [contradiction|].
  cbn [position List.length]. destruct (name_is c (Country x)) eqn:E.
  - exists 1. split; [reflexivity|lia].
  - destruct Hin as [->|Hin].
    + rewrite Hc in E. cbn [name_is] in E. now rewrite String.eqb_refl in E.
    + destruct (IH (ex_intro _ r (conj Hin Hc))) as (p & Hp & Hb).
      exists (Z.succ p). rewrite Hp. split; [reflexivity|lia].
Qed.

(** X9: the latest value and the latest year of the cards are those of a row
    of the selected country with the largest year in the range; the range
    label is the range asked for. *)
Theorem latest_fields_from_latest_row (pow : float -> float -> float) (DF_ALL : DataFrame)
  (indicator kpi_country : string) (y0 y1 : Z) :
  kpi_rows DF_ALL indicator kpi_country y0 y1 <> [] ->
  exists k r last_year,
    update_kpis pow DF_ALL indicator kpi_country y0 y1 = Ok k
    /\ In r (kpi_rows DF_ALL indicator kpi_country y0 y1)
    /\ Year r = Some last_year
    /\ Forall (fun r' => exists y, Year r' = Some y /\ y <= last_year)
         (kpi_rows DF_ALL indicator kpi_country y0 y1)
    /\ kpi_value k = format_value indicator (Value r)
    /\ kpi_year k = YearOf last_year
    /\ kpi_range k = Range y0 y1.
Proof.
  intro Hne.
  destruct (kpi_sorted_ends DF_ALL indicator kpi_country y0 y1 Hne)
    as (first_row & rest & last_row & before & fy & ly & Hs & Hr & Hfy & Hly).
  eexists. exists last_row, ly.
  split; [apply (update_kpis_unfold pow _ _ _ _ _ _ _ _ _ _ _ Hs Hr Hfy Hly)|].
  split; [apply kpi_sorted_in; eapply rev_head_in; exact Hr|].
  split; [exact Hly|].
  split; [eapply last_row_is_latest; eassumption|].
  repeat split.
Qed.

Lemma latest_fields_from_latest_row_witness :
  exists k r last_year,
    update_kpis pow_unused three_countries "X" "Germany" 2020 2021 = Ok k
    /\ In r (kpi_rows three_countries "X" "Germany" 2020 2021)
    /\ Year r = Some last_year
    /\ Forall (fun r' => exists y, Year r' = Some y /\ y <= last_year)
         (kpi_rows three_countries "X" "Germany" 2020 2021)
    /\ kpi_value k = format_value "X" (Value r)
    /\ kpi_year k = YearOf last_year
    /\ kpi_range k = Range 2020 2021.
Proof.
  apply (latest_fields_from_latest_row pow_unused three_countries "X" "Germany" 2020 2021).
  vm_compute. discriminate.
Defined.

(** X10: where the rows of the selection have a value, the rank card shows
    "#k of n" with k from 1 to n, and the year of the latest row under it. *)
Theorem rank_within_bounds (pow : float -> float -> float) (DF_ALL : DataFrame)
  (indicator kpi_country : string) (y0 y1 : Z) :
  kpi_rows DF_ALL indicator kpi_country y0 y1 <> [] ->
  Forall (fun r => PrimFloat.is_nan (Value r) = false)
    (kpi_rows DF_ALL indicator kpi_country y0 y1) ->
  exists k p n last_year,
    update_kpis pow DF_ALL indicator kpi_country y0 y1 = Ok k
    /\ kpi_rank k = RankOf p n
    /\ 1 <= p <= n
    /\ n = Z.of_nat (List.length (year_rows DF_ALL indicator last_year))
    /\ kpi_year k = YearOf last_year
    /\ kpi_top k = YearOf last_year.
Proof.
  intros Hne Hval.
  destruct (kpi_sorted_ends DF_ALL indicator kpi_country y0 y1 Hne)
    as (first_row & rest & last_row & before & fy & ly & Hs & Hr & Hfy & Hly).
  assert (Hlast : In last_row (kpi_rows DF_ALL indicator kpi_country y0 y1)).
  { apply kpi_sorted_in. eapply rev_head_in. exact Hr. }
  destruct (kpi_rows_in _ _ _ _ _ _ Hlast) as (Hin & Hi & Hc & _).
  assert (Hcross : In last_row (year_rows DF_ALL indicator ly)).
  { apply year_rows_in. repeat split; try assumption.
    rewrite Forall_forall in Hval. now apply Hval. }
  pose proof (dropna_value_notna
                (filter (fun r => String.eqb (Indicator r) indicator
                                  && year_is ly (Year r)) (rows DF_ALL))) as Hn.
  fold (year_rows DF_ALL indicator ly) in Hn.
  assert (Hlen : List.length (sort_values_value_desc (year_rows DF_ALL indicator ly))
                 = List.length (year_rows DF_ALL indicator ly)).
  { rewrite (sort_values_value_desc_no_nan _ Hn). apply sort_by_length. }
  destruct (position_bounds kpi_country
              (sort_values_value_desc (year_rows DF_ALL indicator ly)))
    as (p & Hp & Hb).
  { exists last_row. split; [|exact Hc].
    rewrite (sort_values_value_desc_no_nan _ Hn). now apply sort_by_in. }
  eexists. exists p, (Z.of_nat (List.length (year_rows DF_ALL indicator ly))), ly.
  split; [apply (update_kpis_unfold pow _ _ _ _ _ _ _ _ _ _ _ Hs Hr Hfy Hly)|].
  cbn [kpi_rank kpi_year kpi_top].
  split; [rewrite rank_texts_spec; unfold rank_spec; cbv zeta; now rewrite Hp|].
  split; [lia|]. split; [reflexivity|]. split; [reflexivity|].
  unfold rank_texts. destruct (year_rows DF_ALL indicator ly); [contradiction|reflexivity].
Qed.

Lemma rank_within_bounds_witness :
  exists k p n last_year,
    update_kpis pow_unused three_countries "X" "Spain" 2020 2021 = Ok k
    /\ kpi_rank k = RankOf p n
    /\ 1 <= p <= n
    /\ n = Z.of_nat (List.length (year_rows three_countries "X" last_year))
    /\ kpi_year k = YearOf last_year
    /\ kpi_top k = YearOf last_year.
Proof.
  apply (rank_within_bounds pow_unused three_countries "X" "Spain" 2020 2021).
  - vm_compute. discriminate.
  - vm_compute. repeat constructor.
Defined.

(** X11: with a single row in the selection there is no year before the latest:
    both year-over-year cards show the marker, the other cards are filled from
    that row. *)
Theorem single_row_has_no_change (pow : float -> float -> float) (DF_ALL : DataFrame)
  (indicator kpi_country : string) (y0 y1 : Z) (r : row) :
  kpi_rows DF_ALL indicator kpi_country y0 y1 = [r] ->
  exists k y,
    update_kpis pow DF_ALL indicator kpi_country y0 y1 = Ok k
    /\ Year r = Some y
    /\ kpi_value k = format_value indicator (Value r)
    /\ kpi_year k = YearOf y
    /\ kpi_var k = NA
    /\ kpi_var_abs k = Delta NA
    /\ kpi_cagr k
       = (if PrimFloat.eqb (Value r) 0 || PrimFloat.is_nan (Value r) then NA
          else percent_or_na (cagr_pct pow (Value r) (Value r) 1)).
Proof.
  intro Hsel.
  assert (Hs : kpi_sorted DF_ALL indicator kpi_country y0 y1 = [r]).
  { unfold kpi_sorted. now rewrite Hsel. }
  assert (Hin : In r (kpi_rows DF_ALL indicator kpi_country y0 y1)).
  { rewrite Hsel. now left. }
  destruct (kpi_rows_in _ _ _ _ _ _ Hin) as (_ & _ & _ & y & Hy & _).
  eexists. exists y.
  split.
  { apply (update_kpis_unfold pow _ _ _ _ _ r r [] [] y y); try assumption.
    now rewrite Hs. }
  cbn [kpi_value kpi_year kpi_var kpi_var_abs kpi_cagr].
  rewrite Z.sub_diag. change (Z.max 1 0) with 1. unfold notna.
  split; [exact Hy|]. do 4 (split; [reflexivity|]).
  now destruct (PrimFloat.eqb (Value r) 0), (PrimFloat.is_nan (Value r)).
Qed.

Lemma single_row_has_no_change_witness :
  exists k y,
    update_kpis pow_unused three_countries "X" "Spain" 2020 2021 = Ok k
    /\ Year (sample_row "Spain" 2021 80) = Some y
    /\ kpi_value k = format_value "X" (Value (sample_row "Spain" 2021 80))
    /\ kpi_year k = YearOf y
    /\ kpi_var k = NA
    /\ kpi_var_abs k = Delta NA
    /\ kpi_cagr k
       = (if PrimFloat.eqb (Value (sample_row "Spain" 2021 80)) 0
             || PrimFloat.is_nan (Value (sample_row "Spain" 2021 80)) then NA
          else percent_or_na (cagr_pct pow_unused (Value (sample_row "Spain" 2021 80))
                                (Value (sample_row "Spain" 2021 80)) 1)).
Proof.
  apply (single_row_has_no_change pow_unused three_countries "X" "Spain" 2020 2021
           (sample_row "Spain" 2021 80)).
  reflexivity.
Defined.

Lemma filter_filter_implies {A : Type} (f g : A -> bool) (l : list A) :
  (forall x, f x = true -> g x = true) -> filter f (filter g l) = filter f l.
Proof.
  intro H. induction l as [|x l IH]; [reflexivity|]. cbn [filter].
  destruct (g x) eqn:G.
  - cbn [filter]. now rewrite IH.
  - rewrite IH. destruct (f x) eqn:F; [|reflexivity].
    rewrite (H x F) in G. discriminate.
Qed.

(** X12: the cards read only the rows of the indicator within the range: on
    the slice of the table that the bar chart and the map work on they are
    the same as on the whole table. *)
Theorem kpis_read_only_the_slice (pow : float -> float -> float) (DF_ALL : DataFrame)
  (indicator kpi_country : string) (y0 y1 : Z) :
  update_kpis pow {| columns := columns DF_ALL;
                     rows := indicator_rows DF_ALL indicator y0 y1 |}
    indicator kpi_country y0 y1
  = update_kpis pow DF_ALL indicator kpi_country y0 y1.
Proof.
  set (slice := {| columns := columns DF_ALL;
                   rows := indicator_rows DF_ALL indicator y0 y1 |}).
  assert (Hsel : kpi_rows slice indicator kpi_country y0 y1
                 = kpi_rows DF_ALL indicator kpi_country y0 y1).
  { unfold kpi_rows, slice, indicator_rows. cbn [rows].
    apply filter_filter_implies. intros r H.
    apply andb_prop in H as [H Hy]. apply andb_prop in H as [Hi _].
    now rewrite Hi, Hy. }
  destruct (kpi_rows DF_ALL indicator kpi_country y0 y1) as [|r0 sel0] eqn:E.
  - unfold update_kpis. rewrite Hsel. rewrite E. reflexivity.
  - assert (Hne : kpi_rows DF_ALL indicator kpi_country y0 y1 <> []) by (now rewrite E).
    destruct (kpi_sorted_ends DF_ALL indicator kpi_country y0 y1 Hne)
      as (first_row & rest & last_row & before & fy & ly & Hs & Hr & Hfy & Hly).
    assert (Hs' : kpi_sorted slice indicator kpi_country y0 y1 = first_row :: rest).
    { unfold kpi_sorted in *. rewrite Hsel, <- E. exact Hs. }
    assert (Hr' : rev (kpi_sorted slice indicator kpi_country y0 y1) = last_row :: before).
    { unfold kpi_sorted in *. rewrite Hsel, <- E. exact Hr. }
    rewrite (update_kpis_unfold pow _ _ _ _ _ _ _ _ _ _ _ Hs Hr Hfy Hly).
    rewrite (update_kpis_unfold pow _ _ _ _ _ _ _ _ _ _ _ Hs' Hr' Hfy Hly).
    assert (Hlast : In last_row (kpi_rows DF_ALL indicator kpi_country y0 y1)).
    { apply kpi_sorted_in. eapply rev_head_in. exact Hr. }
    destruct (kpi_rows_in _ _ _ _ _ _ Hlast) as (_ & _ & _ & y & Hy & Hrange).
    rewrite Hly in Hy. injection Hy as <-.
    assert (Hcross : year_rows slice indicator ly = year_rows DF_ALL indicator ly).
    { unfold year_rows, slice, indicator_rows. cbn [rows]. f_equal.
      apply filter_filter_implies. intros r H. apply andb_prop in H as [Hi Hyr].
      rewrite Hi. cbn [andb]. unfold year_is in Hyr. unfold between.
      destruct (Year r) as [n|]; [|discriminate].
      apply Z.eqb_eq in Hyr. subst n. apply andb_true_intro. split; lia. }
    unfold rank_texts. now rewrite Hcross.
Qed.

(** ** The smallest and the largest year *)

Lemma year_max_spec (rs : list row) (m : Z) :
  year_max rs = Some m ->
  (exists r, In r rs /\ Year r = Some m)
  /\ forall r y, In r rs -> Year r = Some y -> y <= m.
Proof.
  revert m. induction rs as [|x rs IH]; intro m; cbn [year_max]; [discriminate|].
  destruct (Year x) as [yx|] eqn:Ex; destruct (year_max rs) as [m'|] eqn:Em.
  - intros [= <-]. destruct (IH m' eq_refl) as [(r & Hr & Hy) Hle]. split.
    + destruct (Z.max_spec yx m') as [[_ ->]|[_ ->]];
        [exists r; split; [now right|exact Hy]|exists x; split; [now left|exact Ex]].
    + intros r' y [<-|Hin] Hy'.
      * rewrite Ex in Hy'. injection Hy' as <-. lia.
      * specialize (Hle r' y Hin Hy'). lia.
  - intros [= <-]. split; [exists x; split; [now left|exact Ex]|].
    intros r' y [<-|Hin] Hy'.
    + rewrite Ex in Hy'. injection Hy' as <-. lia.
    + exfalso. clear IH. induction rs as [|z rs IHrs]; [contradiction|].
      cbn [year_max] in Em. destruct (Year z) eqn:Ez.
      * destruct (year_max rs); discriminate.
      * destruct Hin as [<-|Hin]; [congruence|now apply IHrs].
  - intros [= <-]. destruct (IH m' eq_refl) as [(r & Hr & Hy) Hle]. split.
    + exists r. split; [now right|exact Hy].
    + intros r' y [<-|Hin] Hy'; [congruence|now apply (Hle r')].
  - discriminate.
Qed.


Lemma year_max_some (rs : list row) (r : row) (y : Z) :
  In r rs -> Year r = Some y -> exists m, year_max rs = Some m.
Proof.
  induction rs as [|x rs IH]; [contradiction|]. intros [<-|Hin] Hy; cbn [year_max].
  - rewrite Hy. destruct (year_max rs); eauto.
  - destruct (IH Hin Hy) as [m ->]. destruct (Year x); eauto.
Qed.


Lemma indicator_rows_in (DF_ALL : DataFrame) (indicator : string) (y0 y1 : Z) (r : row) :
  In r (indicator_rows DF_ALL indicator y0 y1) <->
  In r (rows DF_ALL) /\ Indicator r = indicator
  /\ exists y, Year r = Some y /\ y0 <= y <= y1.
Proof.
  unfold indicator_rows. rewrite filter_In, andb_true_iff, String.eqb_eq.
  unfold between. destruct (Year r) as [y|].
  - rewrite andb_true_iff, !Z.leb_le. split.
    + intros (Hin & Hi & H). repeat split; try assumption. exists y. split; [reflexivity|lia].
    + intros (Hin & Hi & y' & [= <-] & H). repeat split; try assumption; lia.
  - split.
    + intros (_ & _ & H). discriminate.
    + intros (_ & _ & y' & H & _). discriminate.
Qed.

(** ** The map *)

(** X13: where a row of the indicator lies in the range, the map is drawn
    without raising, for the largest year that any country has in the range,
    and shows all the rows of that year and no other. *)
Theorem map_chart_shows_latest_year (DF_ALL : DataFrame) (indicator : string) (y0 y1 : Z) :
  indicator_rows DF_ALL indicator y0 y1 <> [] ->
  exists last_year df_last,
    update_map_chart DF_ALL indicator y0 y1 = Ok (MapChart last_year df_last)
    /\ y0 <= last_year <= y1
    /\ df_last <> []
    /\ (forall r, In r df_last <->
                  In r (indicator_rows DF_ALL indicator y0 y1) /\ Year r = Some last_year)
    /\ Forall (fun r => exists y, Year r = Some y /\ y <= last_year)
         (indicator_rows DF_ALL indicator y0 y1).
Proof.
  intro Hne. unfold update_map_chart.
  destruct (indicator_rows DF_ALL indicator y0 y1) as [|r0 df0] eqn:E; [congruence|].
  rewrite <- E in *. clear Hne.
  assert (H0 : In r0 (indicator_rows DF_ALL indicator y0 y1)) by (rewrite E; now left).
  destruct (proj1 (indicator_rows_in _ _ _ _ _) H0) as (_ & _ & y & Hy & _).
  destruct (year_max_some _ _ _ H0 Hy) as [m Hm].
  destruct (year_max_spec _ _ Hm) as [(r & Hr & Hyr) Hle].
  rewrite Hm. cbn [int_year rbind].
  exists m, (filter (fun r => year_is m (Year r)) (indicator_rows DF_ALL indicator y0 y1)).
  assert (Hin : forall x,
             In x (filter (fun r => year_is m (Year r))
                          (indicator_rows DF_ALL indicator y0 y1)) <->
             In x (indicator_rows DF_ALL indicator y0 y1) /\ Year x = Some m).
  { intro x. rewrite filter_In. unfold year_is. destruct (Year x) as [n|].
    - rewrite Z.eqb_eq. split; intros [H1 H2]; split; congruence.
    - split; intros [_ H]; discriminate. }
  split; [reflexivity|]. split.
  { destruct (proj1 (indicator_rows_in _ _ _ _ _) Hr) as (_ & _ & y' & Hy' & Hb).
    rewrite Hyr in Hy'. injection Hy' as <-. exact Hb. }
  split.
  { intro Hnil. assert (Hx : In r [] ) by (rewrite <- Hnil; now apply Hin). contradiction. }
  split; [exact Hin|].
  apply Forall_forall. intros x Hx.
  destruct (proj1 (indicator_rows_in _ _ _ _ _) Hx) as (_ & _ & y' & Hy' & _).
  exists y'. split; [exact Hy'|now apply (Hle x)].
Qed.

Lemma map_chart_shows_latest_year_witness :
  exists last_year df_last,
    update_map_chart three_countries "X" 2020 2021 = Ok (MapChart last_year df_last)
    /\ 2020 <= last_year <= 2021
    /\ df_last <> []
    /\ (forall r, In r df_last <->
                  In r (indicator_rows three_countries "X" 2020 2021)
                  /\ Year r = Some last_year)
    /\ Forall (fun r => exists y, Year r = Some y /\ y <= last_year)
         (indicator_rows three_countries "X" 2020 2021).
Proof.
  apply (map_chart_shows_latest_year three_countries "X" 2020 2021).
  vm_compute. discriminate.
Defined.

(** ** Nothing to show *)

Lemma filter_nil_of {A : Type} (f g : A -> bool) (l : list A) :
  (forall x, f x = true -> g x = true) -> filter g l = [] -> filter f l = [].
Proof.
  intros H Hg. rewrite <- (filter_filter_implies f g l H), Hg. reflexivity.
Qed.

(** X14: where no row of the indicator lies in the range (the range is
    inverted, the indicator is not in the table, the table is empty), no
    callback raises: the eight cards show 'N/A' and the three charts are the
    'No data available' figure. *)
Theorem no_rows_no_data (pow : float -> float -> float) (DF_ALL : DataFrame)
  (indicator kpi_country : string) (selected_countries : list string) (y0 y1 : Z) :
  indicator_rows DF_ALL indicator y0 y1 = [] ->
  update_kpis pow DF_ALL indicator kpi_country y0 y1 = Ok all_na
  /\ update_line_chart DF_ALL indicator selected_countries y0 y1 = NoChart
  /\ update_bar_chart DF_ALL indicator y0 y1 = Ok NoData
  /\ update_map_chart DF_ALL indicator y0 y1 = Ok NoChart.
Proof.
  intro H. repeat split.
  - unfold update_kpis.
    assert (E : kpi_rows DF_ALL indicator kpi_country y0 y1 = []).
    { unfold kpi_rows. unfold indicator_rows in H.
      eapply filter_nil_of; [|exact H]. intros x Hx. cbv beta in *.
      apply andb_prop in Hx as [Hx Hy]. apply andb_prop in Hx as [Hi _].
      now rewrite Hi, Hy. }
    now rewrite E.
  - unfold update_line_chart.
    assert (E : filter_and_transform_data DF_ALL indicator selected_countries y0 y1 = []).
    { unfold filter_and_transform_data. unfold indicator_rows in H.
      eapply filter_nil_of; [|exact H]. intros x Hx. cbv beta in *.
      apply andb_prop in Hx as [Hx Hy]. apply andb_prop in Hx as [Hi _].
      now rewrite Hi, Hy. }
    now rewrite E.
  - unfold update_bar_chart. unfold indicator_rows in H. now rewrite H.
  - unfold update_map_chart. now rewrite H.
Qed.

Lemma inverted_range_has_no_rows (DF_ALL : DataFrame) (indicator : string) (y0 y1 : Z) :
  y1 < y0 -> indicator_rows DF_ALL indicator y0 y1 = [].
Proof.
  intro H. unfold indicator_rows. induction (rows DF_ALL) as [|r rs IH]; [reflexivity|].
  cbn [filter]. rewrite IH.
  replace (between y0 y1 (Year r)) with false; [now rewrite andb_false_r|].
  unfold between. destruct (Year r) as [y|]; [|reflexivity].
  symmetry. apply andb_false_iff. destruct (Z.leb_spec y0 y); [right|now left].
  apply Z.leb_gt. lia.
Qed.

Lemma no_rows_no_data_witness :
  update_kpis pow_unused three_countries "X" "Germany" 2021 2020 = Ok all_na
  /\ update_line_chart three_countries "X" ["Germany"; "France"] 2021 2020 = NoChart
  /\ update_bar_chart three_countries "X" 2021 2020 = Ok NoData
  /\ update_map_chart three_countries "X" 2021 2020 = Ok NoChart.
Proof.
  apply (no_rows_no_data pow_unused three_countries "X" "Germany" ["Germany"; "France"]
           2021 2020).
  apply inverted_range_has_no_rows. lia.
Defined.

(** ** The line chart and the cards *)

Lemma update_kpis_all_na (pow : float -> float -> float) (DF_ALL : DataFrame)
  (indicator kpi_country : string) (y0 y1 : Z) :
  update_kpis pow DF_ALL indicator kpi_country y0 y1 = Ok all_na <->
  kpi_rows DF_ALL indicator kpi_country y0 y1 = [].
Proof.
  split.
  - intro H. destruct (kpi_rows DF_ALL indicator kpi_country y0 y1) as [|r sel] eqn:E;
      [reflexivity|exfalso].
    assert (Hne : kpi_rows DF_ALL indicator kpi_country y0 y1 <> []) by (now rewrite E).
    destruct (kpi_sorted_ends DF_ALL indicator kpi_country y0 y1 Hne)
      as (first_row & rest & last_row & before & fy & ly & Hs & Hr & Hfy & Hly).
    rewrite (update_kpis_unfold pow _ _ _ _ _ _ _ _ _ _ _ Hs Hr Hfy Hly) in H.
    injection H as _ H _. discriminate.
  - intro E. unfold update_kpis. now rewrite E.
Qed.

(** X15: the line chart has nothing to show exactly when the cards of every
    selected country show 'N/A' for the same indicator and range. *)
Theorem line_chart_empty_iff_no_kpis (pow : float -> float -> float) (DF_ALL : DataFrame)
  (indicator : string) (selected_countries : list string) (y0 y1 : Z) :
  update_line_chart DF_ALL indicator selected_countries y0 y1 = NoChart <->
  forall c, In c selected_countries ->
            update_kpis pow DF_ALL indicator c y0 y1 = Ok all_na.
Proof.
  unfold update_line_chart.
  assert (Hiff : filter_and_transform_data DF_ALL indicator selected_countries y0 y1 = [] <->
                 forall c, In c selected_countries ->
                           kpi_rows DF_ALL indicator c y0 y1 = []).
  { unfold filter_and_transform_data, kpi_rows. split.
    - intros H c Hc. eapply filter_nil_of; [|exact H]. intros x Hx. cbv beta in *.
      apply andb_prop in Hx as [Hx Hy]. apply andb_prop in Hx as [Hi Hn].
      rewrite Hi, Hy. cbn [andb]. rewrite andb_true_r.
      unfold name_is in Hn. unfold isin. destruct (Country x) as [n|]; [|discriminate].
      apply String.eqb_eq in Hn. subst n. apply existsb_exists.
      exists c. split; [exact Hc|apply String.eqb_refl].
    - intro H. destruct (filter _ (rows DF_ALL)) as [|r l] eqn:E; [reflexivity|exfalso].
      assert (Hr : In r (filter (fun r => String.eqb (Indicator r) indicator
                                          && isin selected_countries (Country r)
                                          && between y0 y1 (Year r)) (rows DF_ALL)))
        by (rewrite E; now left).
      apply filter_In in Hr as [Hin Hr].
      apply andb_prop in Hr as [Hr Hy]. apply andb_prop in Hr as [Hi Hs].
      unfold isin in Hs. destruct (Country r) as [n|] eqn:Ec; [|discriminate].
      apply existsb_exists in Hs as (c & Hc & Hn). apply String.eqb_eq in Hn. subst n.
      specialize (H c Hc).
      assert (Hr' : In r (filter (fun r => String.eqb (Indicator r) indicator
                                           && name_is c (Country r)
                                           && between y0 y1 (Year r)) (rows DF_ALL))).
      { apply filter_In. split; [exact Hin|]. rewrite Hi, Hy, Ec. cbn [name_is andb].
        now rewrite String.eqb_refl. }
      rewrite H in Hr'. contradiction. }
  split.
  - intros H c Hc. apply update_kpis_all_na.
    apply Hiff; [|exact Hc].
    now destruct (filter_and_transform_data DF_ALL indicator selected_countries y0 y1).
  - intro H.
    assert (E : filter_and_transform_data DF_ALL indicator selected_countries y0 y1 = []).
    { apply Hiff. intros c Hc. apply (update_kpis_all_na pow). now apply H. }
    now rewrite E.
Qed.

(** ** The download *)

Lemma replace_char_length (a b : ascii) (s : string) :
  String.length (replace_char a b s) = String.length s.
Proof. induction s as [|c s IH]; cbn [replace_char String.length]; congruence. Qed.

Lemma replace_char_get (a b : ascii) (s : string) (n : nat) :
  String.get n (replace_char a b s)
  = match String.get n s with
    | Some c => Some (if Ascii.eqb c a then b else c)
    | None => None
    end.
Proof.
  revert n. induction s as [|c s IH]; intro n; [reflexivity|].
  destruct n as [|n]; cbn [replace_char String.get]; [reflexivity|apply IH].
Qed.

(** X16: the name of the downloaded file is "europe_", the indicator's name
    with every blank turned into an underscore and every other character
    kept, and ".csv"; no blank of the indicator's name is left in it. *)
Theorem download_file_name (DF_ALL : DataFrame) (indicator : string) :
  exists stem,
    fst (download_csv DF_ALL indicator) = ("europe_" ++ stem ++ ".csv")%string
    /\ String.length stem = String.length indicator
    /\ (forall n, String.get n stem
                  = match String.get n indicator with
                    | Some c => Some (if Ascii.eqb c " " then "_"%char else c)
                    | None => None
                    end)
    /\ (forall n, String.get n stem <> Some " "%char).
Proof.
  exists (replace_char " " "_" indicator). split; [reflexivity|].
  split; [apply replace_char_length|]. split; [intro n; apply replace_char_get|].
  intro n. rewrite replace_char_get. destruct (String.get n indicator) as [c|]; [|discriminate].
  destruct (Ascii.eqb c " ") eqn:E; [discriminate|].
  intros [= ->]. discriminate.
Qed.

Lemma StronglySorted_filter {A : Type} (R : A -> A -> Prop) (f : A -> bool) (l : list A) :
  StronglySorted R l -> StronglySorted R (filter f l).
Proof.
  induction 1 as [|x l Hs IH Hx]; cbn [filter]; [constructor|].
  destruct (f x); [|exact IH]. constructor; [exact IH|].
  rewrite Forall_forall in Hx |- *. intros y Hy. apply Hx. now apply filter_In in Hy.
Qed.

Lemma StronglySorted_among {A : Type} (R R' : A -> A -> Prop) (P : A -> Prop) (l : list A) :
  (forall a b, P a -> P b -> R a b -> R' a b) ->
  Forall P l -> StronglySorted R l -> StronglySorted R' l.
Proof.
  intros H HP Hs. induction Hs as [|x l Hs IH Hx]; [constructor|].
  inversion HP as [|? ? Px Pl]; subst. constructor; [now apply IH|].
  rewrite Forall_forall in Hx, Pl |- *. intros y Hy. apply H; auto.
Qed.

Lemma key_le_same_indicator (a b : row) :
  Indicator a = Indicator b -> key_le a b = true -> country_year_le a b = true.
Proof.
  unfold key_le, key_compare, country_year_le. intros ->.
  now rewrite (ordering_refl _ ordering_string).
Qed.

(** X17: the download of an indicator from a table that the build returns
    has the five columns and holds the rows of that indicator and no other, by
    country and then by year. *)
Theorem download_of_built_table (net : key -> option json)
  (countries_dict indicators_dict : list (string * string)) (start_year end_year : Z)
  (st : fetcher) (indicator : string) :
  match snd (get_worldbank_data net countries_dict indicators_dict start_year end_year st) with
  | Ok DF_ALL =>
      columns (snd (download_csv DF_ALL indicator)) = canonical_columns
      /\ (forall r, In r (rows (snd (download_csv DF_ALL indicator))) <->
                    In r (rows DF_ALL) /\ Indicator r = indicator)
      /\ StronglySorted (fun a b => country_year_le a b = true)
           (rows (snd (download_csv DF_ALL indicator)))
  | Raise _ => True
  end.
Proof.
  destruct (snd (get_worldbank_data _ _ _ _ _ _)) as [DF_ALL|e] eqn:E; [|exact I].
  apply get_worldbank_data_ok in E as [Hc Hr].
  unfold download_csv. cbn [snd columns rows].
  split; [exact Hc|]. split.
  - intro r. rewrite filter_In, String.eqb_eq. reflexivity.
  - apply (StronglySorted_among (fun a b => key_le a b = true) _
             (fun r => Indicator r = indicator)).
    + intros a b Ha Hb. apply key_le_same_indicator. congruence.
    + apply Forall_forall. intros r Hr'. apply filter_In in Hr' as [_ Hr'].
      now apply String.eqb_eq.
    + apply StronglySorted_filter. rewrite Hr. apply sort_values_key_sorted.
Qed.

(** ** The slider *)



(** ** The bar chart, in general *)

Lemma group_keys_in (rs : list row) (c : string) :
  In c (group_keys rs) <-> exists r, In r rs /\ Country r = Some c.
Proof.
  induction rs as [|r rs IH]; cbn [group_keys].
  - split; [intros []|intros (r & [] & _)].
  - assert (Hrest : (exists r0, In r0 (r :: rs) /\ Country r0 = Some c) <->
                    Country r = Some c \/ In c (group_keys rs)).
    { rewrite IH. split.
      - intros (r0 & [<-|H0] & Hc); [now left|right; now exists r0].
      - intros [Hc|(r0 & H0 & Hc)]; [exists r; split; [now left|exact Hc]|].
        exists r0. split; [now right|exact Hc]. }
    rewrite Hrest. clear Hrest IH.
    destruct (Country r) as [n|].
    + destruct (existsb (String.eqb n) (group_keys rs)) eqn:E.
      * split; [now right|]. intros [[= ->]|H]; [|exact H].
        apply existsb_exists in E as (x & Hx & Ex). apply String.eqb_eq in Ex. now subst x.
      * split.
        -- intro H. apply (Permutation_in _ (Permutation_sym (insert_by_perm _ _ _))) in H.
           destruct H as [->|H]; [now left|now right].
        -- intro H. apply (Permutation_in _ (insert_by_perm _ _ _)).
           destruct H as [[= ->]|H]; [now left|now right].
    + split; [now right|]. now intros [H|H].
Qed.

Lemma group_keys_NoDup (rs : list row) : NoDup (group_keys rs).
Proof.
  induction rs as [|r rs IH]; cbn [group_keys]; [constructor|].
  destruct (Country r) as [n|]; [|exact IH].
  destruct (existsb (String.eqb n) (group_keys rs)) eqn:E; [exact IH|].
  apply (Permutation_NoDup (insert_by_perm _ _ _)). constructor; [|exact IH].
  intro H. assert (E' : existsb (String.eqb n) (group_keys rs) = true).
  { apply existsb_exists. exists n. split; [exact H|apply String.eqb_refl]. }
  congruence.
Qed.

Lemma ltb_false_ge (x y : float) :
  PrimFloat.is_nan x = false -> PrimFloat.is_nan y = false ->
  (PrimFloat.ltb x y = false <-> not_gt (float_compare y x) = true).
Proof.
  intros Hx Hy. rewrite (ltb_compare _ _ Hx Hy).
  rewrite (cmp_opp _ ordering_float x y). now destruct (float_compare x y).
Qed.

Lemma ltb_false_trans (x y z : float) :
  PrimFloat.is_nan x = false -> PrimFloat.is_nan y = false -> PrimFloat.is_nan z = false ->
  PrimFloat.ltb x y = false -> PrimFloat.ltb y z = false -> PrimFloat.ltb x z = false.
Proof.
  intros Hx Hy Hz Hxy Hyz.
  apply (ltb_false_ge _ _ Hx Hy) in Hxy. apply (ltb_false_ge _ _ Hy Hz) in Hyz.
  apply (ltb_false_ge _ _ Hx Hz).
  exact (ordering_trans _ ordering_float z y x Hyz Hxy).
Qed.

Lemma ltb_true_false (x y : float) :
  PrimFloat.is_nan x = false -> PrimFloat.is_nan y = false ->
  PrimFloat.ltb x y = true -> PrimFloat.ltb y x = false.
Proof.
  intros Hx Hy. rewrite (ltb_compare _ _ Hx Hy), (ltb_compare _ _ Hy Hx).
  rewrite (cmp_opp _ ordering_float x y). now destruct (float_compare x y).
Qed.

Lemma ltb_irrefl (x : float) : PrimFloat.is_nan x = false -> PrimFloat.ltb x x = false.
Proof.
  intro Hx. rewrite (ltb_compare _ _ Hx Hx). now rewrite (ordering_refl _ ordering_float).
Qed.

Lemma idxmax_acc (g : list (nat * row)) :
  Forall (fun ir => PrimFloat.is_nan (Value (snd ir)) = false) g ->
  forall i0 b0, PrimFloat.is_nan b0 = false ->
  exists i b,
    idxmax g (Some (i0, b0)) = Some i
    /\ PrimFloat.is_nan b = false
    /\ ((i = i0 /\ b = b0) \/ exists r, In (i, r) g /\ Value r = b)
    /\ PrimFloat.ltb b b0 = false
    /\ Forall (fun ir => PrimFloat.ltb b (Value (snd ir)) = false) g.
Proof.
  induction 1 as [|[j r'] g Hn Hg IH]; intros i0 b0 Hb0.
  - exists i0, b0. cbn [idxmax option_map fst]. split; [reflexivity|].
    split; [exact Hb0|]. split; [now left|]. split; [now apply ltb_irrefl|constructor].
  - cbn [snd] in Hn. cbn [idxmax]. rewrite Hn.
    destruct (PrimFloat.ltb b0 (Value r')) eqn:E.
    + destruct (IH j (Value r') Hn) as (i & b & Hi & Hb & Hor & Hge & Hall).
      exists i, b. split; [exact Hi|]. split; [exact Hb|]. split.
      * right. destruct Hor as [[-> ->]|(r & Hr & Hv)]; [exists r'; split; [now left|reflexivity]|].
        exists r. split; [now right|exact Hv].
      * split.
        -- apply (ltb_false_trans b (Value r') b0 Hb Hn Hb0 Hge).
           now apply ltb_true_false.
        -- constructor; [exact Hge|exact Hall].
    + destruct (IH i0 b0 Hb0) as (i & b & Hi & Hb & Hor & Hge & Hall).
      exists i, b. split; [exact Hi|]. split; [exact Hb|]. split.
      * destruct Hor as [Hor|(r & Hr & Hv)]; [now left|right].
        exists r. split; [now right|exact Hv].
      * split; [exact Hge|]. constructor; [|exact Hall]. cbn [snd].
        exact (ltb_false_trans b b0 (Value r') Hb Hb0 Hn Hge E).
Qed.

Lemma idxmax_largest (g : list (nat * row)) :
  g <> [] ->
  Forall (fun ir => PrimFloat.is_nan (Value (snd ir)) = false) g ->
  exists i r,
    idxmax g None = Some i /\ In (i, r) g
    /\ Forall (fun ir => PrimFloat.ltb (Value r) (Value (snd ir)) = false) g.
Proof.
  destruct g as [|[j r'] g]; [congruence|]. intros _ Hg.
  inversion Hg as [|? ? Hn Hg']; subst. cbn [snd] in Hn.
  cbn [idxmax]. rewrite Hn.
  destruct (idxmax_acc g Hg' j (Value r') Hn) as (i & b & Hi & Hb & Hor & Hge & Hall).
  destruct Hor as [[-> ->]|(r & Hr & <-)].
  - exists j, r'. split; [exact Hi|]. split; [now left|]. now constructor.
  - exists i, r. split; [exact Hi|]. split; [now right|]. now constructor.
Qed.

Lemma all_ok_map {A B : Type} (f : A -> option B) (Q : A -> B -> Prop) (l : list A) :
  (forall a, In a l -> exists b, f a = Some b /\ Q a b) ->
  exists bs, all_ok (map f l) = Ok bs /\ Forall2 Q l bs.
Proof.
  induction l as [|a l IH]; intro H.
  - exists []. split; [reflexivity|constructor].
  - destruct (H a (or_introl eq_refl)) as (b & Hb & Hq).
    destruct IH as (bs & Hbs & Hall); [intros x Hx; apply H; now right|].
    exists (b :: bs). cbn [map all_ok]. rewrite Hb, Hbs. split; [reflexivity|].
    now constructor.
Qed.

Lemma combine_seq_nth {A : Type} (l : list A) (s i : nat) (r : A) :
  In (i, r) (combine (seq s (List.length l)) l) ->
  nth_error l (i - s) = Some r /\ (s <= i)%nat.
Proof.
  revert s. induction l as [|x l IH]; intros s H; [destruct H|].
  cbn [List.length seq combine] in H. destruct H as [[= <- <-]|H].
  - rewrite Nat.sub_diag. now split.
  - destruct (IH _ H) as [Hn Hle]. split; [|lia].
    replace (i - s)%nat with (S (i - S s)) by lia. exact Hn.
Qed.

Lemma combine_seq_in {A : Type} (l : list A) (s : nat) (r : A) :
  In r l -> exists i, In (i, r) (combine (seq s (List.length l)) l).
Proof.
  revert s. induction l as [|x l IH]; intros s H; [destruct H|].
  cbn [List.length seq combine]. destruct H as [->|H].
  - exists s. now left.
  - destruct (IH (S s) H) as [i Hi]. exists i. now right.
Qed.

Lemma combine_seq_snd {A : Type} (l : list A) (s : nat) :
  map snd (combine (seq s (List.length l)) l) = l.
Proof.
  revert s. induction l as [|x l IH]; intro s; [reflexivity|].
  cbn [List.length seq combine map snd]. now rewrite IH.
Qed.

Lemma loc_rows_picks (Q : string -> row -> Prop) (df : list row)
  (keys : list string) (idx : list nat) :
  Forall2 (fun c i => exists r, nth_error df i = Some r /\ Q c r) keys idx ->
  exists rs, loc_rows df idx = rs /\ Forall2 Q keys rs.
Proof.
  induction 1 as [|c i keys idx (r & Hr & Hq) _ (rs & Hrs & Hall)].
  - exists []. split; [reflexivity|constructor].
  - exists (r :: rs). unfold loc_rows in *. cbn [flat_map]. rewrite Hr, Hrs.
    split; [reflexivity|now constructor].
Qed.

Lemma Forall2_right_in {A B : Type} (Q : A -> B -> Prop) (l : list A) (m : list B) :
  Forall2 Q l m -> forall b, In b m -> exists a, In a l /\ Q a b.
Proof.
  induction 1 as [|a b l m Hq _ IH]; intros x Hx; [destruct Hx|].
  destruct Hx as [<-|Hx]; [exists a; split; [now left|exact Hq]|].
  destruct (IH x Hx) as (a' & Ha & Hq'). exists a'. split; [now right|exact Hq'].
Qed.

Lemma Forall2_left_in {A B : Type} (Q : A -> B -> Prop) (l : list A) (m : list B) :
  Forall2 Q l m -> forall a, In a l -> exists b, In b m /\ Q a b.
Proof.
  induction 1 as [|a b l m Hq _ IH]; intros x Hx; [destruct Hx|].
  destruct Hx as [<-|Hx]; [exists b; split; [now left|exact Hq]|].
  destruct (IH x Hx) as (b' & Hb & Hq'). exists b'. split; [now right|exact Hq'].
Qed.

(** The bar of a country: a row of the selection with the country's name
    whose value no row of the country in the selection exceeds. *)
Lemma bar_selection (df : list row) :
  Forall (fun r => PrimFloat.is_nan (Value r) = false) df ->
  exists rs,
    rbind (idxmax_by_country (combine (seq 0 (List.length df)) df))
          (fun idx => Ok (loc_rows df idx)) = Ok rs
    /\ Forall2 (fun c r => In r df /\ Country r = Some c
                           /\ forall r', In r' df -> Country r' = Some c ->
                                         PrimFloat.ltb (Value r) (Value r') = false)
         (group_keys df) rs.
Proof.
  intro Hno. unfold idxmax_by_country. rewrite combine_seq_snd.
  set (labelled := combine (seq 0 (List.length df)) df).
  set (Q := fun (c : string) (r : row) =>
              In r df /\ Country r = Some c
              /\ forall r', In r' df -> Country r' = Some c ->
                            PrimFloat.ltb (Value r) (Value r') = false).
  destruct (all_ok_map
              (fun c => idxmax (filter (fun ir => name_is c (Country (snd ir)))
                                       (sort_labelled_year labelled)) None)
              (fun c i => exists r, nth_error df i = Some r /\ Q c r)
              (group_keys df)) as (idx & Hidx & Hall).
  - intros c Hc. apply group_keys_in in Hc as (r0 & H0 & Hc0).
    destruct (combine_seq_in df 0 r0 H0) as [j Hj]. fold labelled in Hj.
    assert (Hin : forall ir, In ir (filter (fun ir => name_is c (Country (snd ir)))
                                          (sort_labelled_year labelled)) <->
                             In ir labelled /\ Country (snd ir) = Some c).
    { intro ir. rewrite filter_In. unfold sort_labelled_year. rewrite sort_by_in.
      unfold name_is. destruct (Country (snd ir)) as [n|].
      - rewrite String.eqb_eq. split; intros [? ?]; split; congruence.
      - split; intros [? ?]; discriminate. }
    destruct (idxmax_largest
                (filter (fun ir => name_is c (Country (snd ir)))
                        (sort_labelled_year labelled))) as (i & r & Hi & Hr & Hmax).
    + intro E. assert (H : In (j, r0) []) by (rewrite <- E; apply Hin; now split).
      destruct H.
    + apply Forall_forall. intros [k x] Hx. apply Hin in Hx as [Hx _].
      apply combine_seq_nth in Hx as [Hx _]. apply nth_error_In in Hx.
      rewrite Forall_forall in Hno. now apply Hno.
    + exists i. split; [exact Hi|]. exists r.
      apply Hin in Hr as [Hr Hcr]. cbn [snd] in Hcr.
      apply combine_seq_nth in Hr as [Hr _]. rewrite Nat.sub_0_r in Hr.
      split; [exact Hr|]. split; [now apply nth_error_In in Hr|]. split; [exact Hcr|].
      intros r' Hr' Hc'. destruct (combine_seq_in df 0 r' Hr') as [k Hk].
      fold labelled in Hk. rewrite Forall_forall in Hmax.
      apply (Hmax (k, r')). apply Hin. now split.
  - rewrite Hidx. cbn [rbind].
    destruct (loc_rows_picks Q df _ _ Hall) as (rs & Hrs & Hq).
    exists rs. now rewrite Hrs.
Qed.

(** X19: where no row of the indicator in the range lacks its value, the bar
    chart is made without raising and has one bar for each country that has a
    row there: a row of that country whose value none of the country's rows
    in the range exceeds, whatever its year; the bars go from the largest
    value down. *)
Theorem bar_chart_one_bar_per_country (DF_ALL : DataFrame) (indicator : string) (y0 y1 : Z) :
  Forall (fun r => PrimFloat.is_nan (Value r) = false)
    (indicator_rows DF_ALL indicator y0 y1) ->
  exists bars,
    update_bar_chart DF_ALL indicator y0 y1
    = Ok (match bars with [] => NoData | _ :: _ => Bar bars end)
    /\ (forall r, In r bars ->
          In r (indicator_rows DF_ALL indicator y0 y1)
          /\ exists c, Country r = Some c
             /\ forall r', In r' (indicator_rows DF_ALL indicator y0 y1) ->
                           Country r' = Some c ->
                           PrimFloat.ltb (Value r) (Value r') = false)
    /\ (forall r' c, In r' (indicator_rows DF_ALL indicator y0 y1) ->
                     Country r' = Some c ->
                     exists r, In r bars /\ Country r = Some c)
    /\ NoDup (map Country bars)
    /\ StronglySorted (fun a b => PrimFloat.ltb (Value a) (Value b) = false) bars.
Proof.
  intro Hno. unfold update_bar_chart. fold (indicator_rows DF_ALL indicator y0 y1).
  set (df := indicator_rows DF_ALL indicator y0 y1) in *.
  destruct (bar_selection df Hno) as (rs & Hrs & Hq).
  assert (Hna : Forall (fun r => notna (Value r) = true) rs).
  { apply Forall_forall. intros r Hr.
    destruct (Forall2_right_in _ _ _ Hq r Hr) as (c & _ & Hin & _).
    rewrite Forall_forall in Hno. unfold notna. now rewrite (Hno r Hin). }
  assert (Hdrop : dropna_value rs = rs).
  { unfold dropna_value. apply forallb_filter_id. apply forallb_forall.
    rewrite Forall_forall in Hna. exact Hna. }
  assert (Hperm : Permutation rs (sort_values_value_desc rs)).
  { rewrite (sort_values_value_desc_no_nan rs Hna). apply sort_by_perm. }
  exists (sort_values_value_desc rs). split; [|split; [|split; [|split]]].
  - destruct df as [|r0 df0] eqn:E.
    + cbn [List.length seq combine] in Hrs. inversion Hq as [E'|]; subst.
      reflexivity.
    + rewrite <- E in *.
      destruct (idxmax_by_country (combine (seq 0 (List.length df)) df)) as [idx|e];
        [|discriminate].
      cbn [rbind] in Hrs |- *. injection Hrs as ->. rewrite Hdrop.
      now destruct (sort_values_value_desc rs).
  - intros r Hr. apply (Permutation_in _ (Permutation_sym Hperm)) in Hr.
    destruct (Forall2_right_in _ _ _ Hq r Hr) as (c & _ & Hin & Hc & Hmax).
    split; [exact Hin|]. now exists c.
  - intros r' c Hr' Hc.
    assert (Hk : In c (group_keys df)) by (apply group_keys_in; now exists r').
    destruct (Forall2_left_in _ _ _ Hq c Hk) as (r & Hr & _ & Hcr & _).
    exists r. split; [|exact Hcr]. now apply (Permutation_in _ Hperm).
  - apply (Permutation_NoDup (Permutation_map Country Hperm)).
    assert (E : map Country rs = map Some (group_keys df)).
    { clear - Hq. induction Hq as [|c r ks rs (_ & Hc & _) _ IH]; [reflexivity|].
      cbn [map]. now rewrite Hc, IH. }
    rewrite E. apply Finite.Injective_map_NoDup; [|apply group_keys_NoDup].
    intros a b. congruence.
  - now apply sort_values_value_desc_sorted.
Qed.

Lemma bar_chart_one_bar_per_country_witness :
  exists bars,
    update_bar_chart three_countries "X" 2020 2021
    = Ok (match bars with [] => NoData | _ :: _ => Bar bars end)
    /\ (forall r, In r bars ->
          In r (indicator_rows three_countries "X" 2020 2021)
          /\ exists c, Country r = Some c
             /\ forall r', In r' (indicator_rows three_countries "X" 2020 2021) ->
                           Country r' = Some c ->
                           PrimFloat.ltb (Value r) (Value r') = false)
    /\ (forall r' c, In r' (indicator_rows three_countries "X" 2020 2021) ->
                     Country r' = Some c ->
                     exists r, In r bars /\ Country r = Some c)
    /\ NoDup (map Country bars)
    /\ StronglySorted (fun a b => PrimFloat.ltb (Value a) (Value b) = false) bars.
Proof.
  apply (bar_chart_one_bar_per_country three_countries "X" 2020 2021).
  vm_compute. repeat constructor.
Defined.

(** ** An outage *)

Lemma for_indicators_all_fail (net : key -> option json)
  (countries_dict : list (string * string)) (countries_iso date_range : string)
  (indicators : list (string * string)) (dfs : list (table json)) (st : fetcher) :
  (forall name code, In (name, code) indicators ->
     absent (countries_iso, code, date_range, 1) st
     /\ net (countries_iso, code, date_range, 1) = None) ->
  for_indicators net countries_dict countries_iso date_range indicators dfs st = (st, dfs).
Proof.
  induction indicators as [|[name code] rest IH]; intro H; [reflexivity|].
  cbn [for_indicators].
  destruct (H name code (or_introl eq_refl)) as [Ha Hn].
  rewrite (try_indicator_miss net countries_dict _ _ name _ _ Ha), Hn.
  apply IH. intros n c Hc. apply (H n c). now right.
Qed.

(** X20: when the first page of every indicator is neither in the cache nor
    answered by the API, the build ends without raising: the table has the five
    columns and no row, the fetcher is as it was (a failed request is not
    cached), and the slider falls back to 2000 and 2024. *)
Theorem outage_gives_empty_table (net : key -> option json)
  (countries_dict indicators_dict : list (string * string)) (start_year end_year : Z)
  (st : fetcher) :
  (forall name code, In (name, code) indicators_dict ->
     absent (countries_iso_of countries_dict, code, date_range_of start_year end_year, 1) st
     /\ net (countries_iso_of countries_dict, code, date_range_of start_year end_year, 1)
        = None) ->
  get_worldbank_data net countries_dict indicators_dict start_year end_year st
  = (st, Ok {| columns := canonical_columns; rows := [] |})
  /\ rbind (snd (get_worldbank_data net countries_dict indicators_dict
                   start_year end_year st)) rs_years
     = Ok {| slider_min := START_YEAR; slider_max := END_YEAR;
             slider_value := (START_YEAR, END_YEAR) |}.
Proof.
  intro H.
  assert (E : get_worldbank_data net countries_dict indicators_dict start_year end_year st
              = (st, Ok {| columns := canonical_columns; rows := [] |})).
  { unfold get_worldbank_data. cbv zeta.
    now rewrite (for_indicators_all_fail _ _ _ _ _ _ _ H). }
  split; [exact E|]. rewrite E. reflexivity.
Qed.

Lemma outage_gives_empty_table_witness :
  get_worldbank_data (fun _ => None) COUNTRIES INDICATORS START_YEAR END_YEAR no_fetches
  = (no_fetches, Ok {| columns := canonical_columns; rows := [] |})
  /\ rbind (snd (get_worldbank_data (fun _ => None) COUNTRIES INDICATORS
                   START_YEAR END_YEAR no_fetches)) rs_years
     = Ok {| slider_min := START_YEAR; slider_max := END_YEAR;
             slider_value := (START_YEAR, END_YEAR) |}.
Proof.
  apply (outage_gives_empty_table (fun _ => None) COUNTRIES INDICATORS
           START_YEAR END_YEAR no_fetches).
  intros name code _. split; [|reflexivity]. intros e He. destruct He.
Defined.

(** ** A failing indicator among the others *)

(** X21: with distinct codes and a cache without entries for them, as at
    startup, an indicator whose processing raises adds no frame and changes
    nothing for the others: the frames are those appended before it and after
    it, they are the frames of the build without that indicator, and the build
    returns what it returns without it, the same table or the same exception
    of the sort. *)
Theorem failing_indicator_is_isolated (net : key -> option json)
  (countries_dict before after : list (string * string)) (name code : string)
  (start_year end_year : Z) (st st1 st2 : fetcher) (dfs1 : list (table json)) (e : exn) :
  NoDup (map snd (before ++ (name, code) :: after)) ->
  (forall c, In c (map snd (before ++ (name, code) :: after)) -> no_entry_for c st) ->
  for_indicators net countries_dict (countries_iso_of countries_dict)
    (date_range_of start_year end_year) before [] st = (st1, dfs1) ->
  try_indicator net countries_dict (countries_iso_of countries_dict)
    (date_range_of start_year end_year) name code st1 = (st2, Raise e) ->
  indicator_frames net countries_dict (before ++ (name, code) :: after) start_year end_year st
  = dfs1 ++ indicator_frames net countries_dict after start_year end_year st2
  /\ indicator_frames net countries_dict (before ++ (name, code) :: after)
       start_year end_year st
     = indicator_frames net countries_dict (before ++ after) start_year end_year st
  /\ snd (get_worldbank_data net countries_dict (before ++ (name, code) :: after)
            start_year end_year st)
     = snd (get_worldbank_data net countries_dict (before ++ after)
              start_year end_year st).
Proof.
  intros Hnd Hfresh Hbefore Hraise.
  pose proof (frames_around_failure net countries_dict before after name code
                start_year end_year st st1 st2 dfs1 e Hbefore Hraise) as Hwith.
  assert (Hsame : indicator_frames net countries_dict (before ++ (name, code) :: after)
                    start_year end_year st
                  = indicator_frames net countries_dict (before ++ after)
                      start_year end_year st).
  { rewrite Hwith.
    assert (Hwithout : indicator_frames net countries_dict (before ++ after)
                         start_year end_year st
                       = dfs1 ++ indicator_frames net countries_dict after
                                   start_year end_year st1).
    { unfold indicator_frames. rewrite for_indicators_app, Hbefore.
      now rewrite for_indicators_acc. }
    rewrite Hwithout. rewrite map_app in Hnd, Hfresh. cbn [map snd] in Hnd, Hfresh.
    assert (H1 : forall c, In c (map snd after) -> no_entry_for c st1).
    { intros c Hc.
      pose proof (adds_for_indicators net countries_dict (countries_iso_of countries_dict)
                    (date_range_of start_year end_year) before [] st) as Hg.
      rewrite Hbefore in Hg. cbn [fst] in Hg.
      apply (no_entry_kept _ _ _ _ Hg).
      - intros k Hk E. rewrite E in Hk.
        apply (NoDup_app_disjoint _ _ c Hnd Hk). now right.
      - apply Hfresh. apply in_or_app. right. now right. }
    assert (H2 : forall c, In c (map snd after) -> no_entry_for c st2).
    { intros c Hc.
      pose proof (adds_try_indicator net countries_dict (countries_iso_of countries_dict)
                    (date_range_of start_year end_year) name code st1) as Hg.
      rewrite Hraise in Hg. cbn [fst] in Hg.
      apply (no_entry_kept _ _ _ _ Hg); [|now apply H1].
      intros k Hk E. apply NoDup_app_remove_l, NoDup_cons_iff in Hnd as [Hcode _].
      apply Hcode. now rewrite <- Hk, E. }
    assert (Hafter : NoDup (map snd after)).
    { now apply NoDup_app_remove_l, NoDup_cons_iff in Hnd. }
    unfold indicator_frames at 1 2.
    rewrite (for_indicators_fresh net countries_dict (countries_iso_of countries_dict)
               (date_range_of start_year end_year) after Hafter [] st2 st1 H2 H1).
    reflexivity. }
  split; [exact Hwith|]. split; [exact Hsame|].
  now rewrite !get_worldbank_data_outcome, Hsame.
Qed.

Lemma failing_indicator_is_isolated_witness :
  indicator_frames one_fails sample_countries
    ([("Ind A", "A")] ++ ("Ind B", "B") :: [("Ind C", "C"); ("Ind D", "D")])
    2000 2024 no_fetches
  = snd after_ind_a
    ++ indicator_frames one_fails sample_countries [("Ind C", "C"); ("Ind D", "D")]
         2000 2024 (fst after_ind_b)
  /\ indicator_frames one_fails sample_countries
       ([("Ind A", "A")] ++ ("Ind B", "B") :: [("Ind C", "C"); ("Ind D", "D")])
       2000 2024 no_fetches
     = indicator_frames one_fails sample_countries
         ([("Ind A", "A")] ++ [("Ind C", "C"); ("Ind D", "D")]) 2000 2024 no_fetches
  /\ snd (get_worldbank_data one_fails sample_countries
            ([("Ind A", "A")] ++ ("Ind B", "B") :: [("Ind C", "C"); ("Ind D", "D")])
            2000 2024 no_fetches)
     = snd (get_worldbank_data one_fails sample_countries
              ([("Ind A", "A")] ++ [("Ind C", "C"); ("Ind D", "D")])
              2000 2024 no_fetches).
Proof.
  apply (failing_indicator_is_isolated one_fails sample_countries
           [("Ind A", "A")] [("Ind C", "C"); ("Ind D", "D")] "Ind B" "B" 2000 2024
           no_fetches (fst after_ind_a) (fst after_ind_b) (snd after_ind_a) HTTPError).
  - apply all_distinct_NoDup. vm_compute. reflexivity.
  - intros c _ e0 He0. destruct He0.
  - vm_compute. reflexivity.
  - vm_compute. reflexivity.
Defined.

(** The scenario of the specification: the second page of one indicator
    fails while three others succeed. *)
Example one_of_four_fails :
  option_map (fun df => map (fun r => (Indicator r, Country r, Value r)) (rows df))
    (match snd (get_worldbank_data one_fails sample_countries four_indicators
                  2000 2024 no_fetches) with
     | Ok df => Some df
     | Raise _ => None
     end)
  = Some [("Ind A", Some "Germany", 110%float); ("Ind A", Some "Spain", 80%float);
          ("Ind C", Some "Germany", 110%float); ("Ind C", Some "Spain", 80%float);
          ("Ind D", Some "Germany", 110%float); ("Ind D", Some "Spain", 80%float)].
Proof. reflexivity. Qed.

(** ** The table that the build returns *)

Lemma sort_values_plain (rs : list (row_of json)) :
  Forall (fun r => name_or_missing (Country r) = true) rs ->
  sort_values rs = Ok (sort_values_key (map loaded_row rs)).
Proof.
  intro H. unfold sort_values.
  assert (E : forallb (fun r => hashable (Country r)) rs = true).
  { apply forallb_forall. rewrite Forall_forall in H. intros r Hr. specialize (H r Hr).
    now destruct (Country r). }
  now rewrite E.
Qed.

Lemma sort_values_unhashable (rs : list (row_of json)) :
  Exists (fun r => hashable (Country r) = false) rs -> sort_values rs = Raise TypeError.
Proof.
  intro H. unfold sort_values.
  assert (E : forallb (fun r => hashable (Country r)) rs = false).
  { apply Exists_exists in H as (r & Hr & Hh).
    destruct (forallb _ rs) eqn:F; [|reflexivity].
    rewrite forallb_forall in F. specialize (F r Hr). cbv beta in F. congruence. }
  now rewrite E.
Qed.

(** X22: with distinct codes and a cache without entries for them, the frames
    of the build are those that the processing of each indicator gives, in the
    order of the registry.  Where every Country cell of theirs is a name or is
    missing, the build returns a table with the five columns whose rows are the
    rows of these frames together, in ascending order of (Indicator, Country,
    Year); where a Country cell is a dict or a list, the sort raises
    TypeError and the build returns no table; where the frames have no row, the
    table is the empty one with the five columns. *)
Theorem built_table_is_sorted_concatenation (net : key -> option json)
  (countries_dict indicators_dict : list (string * string)) (start_year end_year : Z)
  (st : fetcher) :
  NoDup (map snd indicators_dict) ->
  (forall c, In c (map snd indicators_dict) -> no_entry_for c st) ->
  indicator_frames net countries_dict indicators_dict start_year end_year st
  = flat_map (fun ind =>
                appended (snd (try_indicator net countries_dict
                                 (countries_iso_of countries_dict)
                                 (date_range_of start_year end_year)
                                 (fst ind) (snd ind) st)))
             indicators_dict
  /\ (Forall (fun r => name_or_missing (Country r) = true)
        (flat_map rows
           (indicator_frames net countries_dict indicators_dict start_year end_year st)) ->
      exists df,
        snd (get_worldbank_data net countries_dict indicators_dict start_year end_year st)
        = Ok df
        /\ columns df = canonical_columns
        /\ Permutation
             (map loaded_row
                (flat_map rows
                   (indicator_frames net countries_dict indicators_dict
                      start_year end_year st)))
             (rows df)
        /\ StronglySorted (fun a b => key_le a b = true) (rows df))
  /\ (Exists (fun r => hashable (Country r) = false)
        (flat_map rows
           (indicator_frames net countries_dict indicators_dict start_year end_year st)) ->
      snd (get_worldbank_data net countries_dict indicators_dict start_year end_year st)
      = Raise TypeError)
  /\ (Forall (fun df => rows df = [])
        (indicator_frames net countries_dict indicators_dict start_year end_year st) ->
      snd (get_worldbank_data net countries_dict indicators_dict start_year end_year st)
      = Ok {| columns := canonical_columns; rows := [] |}).
Proof.
  intros Hnd Hcold. split; [|split; [|split]].
  - unfold indicator_frames. now apply for_indicators_each.
  - intro Hplain. rewrite get_worldbank_data_outcome, (sort_values_plain _ Hplain).
    cbn [rbind]. eexists. split; [reflexivity|]. cbn [columns rows].
    split; [reflexivity|]. split; [apply sort_by_perm|apply sort_values_key_sorted].
  - intro Hbad. now rewrite get_worldbank_data_outcome, (sort_values_unhashable _ Hbad).
  - intro Hnil. rewrite get_worldbank_data_outcome, (flat_map_rows_nil _ Hnil). reflexivity.
Qed.

Lemma built_table_is_sorted_concatenation_witness :
  indicator_frames one_fails sample_countries four_indicators 2000 2024 no_fetches
  = flat_map (fun ind =>
                appended (snd (try_indicator one_fails sample_countries
                                 (countries_iso_of sample_countries)
                                 (date_range_of 2000 2024)
                                 (fst ind) (snd ind) no_fetches)))
             four_indicators
  /\ (Forall (fun r => name_or_missing (Country r) = true)
        (flat_map rows
           (indicator_frames one_fails sample_countries four_indicators
              2000 2024 no_fetches)) ->
      exists df,
        snd (get_worldbank_data one_fails sample_countries four_indicators
               2000 2024 no_fetches)
        = Ok df
        /\ columns df = canonical_columns
        /\ Permutation
             (map loaded_row
                (flat_map rows
                   (indicator_frames one_fails sample_countries four_indicators
                      2000 2024 no_fetches)))
             (rows df)
        /\ StronglySorted (fun a b => key_le a b = true) (rows df))
  /\ (Exists (fun r => hashable (Country r) = false)
        (flat_map rows
           (indicator_frames one_fails sample_countries four_indicators
              2000 2024 no_fetches)) ->
      snd (get_worldbank_data one_fails sample_countries four_indicators
             2000 2024 no_fetches)
      = Raise TypeError)
  /\ (Forall (fun df => rows df = [])
        (indicator_frames one_fails sample_countries four_indicators
           2000 2024 no_fetches) ->
      snd (get_worldbank_data one_fails sample_countries four_indicators
             2000 2024 no_fetches)
      = Ok {| columns := canonical_columns; rows := [] |}).
Proof.
  apply (built_table_is_sorted_concatenation one_fails sample_countries four_indicators
           2000 2024 no_fetches).
  - apply all_distinct_NoDup. vm_compute. reflexivity.
  - intros c _ e He. destruct He.
Defined.
